(** * Backlog Relay: the normalisation and probing layer of the four adapters

    A shallow embedding of [src/api/github.ts], [src/api/gitlab.ts],
    [src/api/jira.ts], [src/api/servicenow.ts], [src/api/factory.ts] and
    [src/api/base.ts], followed by the properties of the specification that
    concern them.

    The adapters receive untyped payloads ([any]) from the vendor SDKs, so the
    embedding carries a small model of JavaScript values with the operations the
    adapters apply to them: property reads (which throw on [undefined] and
    [null]), truthiness, string conversion, [in], [toLowerCase], [includes],
    [trim], [parseInt] and the one regular expression shape the code uses. *)

From Stdlib Require Import String Ascii List ZArith Lia Bool.
From Stdlib Require Import Numbers.DecimalString.
From Stdlib Require DecimalPos.
Import ListNotations.

Set Warnings "-register-all".

Local Open Scope list_scope.
Local Open Scope string_scope.

(** ** JavaScript values and primitives *)

Module Js.

(** A number is [NaN] or an integer; the adapters only meet the integers that
    identify records (and [NaN] when [parseInt] finds no digit). Integers are
    exact here; the doubles of JavaScript agree with them below 2^53. *)
Inductive number : Type :=
| NaN
| Int (z : Z).

(** A value as the adapters see it: what JSON decoding yields, plus the two
    kinds of object that a read through [Object.prototype] can return. A string
    is the sequence of its code units; the model covers code units below 256. *)
Inductive value : Type :=
| VUndef
| VNull
| VBool (b : bool)
| VNum (n : number)
| VStr (s : string)
| VObj (fields : list (string * value))
| VArr (items : list value)
| VFun (name : string)
| VObjectPrototype.

(** What a JavaScript [throw] carries. [TypeError] is the engine's own (a read
    of a property of [undefined], a call of something that is no function);
    [RemoteFailure] is a rejected vendor call; [Error] is [new Error(message)]. *)
Inductive error : Type :=
| TypeError
| RemoteFailure (what : string)
| Error (message : string).

Inductive result (A : Type) : Type :=
| Ok (a : A)
| Throw (e : error).

Arguments Ok {A} a.
Arguments Throw {A} e.

Definition bind {A B : Type} (r : result A) (k : A -> result B) : result B :=
  match r with
  | Ok a => k a
  | Throw e => Throw e
  end.

Fixpoint mapM {A B : Type} (f : A -> result B) (l : list A) : result (list B) :=
  match l with
  | [] => Ok []
  | x :: rest =>
      bind (f x) (fun y => bind (mapM f rest) (fun ys => Ok (y :: ys)))
  end.

Definition is_ok {A : Type} (r : result A) : bool :=
  match r with
  | Ok _ => true
  | Throw _ => false
  end.

(** *** Strings *)

Definition code (c : ascii) : nat := nat_of_ascii c.

(** [String.prototype.toLowerCase] on one code unit below 256: A-Z, and the
    Latin-1 capitals U+00C0..U+00DE except the multiplication sign U+00D7. *)
Definition lower_unit (c : ascii) : ascii :=
  let n := code c in
  if ((65 <=? n) && (n <=? 90))%nat then ascii_of_nat (n + 32)
  else if ((192 <=? n) && (n <=? 222) && negb (n =? 215))%nat
       then ascii_of_nat (n + 32)
       else c.

Fixpoint toLowerCase (s : string) : string :=
  match s with
  | EmptyString => EmptyString
  | String c rest => String (lower_unit c) (toLowerCase rest)
  end.

(** [s.includes(t)]: [t] occurs in [s] as a contiguous run of code units. *)
Fixpoint includes (s t : string) : bool :=
  String.prefix t s ||
  match s with
  | EmptyString => false
  | String _ rest => includes rest t
  end.

(** White space in the sense of [trim]: tab, line feed, vertical tab, form
    feed, carriage return, space and the no-break space. *)
Definition is_white_space (c : ascii) : bool :=
  let n := code c in
  (((9 <=? n) && (n <=? 13)) || (n =? 32) || (n =? 160))%nat.

(** Line terminators in the sense of [.] and of [$] under the [m] flag. *)
Definition is_line_terminator (c : ascii) : bool :=
  let n := code c in
  ((n =? 10) || (n =? 13))%nat.

Fixpoint trimStart (s : string) : string :=
  match s with
  | EmptyString => EmptyString
  | String c rest => if is_white_space c then trimStart rest else s
  end.

Fixpoint trimEnd (s : string) : string :=
  match s with
  | EmptyString => EmptyString
  | String c rest =>
      match trimEnd rest with
      | EmptyString => if is_white_space c then EmptyString else String c EmptyString
      | kept => String c kept
      end
  end.

Definition trim (s : string) : string := trimEnd (trimStart s).

(** [s.slice(0, -1)]. *)
Fixpoint slice_0_minus1 (s : string) : string :=
  match s with
  | EmptyString => EmptyString
  | String c EmptyString => EmptyString
  | String c rest => String c (slice_0_minus1 rest)
  end.

Fixpoint skip (n : nat) (s : string) : string :=
  match n, s with
  | O, _ => s
  | S m, EmptyString => EmptyString
  | S m, String _ rest => skip m rest
  end.

(** The longest prefix of [s] without a line terminator: what a greedy [.+]
    consumes. *)
Fixpoint line_run (s : string) : string :=
  match s with
  | EmptyString => EmptyString
  | String c rest =>
      if is_line_terminator c then EmptyString else String c (line_run rest)
  end.

(** One attempt of the pattern [/<label>(.+)$/m] at the start of [s]: the
    literal, then a greedy run of at least one character that is no line
    terminator; after the longest such run the input ends or a line terminator
    follows, so [$] holds there and no backtracking takes place. *)
Definition exec_here (label s : string) : option string :=
  if String.prefix label s then
    match line_run (skip (String.length label) s) with
    | EmptyString => None
    | captured => Some captured
    end
  else None.

(** [s.match(/<label>(.+)$/m)?.[1]]: the capture of the leftmost position at
    which the pattern matches, [None] when [match] returns [null]. *)
Fixpoint match_capture (label s : string) : option string :=
  match exec_here label s with
  | Some captured => Some captured
  | None =>
      match s with
      | EmptyString => None
      | String _ rest => match_capture label rest
      end
  end.

Fixpoint join (sep : string) (l : list string) : string :=
  match l with
  | [] => EmptyString
  | [x] => x
  | x :: rest => x ++ sep ++ join sep rest
  end.

(** *** parseInt *)

Definition digit_value (radix : nat) (c : ascii) : option nat :=
  let n := code c in
  let d :=
    if ((48 <=? n) && (n <=? 57))%nat then Some (n - 48)%nat
    else if ((97 <=? n) && (n <=? 122))%nat then Some (n - 87)%nat
    else if ((65 <=? n) && (n <=? 90))%nat then Some (n - 55)%nat
    else None in
  match d with
  | Some v => if (v <? radix)%nat then Some v else None
  | None => None
  end.

(** Reads the longest prefix of digits of [s]; [None] when there is none. *)
Fixpoint digits (radix : nat) (acc : option Z) (s : string) : option Z :=
  match s with
  | EmptyString => acc
  | String c rest =>
      match digit_value radix c with
      | Some d =>
          let sofar := match acc with Some a => a | None => 0%Z end in
          digits radix (Some (sofar * Z.of_nat radix + Z.of_nat d)%Z) rest
      | None => acc
      end
  end.

Definition strip_hex_prefix (s : string) : option string :=
  match s with
  | String "0" (String "x" rest) => Some rest
  | String "0" (String "X" rest) => Some rest
  | _ => None
  end.

(** [parseInt(s)] with no radix argument. *)
Definition parseInt (s : string) : number :=
  let s1 := trimStart s in
  let '(negative, s2) :=
    match s1 with
    | String "-" rest => (true, rest)
    | String "+" rest => (false, rest)
    | _ => (false, s1)
    end in
  let magnitude :=
    match strip_hex_prefix s2 with
    | Some rest => digits 16 None rest
    | None => digits 10 None s2
    end in
  match magnitude with
  | Some m => Int (if negative then (- m)%Z else m)
  | None => NaN
  end.

Definition number_to_string (n : number) : string :=
  match n with
  | NaN => "NaN"
  | Int z => NilZero.string_of_int (Z.to_int z)
  end.

(** *** Objects *)

Fixpoint assoc {A : Type} (k : string) (l : list (string * A)) : option A :=
  match l with
  | [] => None
  | (k', v) :: rest => if String.eqb k k' then Some v else assoc k rest
  end.

Definition has_own {A : Type} (k : string) (l : list (string * A)) : bool :=
  match assoc k l with
  | Some _ => true
  | None => false
  end.

(** The methods every ordinary object inherits from [Object.prototype]. *)
Definition object_prototype_methods : list string :=
  [ "hasOwnProperty"; "isPrototypeOf"; "propertyIsEnumerable";
    "toLocaleString"; "toString"; "valueOf";
    "__defineGetter__"; "__defineSetter__";
    "__lookupGetter__"; "__lookupSetter__" ].

Definition mem (k : string) (l : list string) : bool :=
  existsb (String.eqb k) l.

(** A read of [k] that reaches [Object.prototype]. *)
Definition inherited (k : string) : value :=
  if String.eqb k "constructor" then VFun "Object"
  else if String.eqb k "__proto__" then VObjectPrototype
  else if mem k object_prototype_methods then VFun k
  else VUndef.

Definition is_inherited (k : string) : bool :=
  String.eqb k "constructor" || String.eqb k "__proto__"
  || mem k object_prototype_methods.

(** [o[k]] on an ordinary object (an object literal or a decoded JSON object):
    own properties first, then the prototype. *)
Definition lookup (fields : list (string * value)) (k : string) : value :=
  match assoc k fields with
  | Some v => v
  | None => inherited k
  end.

(** [v.k] or [v[k]]. It throws on [undefined] and [null]. On the other values
    that are no ordinary object the names the adapters read are not defined,
    so the read yields [undefined]. *)
Definition get (v : value) (k : string) : result value :=
  match v with
  | VUndef | VNull => Throw TypeError
  | VObj fields => Ok (lookup fields k)
  | VObjectPrototype => Ok (inherited k)
  | _ => Ok VUndef
  end.

(** [k in v]; the operator throws when [v] is a primitive. *)
Definition in_op (k : string) (v : value) : result bool :=
  match v with
  | VObj fields => Ok (has_own k fields || is_inherited k)
  | VArr _ | VFun _ | VObjectPrototype => Ok (is_inherited k)
  | _ => Throw TypeError
  end.

Definition truthy (v : value) : bool :=
  match v with
  | VUndef | VNull => false
  | VBool b => b
  | VNum NaN => false
  | VNum (Int z) => negb (z =? 0)%Z
  | VStr s => negb (String.eqb s EmptyString)
  | _ => true
  end.

(** [a || b] on values. *)
Definition or_else (a b : value) : value := if truthy a then a else b.

(** [a === "literal"]. *)
Definition strict_eq_string (v : value) (s : string) : bool :=
  match v with
  | VStr s' => String.eqb s' s
  | _ => false
  end.

(** The abstract operation ToString, as a template literal and a property key
    apply it. An object that carries a [toString] field of its own (decoded
    data, hence not callable) has no primitive value and the conversion
    throws. *)
Fixpoint to_string (v : value) : result string :=
  match v with
  | VUndef => Ok "undefined"
  | VNull => Ok "null"
  | VBool true => Ok "true"
  | VBool false => Ok "false"
  | VNum n => Ok (number_to_string n)
  | VStr s => Ok s
  | VObj fields =>
      if has_own "toString" fields then Throw TypeError
      else Ok "[object Object]"
  | VArr items =>
      (fix go (l : list value) : result string :=
         match l with
         | [] => Ok EmptyString
         | x :: rest =>
             bind (match x with
                   | VUndef | VNull => Ok EmptyString
                   | _ => to_string x
                   end)
               (fun sx =>
                  match rest with
                  | [] => Ok sx
                  | _ => bind (go rest) (fun sr => Ok (sx ++ "," ++ sr))
                  end)
         end) items
  | VFun name => Ok ("function " ++ name ++ "() { [native code] }")
  | VObjectPrototype => Ok "[object Object]"
  end.

(** The method call [v.toString()]. *)
Definition toString_method (v : value) : result string :=
  match v with
  | VUndef | VNull => Throw TypeError
  | _ => to_string v
  end.

(** The method call [v.toLowerCase()]: only strings have the method. *)
Definition toLowerCase_method (v : value) : result string :=
  match v with
  | VStr s => Ok (toLowerCase s)
  | _ => Throw TypeError
  end.

(** The method call [v.match(/<label>(.+)$/m)?.[1]]. *)
Definition match_method (v : value) (label : string) : result (option string) :=
  match v with
  | VStr s => Ok (match_capture label s)
  | _ => Throw TypeError
  end.

Definition of_option_string (o : option string) : value :=
  match o with
  | Some s => VStr s
  | None => VUndef
  end.

End Js.

Import Js.

Declare Scope result_scope.
Delimit Scope result_scope with result.
Notation "'let*' x ':=' e 'in' k" := (Js.bind e (fun x => k))
  (at level 10, x name, e at level 100, k at level 200) : result_scope.
Local Open Scope result_scope.

(** ** The shared ticket model ([src/types/tickets.d.ts], [src/api/base.ts])

    The TypeScript field types are erased at run time: an adapter copies
    whatever the platform sent, so the fields hold values. *)

Module Tickets.

Record Person : Type := {
  person_id : value;
  person_name : value
}.

Record BaseTicket : Type := {
  id : value;
  title : value;
  description : value;
  createdAt : value;
  updatedAt : value;
  status : value;
  author : Person;
  assignee : option Person
}.

(** [type: "issue"] and [type: "pullRequest"] are the two constructors. *)
Inductive StandardTicket : Type :=
| StandardIssue (base : BaseTicket)
| StandardPullRequest (base : BaseTicket)
    (sourceBranch targetBranch state : value).

Definition base_of (t : StandardTicket) : BaseTicket :=
  match t with
  | StandardIssue b => b
  | StandardPullRequest b _ _ _ => b
  end.

Definition status_of (t : StandardTicket) : value := status (base_of t).

Definition state_of (t : StandardTicket) : option value :=
  match t with
  | StandardIssue _ => None
  | StandardPullRequest _ _ _ st => Some st
  end.

Definition sourceBranch_of (t : StandardTicket) : option value :=
  match t with
  | StandardIssue _ => None
  | StandardPullRequest _ source _ _ => Some source
  end.

Definition targetBranch_of (t : StandardTicket) : option value :=
  match t with
  | StandardIssue _ => None
  | StandardPullRequest _ _ target _ => Some target
  end.

Record TicketComment : Type := {
  comment_id : value;
  content : value;
  comment_author : Person;
  comment_createdAt : value
}.

Record CreateTicketOptions : Type := {
  opt_title : string;
  opt_description : string;
  opt_assigneeId : option string;
  opt_labels : option (list string)
}.

(** [Partial<CreateTicketOptions>]. *)
Record PartialCreateTicketOptions : Type := {
  upd_title : option string;
  upd_description : option string;
  upd_assigneeId : option string;
  upd_labels : option (list string)
}.

Record CreateReviewRequest : Type := {
  rr_title : string;
  rr_description : string;
  rr_sourceBranch : string;
  rr_targetBranch : string;
  rr_reviewers : option (list string);
  rr_labels : option (list string)
}.

(** The argument of [getTickets]: [options?: {status?, assigneeId?}]. *)
Record TicketFilter : Type := {
  filter_status : option string;
  filter_assigneeId : option string
}.

(** [options?.status] and [options?.assigneeId]. *)
Definition status_opt (options : option TicketFilter) : option string :=
  match options with
  | Some o => filter_status o
  | None => None
  end.

Definition assigneeId_opt (options : option TicketFilter) : option string :=
  match options with
  | Some o => filter_assigneeId o
  | None => None
  end.

(** The truthiness test [if (x)] on an optional string. *)
Definition given (o : option string) : bool := truthy (of_option_string o).

Definition strings (l : list string) : value := VArr (map VStr l).

End Tickets.

Import Tickets.

(** ** The vendor transports

    The SDK clients are external: a transport answers each request with a
    response or rejects it. An adapter operation is a short sequence of
    requests; running it against a transport yields the requests it issued, in
    order, and its outcome. *)

Module Remote.

Inductive request : Type :=
(* Octokit *)
| PullsGet (args : value)
| IssuesGet (args : value)
| IssuesListForRepo (args : value)
| IssuesUpdate (args : value)
| IssuesCreateComment (args : value)
(* Gitbeaker *)
| MergeRequestsShow (projectId : value) (iid : number)
| IssuesShow (projectId : value) (iid : number)
| IssuesAll (args : value)
| IssuesEdit (projectId : value) (iid : number) (options : value)
| MergeRequestNotesCreate (projectId : value) (iid : number) (body : string)
| IssueNotesCreate (projectId : value) (iid : number) (body : string)
(* jira.js *)
| GetIssue (args : value)
| SearchForIssuesUsingJql (args : value)
| CreateIssue (args : value)
| AddWatcher (args : value)
(* axios *)
| HttpGet (url : string)
| HttpPatch (url : string) (payload : value)
| HttpPost (url : string) (payload : value).

Definition transport : Type := request -> result value.

Definition M (A : Type) : Type := transport -> list request * result A.

Definition ret {A : Type} (a : A) : M A := fun _ => ([], Ok a).

Definition throw {A : Type} (e : error) : M A := fun _ => ([], Throw e).

Definition lift {A : Type} (r : result A) : M A := fun _ => ([], r).

(** [await client.f(args)]. *)
Definition call (q : request) : M value := fun t => ([q], t q).

Definition bind {A B : Type} (m : M A) (k : A -> M B) : M B :=
  fun t =>
    match m t with
    | (issued, Ok a) => let '(more, r) := k a t in (issued ++ more, r)%list
    | (issued, Throw e) => (issued, Throw e)
    end.

(** [try { body } catch { handler }]: the handler runs when anything in the
    body throws, and what was thrown is dropped. *)
Definition try_catch {A : Type} (body handler : M A) : M A :=
  fun t =>
    match body t with
    | (issued, Ok a) => (issued, Ok a)
    | (issued, Throw _) =>
        let '(more, r) := handler t in (issued ++ more, r)%list
    end.

Definition issued {A : Type} (m : M A) (t : transport) : list request :=
  fst (m t).

Definition outcome {A : Type} (m : M A) (t : transport) : result A :=
  snd (m t).

End Remote.

Import Remote.

Declare Scope remote_scope.
Delimit Scope remote_scope with remote.
Notation "'let!' x ':=' e 'in' k" := (Remote.bind e (fun x => k))
  (at level 10, x name, e at level 100, k at level 200) : remote_scope.
Local Open Scope remote_scope.

(** ** The vendor calls of the write paths

    The operations that create or edit records use SDK entry points beyond
    the requests above. A vendor call is one of those requests or one of these
    entry points; an operation over vendor calls is run against a vendor, and
    an operation over requests runs inside one through [widen]. *)

Module Vendor.

Inductive vendor_call : Type :=
| Request (q : request)
(* Octokit *)
| IssuesCreate (args : value)
| PullsCreate (args : value)
| PullsRequestReviewers (args : value)
(* Gitbeaker *)
| ProjectIssuesCreate (projectId : value) (options : value)
| MergeRequestsCreate (projectId : value)
    (sourceBranch targetBranch title : string) (options : value)
(* jira.js *)
| EditIssue (args : value)
| AddComment (args : value).

Definition vendor : Type := vendor_call -> result value.

Definition W (A : Type) : Type := vendor -> list vendor_call * result A.

Definition finish {A : Type} (a : A) : W A := fun _ => ([], Ok a).

Definition compute {A : Type} (r : result A) : W A := fun _ => ([], r).

Definition invoke (q : vendor_call) : W value := fun v => ([q], v q).

Definition and_then {A B : Type} (m : W A) (k : A -> W B) : W B :=
  fun v =>
    match m v with
    | (sent, Ok a) => let '(more, r) := k a v in (sent ++ more, r)%list
    | (sent, Throw e) => (sent, Throw e)
    end.

(** The transport a vendor offers to the operations over requests. *)
Definition requests_of (v : vendor) : transport := fun q => v (Request q).

Definition widen {A : Type} (m : M A) : W A :=
  fun v => let '(sent, r) := m (requests_of v) in (map Request sent, r).

Definition sent {A : Type} (m : W A) (v : vendor) : list vendor_call :=
  fst (m v).

Definition final {A : Type} (m : W A) (v : vendor) : result A :=
  snd (m v).

End Vendor.

Import Vendor.

Declare Scope vendor_scope.
Delimit Scope vendor_scope with vendor.
Notation "'let&' x ':=' e 'in' k" := (Vendor.and_then e (fun x => k))
  (at level 10, x name, e at level 100, k at level 200) : vendor_scope.
Local Open Scope vendor_scope.

(** [x ? {id: f(x.id), name: x.<name>} : undefined], the shape of every
    [assignee] field. *)
Definition optional_person (x : value)
    (read : value -> result Person) : result (option Person) :=
  if truthy x then (let* p := read x in Ok (Some p)) else Ok None.

(** [response.map(f)] on what should be an array. *)
Definition map_array {A : Type} (f : value -> result A) (v : value)
    : result (list A) :=
  match v with
  | VArr items => mapM f items
  | _ => Throw TypeError
  end.

(** ** The constructors of the vendor SDKs

    [new Octokit(options)] and [new Version3Client(options)] run code of the
    vendor libraries, and both can throw on the options they are given. The
    adapters are modelled against any behaviour of the two: a constructor
    maps its options to [Ok tt] when it returns and to what it throws
    otherwise. *)

Module Sdk.

Record constructors : Type := {
  Octokit : value -> result unit;
  Version3Client : value -> result unit
}.

End Sdk.

(** ** GitHub ([src/api/github.ts]) *)

Module GitHubClient.

Record client : Type := {
  config : value;
  owner : value;
  repo : value
}.

(** The constructor: [new Octokit({auth: config.auth.apiToken})] reads through
    [config.auth] and then runs the constructor of the SDK, which may throw. *)
Definition new (sdk : Sdk.constructors) (cfg : value) : result client :=
  let* auth := get cfg "auth" in
  let* apiToken := get auth "apiToken" in
  let* _ := Sdk.Octokit sdk (VObj [ ("auth", apiToken) ]) in
  let* o := get cfg "owner" in
  let* r := get cfg "repo" in
  Ok {| config := cfg; owner := o; repo := r |}.

Definition user_person (u : value) : result Person :=
  let* uid := get u "id" in
  let* uid_s := toString_method uid in
  let* login := get u "login" in
  Ok {| person_id := VStr uid_s; person_name := login |}.

Definition normalizeTicket (platformTicket : value) : result StandardTicket :=
  let* number := get platformTicket "number" in
  let* id_s := toString_method number in
  let* title_v := get platformTicket "title" in
  let* body := get platformTicket "body" in
  let* created_at := get platformTicket "created_at" in
  let* updated_at := get platformTicket "updated_at" in
  let* state := get platformTicket "state" in
  let* user := get platformTicket "user" in
  let* author_p := user_person user in
  let* assignee_v := get platformTicket "assignee" in
  let* assignee_p := optional_person assignee_v user_person in
  let base :=
    {| id := VStr id_s;
       title := title_v;
       description := or_else body (VStr EmptyString);
       createdAt := created_at;
       updatedAt := updated_at;
       status := state;
       author := author_p;
       assignee := assignee_p |} in
  let* is_pr := in_op "pull_request" platformTicket in
  if is_pr then
    let* head := get platformTicket "head" in
    let* head_ref := get head "ref" in
    let* base_v := get platformTicket "base" in
    let* base_ref := get base_v "ref" in
    let* state' := get platformTicket "state" in
    Ok (StandardPullRequest base head_ref base_ref state')
  else Ok (StandardIssue base).

Definition normalizeComment (platformComment : value) : result TicketComment :=
  let* cid := get platformComment "id" in
  let* cid_s := toString_method cid in
  let* body := get platformComment "body" in
  let* user := get platformComment "user" in
  let* author_p := user_person user in
  let* created_at := get platformComment "created_at" in
  Ok {| comment_id := VStr cid_s;
        content := body;
        comment_author := author_p;
        comment_createdAt := created_at |}.

Definition getTicket (c : client) (ticketId : string) : M StandardTicket :=
  try_catch
    (let! response :=
       call (PullsGet (VObj [ ("owner", owner c); ("repo", repo c);
                              ("pull_number", VNum (parseInt ticketId)) ])) in
     let! pr := lift (get response "data") in
     lift (normalizeTicket pr))
    (let! response :=
       call (IssuesGet (VObj [ ("owner", owner c); ("repo", repo c);
                               ("issue_number", VNum (parseInt ticketId)) ])) in
     let! issue := lift (get response "data") in
     lift (normalizeTicket issue)).

Definition getTickets (c : client) (options : option TicketFilter)
    : M (list StandardTicket) :=
  let! response :=
    call (IssuesListForRepo
            (VObj [ ("owner", owner c); ("repo", repo c);
                    ("state", or_else (of_option_string (status_opt options))
                                      (VStr "open"));
                    ("assignee", of_option_string (assigneeId_opt options)) ])) in
  let! issues := lift (get response "data") in
  lift (map_array normalizeTicket issues).

Definition assignees_of (assigneeId : option string) : value :=
  if given assigneeId then VArr [of_option_string assigneeId] else VUndef.

Definition labels_of (labels : option (list string)) : value :=
  match labels with
  | Some l => strings l
  | None => VUndef
  end.

Definition updateTicket (c : client) (ticketId : string)
    (updates : PartialCreateTicketOptions) : M StandardTicket :=
  let! response :=
    call (IssuesUpdate
            (VObj [ ("owner", owner c); ("repo", repo c);
                    ("issue_number", VNum (parseInt ticketId));
                    ("title", of_option_string (upd_title updates));
                    ("body", of_option_string (upd_description updates));
                    ("assignees", assignees_of (upd_assigneeId updates));
                    ("labels", labels_of (upd_labels updates)) ])) in
  let! data := lift (get response "data") in
  lift (normalizeTicket data).

Definition addComment (c : client) (ticketId comment : string)
    : M TicketComment :=
  let! response :=
    call (IssuesCreateComment
            (VObj [ ("owner", owner c); ("repo", repo c);
                    ("issue_number", VNum (parseInt ticketId));
                    ("body", VStr comment) ])) in
  let! data := lift (get response "data") in
  lift (normalizeComment data).


Definition createTicket (c : client) (options : CreateTicketOptions)
    : W StandardTicket :=
  let& response :=
    invoke
      (IssuesCreate
         (VObj [ ("owner", owner c); ("repo", repo c);
                 ("title", VStr (opt_title options));
                 ("body", VStr (opt_description options));
                 ("assignees", assignees_of (opt_assigneeId options));
                 ("labels", labels_of (opt_labels options)) ])) in
  let& data := compute (get response "data") in
  compute (normalizeTicket data).

(** What [createReviewRequest] passes to [pulls.create] and to
    [pulls.requestReviewers]. *)
Definition pull_args (c : client) (options : CreateReviewRequest) : value :=
  VObj [ ("owner", owner c); ("repo", repo c);
         ("title", VStr (rr_title options));
         ("body", VStr (rr_description options));
         ("head", VStr (rr_sourceBranch options));
         ("base", VStr (rr_targetBranch options)) ].

Definition reviewers_args (c : client) (number : value)
    (reviewers : list string) : value :=
  VObj [ ("owner", owner c); ("repo", repo c);
         ("pull_number", number);
         ("reviewers", strings reviewers) ].

Definition createReviewRequest (c : client) (options : CreateReviewRequest)
    : W StandardTicket :=
  let& response := invoke (PullsCreate (pull_args c options)) in
  let& data := compute (get response "data") in
  let& _ :=
    match rr_reviewers options with
    | Some (first :: others) =>
        let& number := compute (get data "number") in
        let& _ :=
          invoke (PullsRequestReviewers
                    (reviewers_args c number (first :: others))) in
        finish tt
    | _ => finish tt
    end in
  compute (normalizeTicket data).

End GitHubClient.

(** ** GitLab ([src/api/gitlab.ts]) *)

Module GitLabClient.

Record client : Type := {
  config : value;
  projectId : value
}.

Definition new (cfg : value) : result client :=
  let* _ := get cfg "apiToken" in
  let* _ := get cfg "baseUrl" in
  let* p := get cfg "projectId" in
  Ok {| config := cfg; projectId := p |}.

Definition mapStatus (status : option string) : value :=
  if negb (given status) then VUndef
  else
    match status with
    | Some s =>
        let lowered := toLowerCase s in
        if String.eqb lowered "open" then VStr "opened"
        else if String.eqb lowered "closed" then VStr "closed"
        else VUndef
    | None => VUndef
    end.

Definition normalizeStatus (status : value) : result value :=
  let* lowered := toLowerCase_method status in
  if String.eqb lowered "opened" then Ok (VStr "open") else Ok status.

Definition user_person (u : value) : result Person :=
  let* uid := get u "id" in
  let* uid_s := toString_method uid in
  let* username := get u "username" in
  Ok {| person_id := VStr uid_s; person_name := username |}.

Definition normalizeTicket (platformTicket : value) : result StandardTicket :=
  let* iid := get platformTicket "iid" in
  let* id_s := toString_method iid in
  let* title_v := get platformTicket "title" in
  let* description_v := get platformTicket "description" in
  let* created_at := get platformTicket "created_at" in
  let* updated_at := get platformTicket "updated_at" in
  let* state := get platformTicket "state" in
  let* status_v := normalizeStatus state in
  let* author_v := get platformTicket "author" in
  let* author_p := user_person author_v in
  let* assignee_v := get platformTicket "assignee" in
  let* assignee_p := optional_person assignee_v user_person in
  let base :=
    {| id := VStr id_s;
       title := title_v;
       description := or_else description_v (VStr EmptyString);
       createdAt := created_at;
       updatedAt := updated_at;
       status := status_v;
       author := author_p;
       assignee := assignee_p |} in
  let* is_mr := in_op "source_branch" platformTicket in
  if is_mr then
    let* source_branch := get platformTicket "source_branch" in
    let* target_branch := get platformTicket "target_branch" in
    let* state' := get platformTicket "state" in
    Ok (StandardPullRequest base source_branch target_branch state')
  else Ok (StandardIssue base).

Definition normalizeComment (platformComment : value) : result TicketComment :=
  let* cid := get platformComment "id" in
  let* cid_s := toString_method cid in
  let* body := get platformComment "body" in
  let* author_v := get platformComment "author" in
  let* author_p := user_person author_v in
  let* created_at := get platformComment "created_at" in
  Ok {| comment_id := VStr cid_s;
        content := body;
        comment_author := author_p;
        comment_createdAt := created_at |}.

Definition getTicket (c : client) (ticketId : string) : M StandardTicket :=
  try_catch
    (let! mr := call (MergeRequestsShow (projectId c) (parseInt ticketId)) in
     lift (normalizeTicket mr))
    (let! issue := call (IssuesShow (projectId c) (parseInt ticketId)) in
     lift (normalizeTicket issue)).

Definition getTickets (c : client) (options : option TicketFilter)
    : M (list StandardTicket) :=
  let! issues :=
    call (IssuesAll
            (VObj [ ("projectId", projectId c);
                    ("state", mapStatus (status_opt options));
                    ("assigneeId",
                     match assigneeId_opt options with
                     | Some a => if given (Some a) then VNum (parseInt a)
                                 else VUndef
                     | None => VUndef
                     end) ])) in
  lift (map_array normalizeTicket issues).

Definition assigneeIds_of (assigneeId : option string) : value :=
  match assigneeId with
  | Some a => if given (Some a) then VArr [VNum (parseInt a)] else VUndef
  | None => VUndef
  end.

(** [labels?.join(",")]. *)
Definition joined_labels (labels : option (list string)) : value :=
  match labels with
  | Some l => VStr (join "," l)
  | None => VUndef
  end.

Definition updateTicket (c : client) (ticketId : string)
    (updates : PartialCreateTicketOptions) : M StandardTicket :=
  let! issue :=
    call (IssuesEdit (projectId c) (parseInt ticketId)
            (VObj [ ("title", of_option_string (upd_title updates));
                    ("description", of_option_string (upd_description updates));
                    ("assigneeIds", assigneeIds_of (upd_assigneeId updates));
                    ("labels", joined_labels (upd_labels updates)) ])) in
  lift (normalizeTicket issue).

Definition addComment (c : client) (ticketId comment : string)
    : M TicketComment :=
  try_catch
    (let! note :=
       call (MergeRequestNotesCreate (projectId c) (parseInt ticketId) comment) in
     lift (normalizeComment note))
    (let! note :=
       call (IssueNotesCreate (projectId c) (parseInt ticketId) comment) in
     lift (normalizeComment note)).


Definition createTicket (c : client) (options : CreateTicketOptions)
    : W StandardTicket :=
  let& issue :=
    invoke
      (ProjectIssuesCreate (projectId c)
         (VObj [ ("title", VStr (opt_title options));
                 ("description", VStr (opt_description options));
                 ("assigneeIds", assigneeIds_of (opt_assigneeId options));
                 ("labels", joined_labels (opt_labels options)) ])) in
  compute (normalizeTicket issue).

(** [options.reviewers?.map((r) => parseInt(r))]. *)
Definition reviewer_ids (reviewers : option (list string)) : value :=
  match reviewers with
  | Some l => VArr (map (fun r => VNum (parseInt r)) l)
  | None => VUndef
  end.

Definition createReviewRequest (c : client) (options : CreateReviewRequest)
    : W StandardTicket :=
  let& mr :=
    invoke
      (MergeRequestsCreate (projectId c)
         (rr_sourceBranch options) (rr_targetBranch options) (rr_title options)
         (VObj [ ("description", VStr (rr_description options));
                 ("reviewers", reviewer_ids (rr_reviewers options));
                 ("labels", joined_labels (rr_labels options)) ])) in
  compute (normalizeTicket mr).

End GitLabClient.

(** ** Branch metadata in the description (Jira and ServiceNow)

    Both [createReviewRequest] bodies build the same template literal and both
    [normalizeTicket] bodies read it back with the same two patterns. *)

Definition nl : string := String "010"%char EmptyString.

Definition dquote : string := String "034"%char EmptyString.

(** [options.reviewers?.join(", ") || "None assigned"]. *)
Definition reviewers_line (reviewers : option (list string)) : string :=
  match reviewers with
  | Some l =>
      let joined := join ", " l in
      if String.eqb joined EmptyString then "None assigned" else joined
  | None => "None assigned"
  end.

Definition review_description (options : CreateReviewRequest) : string :=
  trim (nl ++ rr_description options ++ nl ++ nl
        ++ "Source Branch: " ++ rr_sourceBranch options ++ nl
        ++ "Target Branch: " ++ rr_targetBranch options ++ nl
        ++ "Reviewers: " ++ reviewers_line (rr_reviewers options) ++ nl
        ++ "    ").

(** [description.match(/<label>(.+)$/m)?.[1] || "unknown"]. *)
Definition extract_branch (description : value) (label : string) : result value :=
  let* captured := match_method description label in
  Ok (or_else (of_option_string captured) (VStr "unknown")).

(** ** Jira ([src/api/jira.ts]) *)

Module JiraClient.

Record client : Type := {
  config : value;
  projectKey : value
}.

(** What the constructor passes to [new Version3Client]. *)
Definition client_options (host email apiToken : value) : value :=
  VObj [ ("host", host);
         ("authentication",
          VObj [ ("basic", VObj [ ("email", email);
                                  ("apiToken", apiToken) ]) ]) ].

(** The constructor runs [new Version3Client] on [config.baseUrl] and the
    credentials; the constructor of the SDK may throw. *)
Definition new (sdk : Sdk.constructors) (cfg : value) : result client :=
  let* host := get cfg "baseUrl" in
  let* email := get cfg "email" in
  let* apiToken := get cfg "apiToken" in
  let* _ := Sdk.Version3Client sdk (client_options host email apiToken) in
  let* k := get cfg "projectKey" in
  Ok {| config := cfg; projectKey := k |}.

Definition requested_fields : value :=
  strings [ "summary"; "description"; "status"; "created"; "updated";
            "assignee"; "reporter" ].

Definition mapJiraStatusToPRState (status : string) : string :=
  let lowerStatus := toLowerCase status in
  if includes lowerStatus "done" || includes lowerStatus "merged" then "merged"
  else if includes lowerStatus "closed" || includes lowerStatus "rejected"
       then "closed"
       else "open".

Definition account_person (u : value) : result Person :=
  let* account := get u "accountId" in
  let* display := get u "displayName" in
  Ok {| person_id := account; person_name := display |}.

Definition normalizeTicket (platformTicket : value) : result StandardTicket :=
  let* key := get platformTicket "key" in
  let* fields := get platformTicket "fields" in
  let* summary := get fields "summary" in
  let* description_v := get fields "description" in
  let* created := get fields "created" in
  let* updated := get fields "updated" in
  let* status_v := get fields "status" in
  let* status_name := get status_v "name" in
  let* lowered := toLowerCase_method status_name in
  let* reporter := get fields "reporter" in
  let* author_p := account_person reporter in
  let* assignee_v := get fields "assignee" in
  let* assignee_p := optional_person assignee_v account_person in
  let base :=
    {| id := key;
       title := summary;
       description := or_else description_v (VStr EmptyString);
       createdAt := created;
       updatedAt := updated;
       status := VStr lowered;
       author := author_p;
       assignee := assignee_p |} in
  let* issuetype := get fields "issuetype" in
  let* issuetype_name := get issuetype "name" in
  if strict_eq_string issuetype_name "Review" then
    let description' := or_else description_v (VStr EmptyString) in
    let* source := extract_branch description' "Source Branch: " in
    let* target := extract_branch description' "Target Branch: " in
    match status_name with
    | VStr name =>
        Ok (StandardPullRequest base source target
              (VStr (mapJiraStatusToPRState name)))
    | _ => Throw TypeError
    end
  else Ok (StandardIssue base).

Definition getTicket (c : client) (ticketId : value) : M StandardTicket :=
  let! issue :=
    call (GetIssue (VObj [ ("issueIdOrKey", ticketId);
                           ("fields", requested_fields) ])) in
  lift (normalizeTicket issue).

(** The JQL text [getTickets] sends. *)
Definition jql_of (c : client) (options : option TicketFilter) : result string :=
  let* key := to_string (projectKey c) in
  let jql := "project = " ++ key in
  let jql :=
    match status_opt options with
    | Some s => if given (Some s) then jql ++ " AND status = " ++ dquote ++ s ++ dquote
                else jql
    | None => jql
    end in
  let jql :=
    match assigneeId_opt options with
    | Some a => if given (Some a) then jql ++ " AND assignee = " ++ dquote ++ a ++ dquote
                else jql
    | None => jql
    end in
  Ok jql.

Definition getTickets (c : client) (options : option TicketFilter)
    : M (list StandardTicket) :=
  let! jql := lift (jql_of c options) in
  let! response :=
    call (SearchForIssuesUsingJql (VObj [ ("jql", VStr jql);
                                          ("fields", requested_fields) ])) in
  let! issues := lift (get response "issues") in
  lift (map_array normalizeTicket issues).

Definition labels_with_code_review (labels : option (list string)) : value :=
  match labels with
  | Some l => strings (l ++ ["code-review"])%list
  | None => strings ["code-review"]
  end.

Definition createReviewRequest (c : client) (options : CreateReviewRequest)
    : M StandardTicket :=
  let description := review_description options in
  let! issue :=
    call (CreateIssue
            (VObj [ ("fields",
                     VObj [ ("project", VObj [ ("key", projectKey c) ]);
                            ("summary", VStr (rr_title options));
                            ("description", VStr description);
                            ("issuetype", VObj [ ("name", VStr "Review") ]);
                            ("labels",
                             labels_with_code_review (rr_labels options)) ]) ])) in
  let! _ :=
    match rr_reviewers options with
    | Some (first :: _) =>
        let! key := lift (get issue "key") in
        let! _ := call (AddWatcher (VObj [ ("issueIdOrKey", key);
                                           ("username", VStr first) ])) in
        ret tt
    | _ => ret tt
    end in
  let! key := lift (get issue "key") in
  let! createdIssue := getTicket c key in
  ret (StandardPullRequest (base_of createdIssue)
         (VStr (rr_sourceBranch options))
         (VStr (rr_targetBranch options))
         (VStr "open")).


(** What [createTicket] passes to [createIssue]. *)
Definition create_args (c : client) (options : CreateTicketOptions) : value :=
  VObj [ ("fields",
          VObj [ ("project", VObj [ ("key", projectKey c) ]);
                 ("summary", VStr (opt_title options));
                 ("description", VStr (opt_description options));
                 ("issuetype", VObj [ ("name", VStr "Task") ]);
                 ("assignee",
                  if given (opt_assigneeId options)
                  then VObj [ ("id", of_option_string
                                       (opt_assigneeId options)) ]
                  else VUndef);
                 ("labels",
                  match opt_labels options with
                  | Some l => strings l
                  | None => VUndef
                  end) ]) ].

Definition createTicket (c : client) (options : CreateTicketOptions)
    : M StandardTicket :=
  let! issue := call (CreateIssue (create_args c options)) in
  let! key := lift (get issue "key") in
  getTicket c key.

(** The fields [updateTicket] fills one by one. A [labels] array is truthy
    even when it is empty. *)
Definition updateFields (updates : PartialCreateTicketOptions)
    : list (string * value) :=
  ((if given (upd_title updates)
    then [ ("summary", of_option_string (upd_title updates)) ] else [])
   ++ (if given (upd_description updates)
       then [ ("description", of_option_string (upd_description updates)) ]
       else [])
   ++ (if given (upd_assigneeId updates)
       then [ ("assignee",
               VObj [ ("id", of_option_string (upd_assigneeId updates)) ]) ]
       else [])
   ++ match upd_labels updates with
      | Some l => [ ("labels", strings l) ]
      | None => []
      end)%list.

Definition updateTicket (c : client) (ticketId : string)
    (updates : PartialCreateTicketOptions) : W StandardTicket :=
  let& _ :=
    invoke (EditIssue (VObj [ ("issueIdOrKey", VStr ticketId);
                                   ("fields", VObj (updateFields updates)) ])) in
  widen (getTicket c (VStr ticketId)).

Definition normalizeComment (platformComment : value) : result TicketComment :=
  let* cid := get platformComment "id" in
  let* body := get platformComment "body" in
  let* author_v := get platformComment "author" in
  let* author_p := account_person author_v in
  let* created := get platformComment "created" in
  Ok {| comment_id := cid;
        content := body;
        comment_author := author_p;
        comment_createdAt := created |}.

Definition addComment (c : client) (ticketId comment : string)
    : W TicketComment :=
  let& response :=
    invoke (AddComment (VObj [ ("issueIdOrKey", VStr ticketId);
                                    ("body", VStr comment) ])) in
  compute (normalizeComment response).

End JiraClient.

(** ** ServiceNow ([src/api/servicenow.ts]) *)

Module ServiceNowClient.

Record client : Type := {
  config : value;
  axios_config : value
}.

Definition TABLE_INCIDENT : string := "incident".
Definition TABLE_CHANGE_REQUEST : string := "change_request".

Definition new (cfg : value) : result client :=
  let* type := get cfg "type" in
  let* instance := get cfg "instance" in
  let* instance_s := to_string instance in
  let* auth := get cfg "auth" in
  let base_config :=
    VObj [ ("type", type);
           ("baseUrl", VStr ("https://" ++ instance_s ++ ".service-now.com"));
           ("auth", auth) ] in
  let headers :=
    [ ("Content-Type", VStr "application/json");
      ("Accept", VStr "application/json") ] in
  let* auth_type := get auth "type" in
  let* headers :=
    if strict_eq_string auth_type "oauth" then
      let* token := get auth "accessToken" in
      let* token_s := to_string token in
      Ok (headers ++ [ ("Authorization", VStr ("Bearer " ++ token_s)) ])%list
    else Ok headers in
  let* basic :=
    if strict_eq_string auth_type "basic" then
      let* username := get auth "username" in
      let* password := get auth "password" in
      Ok [ ("auth", VObj [ ("username", username); ("password", password) ]) ]
    else Ok [] in
  Ok {| config := base_config;
        axios_config :=
          VObj ([ ("baseURL",
                   VStr ("https://" ++ instance_s
                         ++ ".service-now.com/api/now/v2")) ]
                ++ basic ++ [ ("headers", VObj headers) ])%list |}.

Definition stateMap : list (string * value) :=
  [ ("1", VStr "new");
    ("2", VStr "in_progress");
    ("3", VStr "on_hold");
    ("6", VStr "resolved");
    ("7", VStr "closed");
    ("-5", VStr "pending") ].

(** [stateMap[status] || status]: the key is the string form of [status], and
    the read goes through the object literal's prototype. *)
Definition normalizeStatus (status : value) : result value :=
  let* key := to_string status in
  Ok (or_else (lookup stateMap key) status).

Definition reverseStateMap : list (string * value) :=
  [ ("new", VStr "1");
    ("in_progress", VStr "2");
    ("on_hold", VStr "3");
    ("resolved", VStr "6");
    ("closed", VStr "7");
    ("pending", VStr "-5") ].

Definition mapStatusToServiceNow (status : string) : value :=
  or_else (lookup reverseStateMap (toLowerCase status)) (VStr "1").

Definition mapServiceNowStateToPRState (state : value) : string :=
  if strict_eq_string state "3" then "open"
  else if strict_eq_string state "1" then "open"
  else if strict_eq_string state "2" then "open"
  else if strict_eq_string state "-5" then "open"
  else if strict_eq_string state "6" then "merged"
  else if strict_eq_string state "7" then "closed"
  else "open".

Definition assigned_person (a : value) : result Person :=
  let* v := get a "value" in
  let* d := get a "display_value" in
  Ok {| person_id := v; person_name := d |}.

Definition normalizeTicket (platformTicket : value) : result StandardTicket :=
  let* sys_id := get platformTicket "sys_id" in
  let* short_description := get platformTicket "short_description" in
  let* description_v := get platformTicket "description" in
  let* sys_created_on := get platformTicket "sys_created_on" in
  let* sys_updated_on := get platformTicket "sys_updated_on" in
  let* state := get platformTicket "state" in
  let* status_v := normalizeStatus state in
  let* sys_created_by := get platformTicket "sys_created_by" in
  let* assigned_to := get platformTicket "assigned_to" in
  let* assignee_p := optional_person assigned_to assigned_person in
  let base :=
    {| id := sys_id;
       title := short_description;
       description := or_else description_v (VStr EmptyString);
       createdAt := sys_created_on;
       updatedAt := sys_updated_on;
       status := status_v;
       author := {| person_id := sys_created_by;
                    person_name := sys_created_by |};
       assignee := assignee_p |} in
  let* sys_class_name := get platformTicket "sys_class_name" in
  let* category := get platformTicket "category" in
  if strict_eq_string sys_class_name TABLE_CHANGE_REQUEST
     && strict_eq_string category "Code Review" then
    let description' := or_else description_v (VStr EmptyString) in
    let* source := extract_branch description' "Source Branch: " in
    let* target := extract_branch description' "Target Branch: " in
    Ok (StandardPullRequest base source target
          (VStr (mapServiceNowStateToPRState state)))
  else Ok (StandardIssue base).

Definition normalizeComment (platformComment : value) : result TicketComment :=
  let* sys_id := get platformComment "sys_id" in
  let* work_notes := get platformComment "work_notes" in
  let* sys_updated_by := get platformComment "sys_updated_by" in
  let* sys_updated_on := get platformComment "sys_updated_on" in
  Ok {| comment_id := sys_id;
        content := or_else work_notes (VStr EmptyString);
        comment_author := {| person_id := sys_updated_by;
                             person_name := sys_updated_by |};
        comment_createdAt := sys_updated_on |}.

(** [const { data } = await ...; data.result]. *)
Definition result_of (response : value) : result value :=
  let* data := get response "data" in
  get data "result".

Definition record_url (table ticketId : string) : string :=
  "/table/" ++ table ++ "/" ++ ticketId.

Definition getTicket (c : client) (ticketId : string) : M StandardTicket :=
  try_catch
    (let! response := call (HttpGet (record_url TABLE_CHANGE_REQUEST ticketId)) in
     let! changeResult := lift (result_of response) in
     lift (normalizeTicket changeResult))
    (let! response := call (HttpGet (record_url TABLE_INCIDENT ticketId)) in
     let! incidentResult := lift (result_of response) in
     lift (normalizeTicket incidentResult)).

(** The query string [getTickets] appends to both table URLs. *)
Definition query_of (options : option TicketFilter) : result string :=
  let* query :=
    match status_opt options with
    | Some s =>
        if given (Some s) then
          let* code := to_string (mapStatusToServiceNow s) in
          Ok ("state=" ++ code ++ "^")
        else Ok EmptyString
    | None => Ok EmptyString
    end in
  let query :=
    match assigneeId_opt options with
    | Some a => if given (Some a) then query ++ "assigned_to=" ++ a ++ "^"
                else query
    | None => query
    end in
  if String.eqb query EmptyString then Ok query
  else Ok ("?sysparm_query=" ++ slice_0_minus1 query).

(** [Promise.all] issues both requests before either is awaited; the joined
    result lists the incidents first. *)
Definition getTickets (c : client) (options : option TicketFilter)
    : M (list StandardTicket) :=
  let! query := lift (query_of options) in
  fun t =>
    let incident_q := HttpGet ("/table/" ++ TABLE_INCIDENT ++ query) in
    let change_q := HttpGet ("/table/" ++ TABLE_CHANGE_REQUEST ++ query) in
    ([incident_q; change_q],
     let* incidentResponse := t incident_q in
     let* changeResponse := t change_q in
     let* incidents := result_of incidentResponse in
     let* incident_tickets := map_array normalizeTicket incidents in
     let* changes := result_of changeResponse in
     let* change_tickets := map_array normalizeTicket changes in
     Ok (incident_tickets ++ change_tickets)%list).

(** The payload [updateTicket] fills field by field. *)
Definition update_payload (updates : PartialCreateTicketOptions) : value :=
  let field (name : string) (o : option string) : list (string * value) :=
    if given o then [ (name, of_option_string o) ] else [] in
  VObj (field "short_description" (upd_title updates)
        ++ field "description" (upd_description updates)
        ++ field "assigned_to" (upd_assigneeId updates)
        ++ match upd_labels updates with
           | Some (first :: _) => [ ("category", VStr first) ]
           | _ => []
           end)%list.

Definition updateTicket (c : client) (ticketId : string)
    (updates : PartialCreateTicketOptions) : M StandardTicket :=
  let payload := update_payload updates in
  try_catch
    (let! response :=
       call (HttpPatch (record_url TABLE_CHANGE_REQUEST ticketId) payload) in
     let! r := lift (result_of response) in
     lift (normalizeTicket r))
    (let! response :=
       call (HttpPatch (record_url TABLE_INCIDENT ticketId) payload) in
     let! r := lift (result_of response) in
     lift (normalizeTicket r)).

Definition addComment (c : client) (ticketId comment : string)
    : M TicketComment :=
  let payload := VObj [ ("work_notes", VStr comment) ] in
  try_catch
    (let! response :=
       call (HttpPatch (record_url TABLE_CHANGE_REQUEST ticketId) payload) in
     let! r := lift (result_of response) in
     lift (normalizeComment r))
    (let! response :=
       call (HttpPatch (record_url TABLE_INCIDENT ticketId) payload) in
     let! r := lift (result_of response) in
     lift (normalizeComment r)).

Definition first_reviewer (reviewers : option (list string)) : value :=
  match reviewers with
  | Some (first :: _) => VStr first
  | _ => VUndef
  end.

(** [options.reviewers?.slice(1).join(",")]. *)
Definition watch_list (reviewers : option (list string)) : value :=
  match reviewers with
  | Some l => VStr (join "," (tl l))
  | None => VUndef
  end.

Definition review_payload (options : CreateReviewRequest) : value :=
  VObj [ ("short_description", VStr (rr_title options));
         ("description", VStr (review_description options));
         ("type", VStr "normal");
         ("category", VStr "Code Review");
         ("assigned_to", first_reviewer (rr_reviewers options));
         ("watch_list", watch_list (rr_reviewers options)) ].

Definition createReviewRequest (c : client) (options : CreateReviewRequest)
    : M StandardTicket :=
  let! response :=
    call (HttpPost ("/table/" ++ TABLE_CHANGE_REQUEST) (review_payload options)) in
  let! createdChange := lift (result_of response) in
  lift
    (let* sys_id := get createdChange "sys_id" in
     let* short_description := get createdChange "short_description" in
     let* description_v := get createdChange "description" in
     let* sys_created_on := get createdChange "sys_created_on" in
     let* sys_updated_on := get createdChange "sys_updated_on" in
     let* state := get createdChange "state" in
     let* status_v := normalizeStatus state in
     let* sys_created_by := get createdChange "sys_created_by" in
     let* assigned_to := get createdChange "assigned_to" in
     let* assignee_p := optional_person assigned_to assigned_person in
     Ok (StandardPullRequest
           {| id := sys_id;
              title := short_description;
              description := description_v;
              createdAt := sys_created_on;
              updatedAt := sys_updated_on;
              status := status_v;
              author := {| person_id := sys_created_by;
                           person_name := sys_created_by |};
              assignee := assignee_p |}
           (VStr (rr_sourceBranch options))
           (VStr (rr_targetBranch options))
           (VStr (mapServiceNowStateToPRState state)))).


(** [options.labels?.[0]]. *)
Definition first_label (labels : option (list string)) : value :=
  match labels with
  | Some (first :: _) => VStr first
  | _ => VUndef
  end.

Definition createTicket (c : client) (options : CreateTicketOptions)
    : M StandardTicket :=
  let payload :=
    VObj [ ("short_description", VStr (opt_title options));
           ("description", VStr (opt_description options));
           ("assigned_to", of_option_string (opt_assigneeId options));
           ("category", first_label (opt_labels options)) ] in
  let! response := call (HttpPost ("/table/" ++ TABLE_INCIDENT) payload) in
  let! r := lift (result_of response) in
  lift (normalizeTicket r).

End ServiceNowClient.

(** ** The factory ([src/api/factory.ts]) *)

Module TicketClientFactory.

Inductive TicketPlatformClient : Type :=
| GitHub (c : GitHubClient.client)
| GitLab (c : GitLabClient.client)
| Jira (c : JiraClient.client)
| ServiceNow (c : ServiceNowClient.client).

(** [a in config && b in config && ...], left to right with short circuit. *)
Fixpoint all_in (names : list string) (config : value) : result bool :=
  match names with
  | [] => Ok true
  | name :: rest =>
      let* present := in_op name config in
      if present then all_in rest config else Ok false
  end.

Definition createClient (sdk : Sdk.constructors) (config : value)
    : result TicketPlatformClient :=
  let* type := get config "type" in
  if strict_eq_string type "github" then
    let* c := GitHubClient.new sdk config in Ok (GitHub c)
  else if strict_eq_string type "gitlab" then
    let* complete := all_in [ "apiToken"; "projectId" ] config in
    if negb complete then Throw (Error "Invalid GitLab configuration")
    else let* c := GitLabClient.new config in Ok (GitLab c)
  else if strict_eq_string type "jira" then
    let* complete := all_in [ "apiToken"; "email"; "projectKey" ] config in
    if negb complete then Throw (Error "Invalid Jira configuration")
    else let* c := JiraClient.new sdk config in Ok (Jira c)
  else if strict_eq_string type "servicenow" then
    let* c := ServiceNowClient.new config in Ok (ServiceNow c)
  else
    let* tag := to_string type in
    Throw (Error ("Unknown platform type: " ++ tag)).

End TicketClientFactory.

(** ** Vocabulary of the properties *)

(** [s] contains [t]: the meaning of [s.includes(t)]. *)
Definition contains (s t : string) : Prop :=
  exists pre post, s = pre ++ t ++ post.

(** The engine's [TypeError] is the only thing the pure part of an adapter
    throws. *)
Definition only_TypeError {A : Type} (r : result A) : Prop :=
  forall e, r = Throw e -> e = TypeError.

(** The status names of the adapters' own tables: the values of the
    ServiceNow [stateMap] and the three states of a review request. *)
Definition shared_vocabulary : list string :=
  [ "open"; "closed"; "merged";
    "new"; "in_progress"; "on_hold"; "resolved"; "pending" ].

Definition review_states : list string := [ "open"; "closed"; "merged" ].

(** One attempt on a resource type: the request, then what the adapter does
    with the answer. *)
Definition attempt {A : Type} (q : request) (post : value -> result A)
    (t : transport) : result A :=
  let* response := t q in post response.

(** What probing the review-like resource [q1] before the issue-like resource
    [q2] means for an operation [m] run against a transport [t]. *)
Definition probes_first {A : Type} (m : M A) (q1 q2 : request)
    (post1 post2 : value -> result A) (t : transport) : Prop :=
  (exists rest, issued m t = q1 :: rest)
  /\ (forall e, t q1 = Throw e ->
      issued m t = [q1; q2] /\ outcome m t = attempt q2 post2 t)
  /\ (forall a, attempt q1 post1 t = Ok a ->
      issued m t = [q1] /\ outcome m t = Ok a)
  /\ (forall e, outcome m t = Throw e ->
      issued m t = [q1; q2] /\ attempt q2 post2 t = Throw e).

(** [c] does not occur in [s]. *)
Fixpoint free_of (c : ascii) (s : string) : bool :=
  match s with
  | EmptyString => true
  | String a rest => negb (Ascii.eqb a c) && free_of c rest
  end.

(** [s] holds no line terminator. *)
Fixpoint single_line (s : string) : bool :=
  match s with
  | EmptyString => true
  | String a rest => negb (is_line_terminator a) && single_line rest
  end.

(** No attempt of the pattern of [label] succeeds at a position of [before]
    when [after] follows it: the literal does not match there. *)
Definition no_hit (label before after : string) : Prop :=
  forall skipped rest,
    before = skipped ++ rest -> rest <> EmptyString ->
    String.prefix label (rest ++ after) = false.

(** ** Sample data *)

Module Samples.

Definition octocat : value :=
  VObj [ ("id", VNum (Int 583231)); ("login", VStr "octocat") ].

(** A pull request as the issue endpoints of GitHub return it: the marker is
    there, [head] and [base] are not. *)
Definition listed_pull_request : list (string * value) :=
  [ ("number", VNum (Int 7));
    ("title", VStr "Add relay");
    ("body", VNull);
    ("created_at", VStr "2024-01-01T00:00:00Z");
    ("updated_at", VStr "2024-01-02T00:00:00Z");
    ("state", VStr "open");
    ("user", octocat);
    ("assignee", VNull);
    ("pull_request", VObj [ ("url", VStr "https://api.github.com/pulls/7") ]) ].

Definition pull_request_with_branches : list (string * value) :=
  (listed_pull_request
   ++ [ ("head", VObj [ ("ref", VStr "feat/x") ]);
        ("base", VObj [ ("ref", VStr "main") ]) ])%list.

Definition plain_issue : list (string * value) :=
  [ ("number", VNum (Int 3));
    ("title", VStr "Crash on start");
    ("body", VStr "Steps");
    ("created_at", VStr "2024-01-01T00:00:00Z");
    ("updated_at", VStr "2024-01-02T00:00:00Z");
    ("state", VStr "open");
    ("user", octocat);
    ("assignee", octocat) ].

Definition not_found {A : Type} : result A := Throw (RemoteFailure "404").

Definition github : GitHubClient.client :=
  {| GitHubClient.config := VObj [ ("type", VStr "github") ];
     GitHubClient.owner := VStr "octo";
     GitHubClient.repo := VStr "relay" |}.

(** A repository whose issue list holds an issue and a pull request. *)
Definition github_list : transport :=
  fun q =>
    match q with
    | IssuesListForRepo _ =>
        Ok (VObj [ ("data", VArr [ VObj plain_issue;
                                   VObj listed_pull_request ]) ])
    | _ => not_found
    end.

(** The pull request endpoint rejects the call; the issue endpoint answers
    with the pull request as an issue. *)
Definition github_pulls_down : transport :=
  fun q =>
    match q with
    | IssuesGet _ => Ok (VObj [ ("data", VObj listed_pull_request) ])
    | _ => not_found
    end.

Definition gitlab : GitLabClient.client :=
  {| GitLabClient.config := VObj [ ("type", VStr "gitlab") ];
     GitLabClient.projectId := VNum (Int 42) |}.

Definition tanuki : value :=
  VObj [ ("id", VNum (Int 1)); ("username", VStr "tanuki") ].

Definition gitlab_issue : list (string * value) :=
  [ ("iid", VNum (Int 7));
    ("title", VStr "Crash on start");
    ("description", VStr "Steps");
    ("created_at", VStr "2024-01-01T00:00:00Z");
    ("updated_at", VStr "2024-01-02T00:00:00Z");
    ("state", VStr "opened");
    ("author", tanuki);
    ("assignee", VNull) ].

Definition gitlab_merge_request : list (string * value) :=
  (gitlab_issue
   ++ [ ("source_branch", VStr "feat/x"); ("target_branch", VStr "main") ])%list.

Definition gitlab_note : value :=
  VObj [ ("id", VNum (Int 900));
         ("body", VStr "Looks good");
         ("author", tanuki);
         ("created_at", VStr "2024-01-03T00:00:00Z") ].

(** A project in which number 7 is an issue and no merge request. *)
Definition gitlab_issue_only : transport :=
  fun q =>
    match q with
    | IssuesShow _ _ => Ok (VObj gitlab_issue)
    | _ => not_found
    end.

(** A project in which number 7 is a merge request and no issue. *)
Definition gitlab_merge_request_only : transport :=
  fun q =>
    match q with
    | MergeRequestsShow _ _ => Ok (VObj gitlab_merge_request)
    | MergeRequestNotesCreate _ _ _ => Ok gitlab_note
    | _ => not_found
    end.

Definition retitle : PartialCreateTicketOptions :=
  {| upd_title := Some "Add relay (v2)";
     upd_description := None;
     upd_assigneeId := None;
     upd_labels := None |}.

Definition servicenow : ServiceNowClient.client :=
  {| ServiceNowClient.config :=
       VObj [ ("type", VStr "servicenow");
              ("baseUrl", VStr "https://dev12345.service-now.com");
              ("auth", VObj [ ("type", VStr "oauth");
                              ("accessToken", VStr "secret") ]) ];
     ServiceNowClient.axios_config :=
       VObj [ ("baseURL", VStr "https://dev12345.service-now.com/api/now/v2");
              ("headers",
               VObj [ ("Content-Type", VStr "application/json");
                      ("Accept", VStr "application/json");
                      ("Authorization", VStr "Bearer secret") ]) ] |}.

Definition bogus_status : option TicketFilter :=
  Some {| filter_status := Some "bogus"; filter_assigneeId := None |}.

Definition no_status : option TicketFilter :=
  Some {| filter_status := None; filter_assigneeId := None |}.

(** A transport that rejects every request. *)
Definition unreachable : transport := fun _ => not_found.

(** What the sample constructors throw. *)
Definition token_refused : error :=
  Error "[@octokit/auth-token] Token passed to createTokenAuth is not a string".

Definition host_refused : error :=
  Error "Couldn't parse the host URL. Perhaps you forgot to add 'http://' or 'https://' at the beginning of the URL?".

(** Sample constructors of the SDKs. This [Octokit] takes a token that is a
    string or falsy and refuses any other; this [Version3Client] takes the
    address of the sample site and refuses a missing host, as it refuses
    every other one. *)
Definition sdk : Sdk.constructors :=
  {| Sdk.Octokit :=
       fun options =>
         let* token := get options "auth" in
         match token with
         | VStr _ => Ok tt
         | _ => if truthy token then Throw token_refused else Ok tt
         end;
     Sdk.Version3Client :=
       fun options =>
         let* host := get options "host" in
         if strict_eq_string host "https://relay.atlassian.net" then Ok tt
         else Throw host_refused |}.

(** A GitHub configuration without the [owner] and [repo] that
    [GitHubConfig] declares. *)
Definition github_fields_without_repo : list (string * value) :=
  [ ("type", VStr "github");
    ("auth", VObj [ ("type", VStr "token"); ("apiToken", VStr "secret") ]) ].

Definition github_config_without_repo : value :=
  VObj github_fields_without_repo.

(** An incident in the state Canceled, whose code is not in [stateMap]. *)
Definition canceled_incident : list (string * value) :=
  [ ("sys_id", VStr "9d385017c611228701d22104cc95c371");
    ("short_description", VStr "Mail server down");
    ("description", VStr "No mail since 9:00");
    ("sys_created_on", VStr "2024-01-01 09:12:00");
    ("sys_updated_on", VStr "2024-01-02 10:00:00");
    ("state", VStr "8");
    ("sys_created_by", VStr "admin");
    ("assigned_to", VStr EmptyString);
    ("sys_class_name", VStr "incident");
    ("category", VStr "software") ].

(** A review request whose description quotes the label line of an earlier
    review. *)
Definition quoting_request : CreateReviewRequest :=
  {| rr_title := "Port relay";
     rr_description := "Reopens the review that had" ++ nl
                       ++ "Source Branch: feat/old";
     rr_sourceBranch := "feat/x";
     rr_targetBranch := "main";
     rr_reviewers := None;
     rr_labels := None |}.

Definition jira : JiraClient.client :=
  {| JiraClient.config := VObj [ ("type", VStr "jira") ];
     JiraClient.projectKey := VStr "REL" |}.

(** The issue REL-1 of type Review with the given description. *)
Definition jira_review (description : value) : value :=
  VObj [ ("key", VStr "REL-1");
         ("fields",
          VObj [ ("summary", VStr "Port relay");
                 ("description", description);
                 ("created", VStr "2024-01-01T00:00:00.000+0000");
                 ("updated", VStr "2024-01-01T00:00:00.000+0000");
                 ("status", VObj [ ("name", VStr "In Review") ]);
                 ("reporter", VObj [ ("accountId", VStr "5b10a2844c20165700ede21g");
                                     ("displayName", VStr "Mia") ]);
                 ("assignee", VNull);
                 ("issuetype", VObj [ ("name", VStr "Review") ]) ]) ].

(** A Jira site that creates REL-1 and then serves it with the description
    that [createReviewRequest] sends for [quoting_request]. *)
Definition jira_site : transport :=
  fun q =>
    match q with
    | CreateIssue _ => Ok (VObj [ ("id", VStr "10001"); ("key", VStr "REL-1") ])
    | GetIssue _ =>
        Ok (jira_review (VStr (review_description quoting_request)))
    | _ => not_found
    end.

(** A change request of category Code Review with the given description and
    state. *)
Definition code_review_change (description state : value)
    : list (string * value) :=
  [ ("sys_id", VStr "46e9b4afa9fe198101026e122b85f442");
    ("short_description", VStr "Port relay");
    ("description", description);
    ("sys_created_on", VStr "2024-01-01 09:12:00");
    ("sys_updated_on", VStr "2024-01-02 10:00:00");
    ("state", state);
    ("sys_created_by", VStr "admin");
    ("assigned_to", VStr EmptyString);
    ("sys_class_name", VStr "change_request");
    ("category", VStr "Code Review") ].

(** A ServiceNow instance that stores the change request with the description
    it was sent and serves it back. *)
Definition servicenow_instance : transport :=
  fun q =>
    match q with
    | HttpPost _ payload =>
        match get payload "description" with
        | Ok sent =>
            Ok (VObj [ ("data",
                        VObj [ ("result",
                                VObj (code_review_change sent (VStr "1"))) ]) ])
        | Throw e => Throw e
        end
    | HttpGet "/table/change_request/46e9b4afa9fe198101026e122b85f442" =>
        Ok (VObj [ ("data",
                    VObj [ ("result",
                            VObj (code_review_change
                                    (VStr (review_description quoting_request))
                                    (VStr "1"))) ]) ])
    | _ => not_found
    end.

End Samples.

(** ** Vocabulary of the further properties *)

Definition is_pull_request (t : StandardTicket) : bool :=
  match t with
  | StandardIssue _ => false
  | StandardPullRequest _ _ _ _ => true
  end.

(** An operation that fails passes on what the platform rejected a request
    with, or fails with a [TypeError]: it raises no other error of its own. *)
Definition passes_errors_on {A : Type} (m : M A) : Prop :=
  forall t e,
    outcome m t = Throw e ->
    e = TypeError \/ exists q, In q (issued m t) /\ t q = Throw e.

(** ** Further sample data *)

Module Fixtures.

Definition plain_request : CreateReviewRequest :=
  {| rr_title := "Port relay";
     rr_description := "Fixes the relay";
     rr_sourceBranch := "feat/x";
     rr_targetBranch := "main";
     rr_reviewers := Some [ "mia"; "li" ];
     rr_labels := None |}.

(** A Jira site on which issues can be read and nothing can be written. *)
Definition jira_read_only : vendor :=
  fun q =>
    match q with
    | Request (GetIssue _) => Ok (Samples.jira_review (VStr "Hot fix"))
    | _ => Samples.not_found
    end.

(** A Jira site that creates REL-1, refuses watchers and serves REL-1. *)
Definition jira_no_watchers : transport :=
  fun q =>
    match q with
    | CreateIssue _ => Ok (VObj [ ("id", VStr "10001"); ("key", VStr "REL-1") ])
    | GetIssue _ => Ok (Samples.jira_review (VStr "Hot fix"))
    | _ => Samples.not_found
    end.

Definition task : CreateTicketOptions :=
  {| opt_title := "Rotate keys";
     opt_description := "Quarterly rotation";
     opt_assigneeId := None;
     opt_labels := Some [ "ops" ] |}.

(** The configuration of the usage example in the README: the token sits at
    the top level and there is no [auth] object. *)
Definition readme_fields : list (string * value) :=
  [ ("type", VStr "github");
    ("baseUrl", VStr "https://api.github.com");
    ("apiToken", VStr "your-github-token");
    ("owner", VStr "your-org");
    ("repo", VStr "your-repo") ].

Definition servicenow_oauth_fields : list (string * value) :=
  [ ("type", VStr "servicenow");
    ("instance", VStr "dev12345");
    ("auth", VObj [ ("type", VStr "oauth"); ("accessToken", VStr "secret") ]) ].

(** What [pulls.create] answers with: the pull request with its branches and
    without the [pull_request] key that issues carry. *)
Definition created_pull : list (string * value) :=
  [ ("number", VNum (Int 8));
    ("title", VStr "Port relay");
    ("body", VStr "Fixes the relay");
    ("created_at", VStr "2024-01-01T00:00:00Z");
    ("updated_at", VStr "2024-01-01T00:00:00Z");
    ("state", VStr "open");
    ("user", Samples.octocat);
    ("assignee", VNull);
    ("head", VObj [ ("ref", VStr "feat/x") ]);
    ("base", VObj [ ("ref", VStr "main") ]) ].

(** GitHub creates the pull request and refuses the review requests. *)
Definition github_no_reviewers : vendor :=
  fun q =>
    match q with
    | PullsCreate _ => Ok (VObj [ ("data", VObj created_pull) ])
    | _ => Samples.not_found
    end.


(** A description in the document format of the Jira REST API, version 3. *)
Definition document : value :=
  VObj [ ("type", VStr "doc");
         ("version", VNum (Int 1));
         ("content", VArr []) ].

(** A ServiceNow instance that holds one incident and no change request, and
    answers a patch of the incident with the record. *)
Definition servicenow_incident_desk : transport :=
  fun q =>
    match q with
    | HttpPatch "/table/incident/9d385017c611228701d22104cc95c371" _ =>
        Ok (VObj [ ("data",
                    VObj [ ("result", VObj Samples.canceled_incident) ]) ])
    | _ => Samples.not_found
    end.

End Fixtures.

(** * Properties *)

(** ** Strings *)

Lemma append_empty_r (s : string) : s ++ EmptyString = s.
Proof.
  induction s as [|c s IH]; simpl; [reflexivity | now rewrite IH].
Qed.

Lemma append_assoc (a b c : string) : (a ++ b) ++ c = a ++ (b ++ c).
Proof.
  induction a as [|x a IH]; simpl; [reflexivity | now rewrite IH].
Qed.

Lemma prefix_app (t s : string) :
  String.prefix t s = true <-> exists post, s = t ++ post.
Proof.
  revert s; induction t as [|c t IH]; intros s.
  - split; [intros _; now exists s | intros _; now destruct s].
  - destruct s as [|d s]; simpl.
    + split; [discriminate | intros [post H]; discriminate].
    + destruct (Ascii.ascii_dec c d) as [->|ne].
      * rewrite IH. split; intros [post H]; exists post.
        -- now rewrite H.
        -- now injection H.
      * split; [discriminate | intros [post H]; injection H; intros _ e].
        now elim ne.
Qed.

Lemma includes_contains (s t : string) :
  includes s t = true <-> contains s t.
Proof.
  induction s as [|c s IH].
  - cbn [includes]. rewrite orb_false_r, prefix_app. split.
    + intros [post H]. now exists EmptyString, post.
    + intros [pre [post H]]. destruct pre; simpl in H.
      * now exists post.
      * discriminate.
  - cbn [includes]. rewrite orb_true_iff, IH, prefix_app. split.
    + intros [[post H] | [pre [post H]]].
      * now exists EmptyString, post.
      * exists (String c pre), post. simpl. now rewrite H.
    + intros [pre [post H]]. destruct pre as [|d pre]; simpl in H.
      * left. now exists post.
      * right. injection H; intros H' _. now exists pre, post.
Qed.

Lemma includes_not_contains (s t : string) :
  includes s t = false <-> ~ contains s t.
Proof.
  rewrite <- includes_contains. destruct (includes s t); intuition congruence.
Qed.

(** ** Jira: the state of a review request *)

(** C4. The state [mapJiraStatusToPRState] derives from a Jira status name is
    [merged] when the lower-cased name contains "done" or "merged"; otherwise
    [closed] when it contains "closed" or "rejected"; otherwise [open]. "Done"
    gives [merged], "Rejected" gives [closed] and "In Review" gives [open]. *)
Theorem mapJiraStatusToPRState_keywords (status : string) :
  let lowered := toLowerCase status in
  (contains lowered "done" \/ contains lowered "merged" ->
   JiraClient.mapJiraStatusToPRState status = "merged")
  /\ (~ contains lowered "done" -> ~ contains lowered "merged" ->
      contains lowered "closed" \/ contains lowered "rejected" ->
      JiraClient.mapJiraStatusToPRState status = "closed")
  /\ (~ contains lowered "done" -> ~ contains lowered "merged" ->
      ~ contains lowered "closed" -> ~ contains lowered "rejected" ->
      JiraClient.mapJiraStatusToPRState status = "open")
  /\ JiraClient.mapJiraStatusToPRState "Done" = "merged"
  /\ JiraClient.mapJiraStatusToPRState "Rejected" = "closed"
  /\ JiraClient.mapJiraStatusToPRState "In Review" = "open".
Proof.
  intros lowered. unfold JiraClient.mapJiraStatusToPRState. fold lowered.
  repeat split.
  - intros [H | H]; apply includes_contains in H; rewrite H;
      [reflexivity | now rewrite orb_true_r].
  - intros Hd Hm [H | H]; apply includes_not_contains in Hd, Hm;
      apply includes_contains in H; rewrite Hd, Hm, H; simpl;
      [reflexivity | now rewrite orb_true_r].
  - intros Hd Hm Hc Hr. apply includes_not_contains in Hd, Hm, Hc, Hr.
    now rewrite Hd, Hm, Hc, Hr.
Qed.

Lemma mapJiraStatusToPRState_keywords_witness :
  contains (toLowerCase "Code MERGED") "merged"
  /\ JiraClient.mapJiraStatusToPRState "Code MERGED" = "merged"
  /\ JiraClient.mapJiraStatusToPRState "Won't do: Closed" = "closed"
  /\ JiraClient.mapJiraStatusToPRState "Backlog" = "open".
Proof.
  assert (Hm : contains (toLowerCase "Code MERGED") "merged")
    by (apply includes_contains; reflexivity).
  split; [exact Hm |].
  split; [| split].
  - apply (proj1 (mapJiraStatusToPRState_keywords "Code MERGED")).
    right. exact Hm.
  - apply (proj1 (proj2 (mapJiraStatusToPRState_keywords "Won't do: Closed")));
      try (apply includes_not_contains; reflexivity).
    left. apply includes_contains. reflexivity.
  - apply (proj1 (proj2 (proj2 (mapJiraStatusToPRState_keywords "Backlog"))));
      apply includes_not_contains; reflexivity.
Defined.

(** ** ServiceNow: the two state tables *)

Lemma inherited_undefined (k : string) :
  is_inherited k = false -> inherited k = VUndef.
Proof.
  unfold is_inherited, inherited. intros H.
  apply orb_false_iff in H as [H Hm]. apply orb_false_iff in H as [Hc Hp].
  now rewrite Hc, Hp, Hm.
Qed.

Lemma lookup_absent (fields : list (string * value)) (k : string) :
  has_own k fields = false -> is_inherited k = false ->
  lookup fields k = VUndef.
Proof.
  unfold has_own, lookup. intros Hown Hin.
  destruct (assoc k fields); [discriminate | now apply inherited_undefined].
Qed.

(** The six documented codes map to their names. *)
Lemma normalizeStatus_table :
  ServiceNowClient.normalizeStatus (VStr "1") = Ok (VStr "new")
  /\ ServiceNowClient.normalizeStatus (VStr "2") = Ok (VStr "in_progress")
  /\ ServiceNowClient.normalizeStatus (VStr "3") = Ok (VStr "on_hold")
  /\ ServiceNowClient.normalizeStatus (VStr "6") = Ok (VStr "resolved")
  /\ ServiceNowClient.normalizeStatus (VStr "7") = Ok (VStr "closed")
  /\ ServiceNowClient.normalizeStatus (VStr "-5") = Ok (VStr "pending").
Proof. repeat split. Qed.

(** On a string [normalizeStatus] never throws. *)
Lemma normalizeStatus_total (s : string) :
  is_ok (ServiceNowClient.normalizeStatus (VStr s)) = true.
Proof. reflexivity. Qed.

(** A string that is neither a key of the table nor the name of a property
    of [Object.prototype] passes through. *)
Lemma normalizeStatus_passthrough (s : string) :
  has_own s ServiceNowClient.stateMap = false ->
  is_inherited s = false ->
  ServiceNowClient.normalizeStatus (VStr s) = Ok (VStr s).
Proof.
  intros Hown Hin. unfold ServiceNowClient.normalizeStatus. simpl.
  now rewrite (lookup_absent _ _ Hown Hin).
Qed.

(** C3, at the input where the code departs from it. The read
    [stateMap[status]] goes through the prototype of the object literal, so
    for the status "constructor" it finds the function [Object], which is
    truthy: [normalizeStatus] returns that function, not the input string. *)
Theorem normalizeStatus_constructor :
  ServiceNowClient.normalizeStatus (VStr "constructor") = Ok (VFun "Object")
  /\ ServiceNowClient.normalizeStatus (VStr "constructor")
     <> Ok (VStr "constructor")
  /\ has_own "constructor" ServiceNowClient.stateMap = false.
Proof. repeat split. discriminate. Qed.

(** C5. [mapServiceNowStateToPRState] sends the codes of new, in_progress,
    on_hold and pending to [open], the code of resolved to [merged], the code
    of closed to [closed], and everything else to [open]. *)
Theorem mapServiceNowStateToPRState_cases (state : value) :
  ServiceNowClient.mapServiceNowStateToPRState (VStr "1") = "open"
  /\ ServiceNowClient.mapServiceNowStateToPRState (VStr "2") = "open"
  /\ ServiceNowClient.mapServiceNowStateToPRState (VStr "3") = "open"
  /\ ServiceNowClient.mapServiceNowStateToPRState (VStr "-5") = "open"
  /\ ServiceNowClient.mapServiceNowStateToPRState (VStr "6") = "merged"
  /\ ServiceNowClient.mapServiceNowStateToPRState (VStr "7") = "closed"
  /\ (state <> VStr "6" -> state <> VStr "7" ->
      ServiceNowClient.mapServiceNowStateToPRState state = "open").
Proof.
  repeat split. intros H6 H7.
  unfold ServiceNowClient.mapServiceNowStateToPRState, strict_eq_string.
  destruct state as [| | | |s| | | |]; try reflexivity.
  destruct (String.eqb_spec s "6") as [->|_]; [now elim H6 |].
  destruct (String.eqb_spec s "7") as [->|_]; [now elim H7 |].
  now repeat destruct (String.eqb s _).
Qed.

Lemma mapServiceNowStateToPRState_cases_witness :
  ServiceNowClient.mapServiceNowStateToPRState (VStr "4") = "open"
  /\ ServiceNowClient.mapServiceNowStateToPRState VUndef = "open".
Proof.
  split.
  - apply (mapServiceNowStateToPRState_cases (VStr "4")); discriminate.
  - apply (mapServiceNowStateToPRState_cases VUndef); discriminate.
Defined.

(** ** What normalisation can throw *)

Lemma bind_ok_inv {A B : Type} (r : result A) (k : A -> result B) (b : B) :
  Js.bind r k = Ok b -> exists a, r = Ok a /\ k a = Ok b.
Proof.
  destruct r as [a|e]; simpl; [intros H; now exists a | discriminate].
Qed.

Lemma bind_fails {A B : Type} (r : result A) (k : A -> result B) :
  only_TypeError r -> (forall a, k a = Throw TypeError) ->
  Js.bind r k = Throw TypeError.
Proof.
  intros Hr Hk. destruct r as [a|e]; simpl; [apply Hk |].
  now rewrite (Hr e eq_refl).
Qed.

Lemma bind_only_TypeError {A B : Type} (r : result A) (k : A -> result B) :
  only_TypeError r -> (forall a, only_TypeError (k a)) ->
  only_TypeError (Js.bind r k).
Proof.
  intros Hr Hk e. destruct r as [a|e']; simpl.
  - apply Hk.
  - intros H. injection H as <-. now apply Hr.
Qed.

Lemma Ok_only_TypeError {A : Type} (a : A) : only_TypeError (Ok a).
Proof. intros e H. discriminate. Qed.

Lemma Throw_only_TypeError {A : Type} : only_TypeError (@Throw A TypeError).
Proof. intros e H. now injection H. Qed.

Lemma get_only_TypeError (v : value) (k : string) : only_TypeError (get v k).
Proof.
  destruct v; simpl;
    first [apply Ok_only_TypeError | apply Throw_only_TypeError].
Qed.

Lemma in_op_only_TypeError (k : string) (v : value) :
  only_TypeError (in_op k v).
Proof.
  destruct v; simpl;
    first [apply Ok_only_TypeError | apply Throw_only_TypeError].
Qed.

Lemma to_string_only_TypeError (v : value) : only_TypeError (to_string v).
Proof.
  revert v.
  fix IH 1. intros v. destruct v as [| |b|n|s|fields|items|name|];
    try apply Ok_only_TypeError.
  - destruct b; apply Ok_only_TypeError.
  - simpl. destruct (has_own "toString" fields);
      [apply Throw_only_TypeError | apply Ok_only_TypeError].
  - simpl. revert items. fix IHitems 1. intros items.
    destruct items as [|x rest]; [apply Ok_only_TypeError |].
    apply bind_only_TypeError.
    + pose proof (IH x) as Hx.
      destruct x; try apply Ok_only_TypeError; exact Hx.
    + intros sx. pose proof (IHitems rest) as Hrest.
      destruct rest; [apply Ok_only_TypeError |].
      apply bind_only_TypeError; [exact Hrest | intros; apply Ok_only_TypeError].
Qed.

Lemma toString_method_only_TypeError (v : value) :
  only_TypeError (toString_method v).
Proof.
  destruct v; try apply Throw_only_TypeError; apply to_string_only_TypeError.
Qed.

Lemma toLowerCase_method_only_TypeError (v : value) :
  only_TypeError (toLowerCase_method v).
Proof.
  destruct v; simpl;
    first [apply Ok_only_TypeError | apply Throw_only_TypeError].
Qed.

Lemma optional_person_only_TypeError (x : value)
    (read : value -> result Person) :
  (forall v, only_TypeError (read v)) ->
  only_TypeError (optional_person x read).
Proof.
  intros H. unfold optional_person. destruct (truthy x).
  - apply bind_only_TypeError; [apply H | intros; apply Ok_only_TypeError].
  - apply Ok_only_TypeError.
Qed.

Create HintDb throws discriminated.

#[export] Hint Resolve Ok_only_TypeError Throw_only_TypeError
  get_only_TypeError in_op_only_TypeError to_string_only_TypeError
  toString_method_only_TypeError toLowerCase_method_only_TypeError
  optional_person_only_TypeError : throws.

(** Splits a chain of [let*] into its steps. *)
Ltac chain :=
  repeat first
    [ apply bind_only_TypeError; [solve [auto with throws] | intros ?]
    | solve [auto with throws] ].

Lemma github_user_person_only_TypeError (u : value) :
  only_TypeError (GitHubClient.user_person u).
Proof. unfold GitHubClient.user_person. chain. Qed.

#[export] Hint Resolve github_user_person_only_TypeError : throws.

Lemma github_normalizeTicket_only_TypeError (r : value) :
  only_TypeError (GitHubClient.normalizeTicket r).
Proof.
  unfold GitHubClient.normalizeTicket. chain.
  match goal with |- only_TypeError (if ?b then _ else _) => destruct b end;
    chain.
Qed.

(** If one record of a list fails to normalise, so does the list. *)
Lemma mapM_fails {A B : Type} (f : A -> result B) (l : list A) (x : A) :
  (forall a, only_TypeError (f a)) ->
  In x l -> f x = Throw TypeError -> mapM f l = Throw TypeError.
Proof.
  intros Hf Hin Hx. induction l as [|y rest IH]; [contradiction |].
  simpl. destruct Hin as [-> | Hin].
  - now rewrite Hx.
  - apply bind_fails; [apply Hf | intros b]. now rewrite (IH Hin).
Qed.

(** ** GitHub: records that carry the [pull_request] marker *)

Ltac invert_chain H :=
  repeat
    (let a := fresh "v" in
     let Ha := fresh "E" in
     apply bind_ok_inv in H as (a & Ha & H)).

(** The first request of a sequence is issued whatever the transport says. *)
Lemma first_request_issued {A : Type} (q : request) (k : value -> M A)
    (t : transport) :
  In q (issued (Remote.bind (call q) k) t).
Proof.
  unfold issued, Remote.bind, call. destruct (t q) as [a|e]; simpl.
  - destruct (k a t). now left.
  - now left.
Qed.

(** C10. On a GitHub record that carries the [pull_request] marker,
    [normalizeTicket] reads [head.ref] and [base.ref]: when it returns, the
    ticket is a pull request holding these two values. When such a record has
    no [head], [normalizeTicket] throws a [TypeError], and so does [getTickets]
    as soon as the list it receives contains such a record. *)
Theorem github_pull_request_marker (fields : list (string * value)) :
  has_own "pull_request" fields = true ->
  (forall ticket,
      GitHubClient.normalizeTicket (VObj fields) = Ok ticket ->
      exists base head_ref base_ref state,
        ticket = StandardPullRequest base head_ref base_ref state
        /\ get (lookup fields "head") "ref" = Ok head_ref
        /\ get (lookup fields "base") "ref" = Ok base_ref)
  /\ (has_own "head" fields = false ->
      GitHubClient.normalizeTicket (VObj fields) = Throw TypeError)
  /\ (has_own "head" fields = false ->
      forall c options t response items,
        (forall q, In q (issued (GitHubClient.getTickets c options) t) ->
                   t q = Ok response) ->
        get response "data" = Ok (VArr items) ->
        In (VObj fields) items ->
        outcome (GitHubClient.getTickets c options) t = Throw TypeError).
Proof.
  intros Hmarker.
  assert (Hthrows : has_own "head" fields = false ->
                    GitHubClient.normalizeTicket (VObj fields) = Throw TypeError).
  { intros Hhead. unfold GitHubClient.normalizeTicket.
    do 11 (apply bind_fails; [solve [auto with throws] | intros ?]).
    cbn [in_op]. rewrite Hmarker. cbn [orb Js.bind get].
    rewrite (lookup_absent fields "head" Hhead eq_refl). reflexivity. }
  split; [| split].
  - intros ticket H. unfold GitHubClient.normalizeTicket in H.
    invert_chain H.
    match goal with
    | E : in_op _ _ = Ok ?b |- _ =>
        cbn [in_op] in E; rewrite Hmarker in E; injection E as <-
    end.
    cbn [orb] in H. invert_chain H. injection H as <-.
    cbn [get] in *.
    repeat match goal with
           | E : Ok _ = Ok _ |- _ => injection E as <-
           end.
    eauto 10.
  - exact Hthrows.
  - intros Hhead c options t response items Hanswer Hdata Hin.
    unfold outcome, GitHubClient.getTickets.
    match goal with
    | |- snd (Remote.bind (call ?q) ?k t) = _ =>
        pose proof (Hanswer q (first_request_issued q k t)) as Hq;
        unfold Remote.bind, call, lift; rewrite Hq, Hdata
    end.
    cbn. apply (mapM_fails _ items (VObj fields)); auto.
    apply github_normalizeTicket_only_TypeError.
Qed.

Lemma github_pull_request_marker_witness :
  GitHubClient.normalizeTicket (VObj Samples.listed_pull_request)
  = Throw TypeError
  /\ outcome (GitHubClient.getTickets Samples.github None) Samples.github_list
     = Throw TypeError
  /\ exists base state,
       GitHubClient.normalizeTicket (VObj Samples.pull_request_with_branches)
       = Ok (StandardPullRequest base (VStr "feat/x") (VStr "main") state).
Proof.
  pose proof (github_pull_request_marker Samples.listed_pull_request eq_refl)
    as (_ & Hthrows & Hlist).
  pose proof (github_pull_request_marker Samples.pull_request_with_branches
                eq_refl) as (Hreads & _ & _).
  split; [exact (Hthrows eq_refl) |].
  split.
  - apply (Hlist eq_refl Samples.github None Samples.github_list
             (VObj [ ("data", VArr [ VObj Samples.plain_issue;
                                     VObj Samples.listed_pull_request ]) ])
             [ VObj Samples.plain_issue; VObj Samples.listed_pull_request ]).
    + intros q [<- | []]. reflexivity.
    + reflexivity.
    + right; left; reflexivity.
  - destruct (Hreads _ eq_refl) as (base & h & b & state & Heq & Hh & Hb).
    exists base, state. cbv in Hh, Hb. injection Hh as <-. injection Hb as <-.
    rewrite <- Heq. reflexivity.
Defined.

(** ** Probing two resource types *)

Lemma run_attempt {A : Type} (q : request) (post : value -> result A)
    (t : transport) :
  (let! response := call q in lift (post response)) t = ([q], attempt q post t).
Proof.
  unfold Remote.bind, call, lift, attempt. now destruct (t q).
Qed.

Lemma run_attempt_unwrapped {A B : Type} (q : request)
    (unwrap : value -> result B) (post : B -> result A) (t : transport) :
  (let! response := call q in
   let! inner := lift (unwrap response) in
   lift (post inner)) t
  = ([q], attempt q (fun response => let* inner := unwrap response in
                                     post inner) t).
Proof.
  unfold Remote.bind, call, lift, attempt.
  destruct (t q) as [response|e]; [| reflexivity].
  simpl. now destruct (unwrap response).
Qed.

(** A [try]/[catch] around one attempt, with another attempt as handler,
    probes the first resource before the second. *)
Lemma try_catch_probes_first {A : Type} (body handler : M A)
    (q1 q2 : request) (post1 post2 : value -> result A) (t : transport) :
  body t = ([q1], attempt q1 post1 t) ->
  handler t = ([q2], attempt q2 post2 t) ->
  probes_first (try_catch body handler) q1 q2 post1 post2 t.
Proof.
  intros Hbody Hhandler.
  unfold probes_first, issued, outcome, try_catch.
  rewrite Hbody, Hhandler.
  destruct (attempt q1 post1 t) as [a|e1] eqn:E1; simpl.
  - assert (Hanswered : forall e, t q1 <> Throw e).
    { intros e He. unfold attempt in E1. now rewrite He in E1. }
    split; [now exists [] |].
    split; [intros e He; now elim (Hanswered e) |].
    split; [intros a' Ha; now injection Ha as <- | discriminate].
  - split; [now exists [q2] |].
    split; [now intros |].
    split; [discriminate | now intros].
Qed.

(** C1, as the code has it. On GitHub, GitLab and ServiceNow [getTicket]
    requests the review-like resource first. When that request is rejected it
    requests the issue-like resource, and the rejection is dropped: the outcome
    is the outcome of the second attempt. When the first answer normalises, the
    second resource is not requested. The caller receives an error only after
    the second resource was requested too, and the error is then the one of the
    second attempt: its rejection, or the failure to normalise its answer. *)
Theorem getTicket_probes_review_first (ticketId : string) (t : transport) :
  (forall c,
      probes_first (GitHubClient.getTicket c ticketId)
        (PullsGet (VObj [ ("owner", GitHubClient.owner c);
                          ("repo", GitHubClient.repo c);
                          ("pull_number", VNum (parseInt ticketId)) ]))
        (IssuesGet (VObj [ ("owner", GitHubClient.owner c);
                           ("repo", GitHubClient.repo c);
                           ("issue_number", VNum (parseInt ticketId)) ]))
        (fun response => let* pr := get response "data" in
                         GitHubClient.normalizeTicket pr)
        (fun response => let* issue := get response "data" in
                         GitHubClient.normalizeTicket issue)
        t)
  /\ (forall c,
      probes_first (GitLabClient.getTicket c ticketId)
        (MergeRequestsShow (GitLabClient.projectId c) (parseInt ticketId))
        (IssuesShow (GitLabClient.projectId c) (parseInt ticketId))
        GitLabClient.normalizeTicket
        GitLabClient.normalizeTicket
        t)
  /\ (forall c,
      probes_first (ServiceNowClient.getTicket c ticketId)
        (HttpGet ("/table/change_request/" ++ ticketId))
        (HttpGet ("/table/incident/" ++ ticketId))
        (fun response => let* changeResult := ServiceNowClient.result_of response in
                         ServiceNowClient.normalizeTicket changeResult)
        (fun response => let* incidentResult := ServiceNowClient.result_of response in
                         ServiceNowClient.normalizeTicket incidentResult)
        t).
Proof.
  split; [| split]; intros c.
  - apply try_catch_probes_first; apply run_attempt_unwrapped.
  - apply try_catch_probes_first; apply run_attempt.
  - apply try_catch_probes_first; apply run_attempt_unwrapped.
Qed.

Lemma getTicket_probes_review_first_witness :
  issued (GitLabClient.getTicket Samples.gitlab "7") Samples.gitlab_issue_only
  = [ MergeRequestsShow (VNum (Int 42)) (Int 7);
      IssuesShow (VNum (Int 42)) (Int 7) ]
  /\ outcome (GitLabClient.getTicket Samples.gitlab "7")
       Samples.gitlab_issue_only
     = GitLabClient.normalizeTicket (VObj Samples.gitlab_issue).
Proof.
  pose proof (getTicket_probes_review_first "7" Samples.gitlab_issue_only)
    as (_ & Hgitlab & _).
  destruct (Hgitlab Samples.gitlab) as (_ & Hfallback & _ & _).
  exact (Hfallback (RemoteFailure "404") eq_refl).
Defined.

(** C1 as stated does not hold: an error reaches the caller although the
    second probe was answered. The pull request endpoint rejects the call,
    the issue endpoint answers with the pull request as an issue, and
    normalising that answer throws. *)
Lemma getTicket_error_after_answered_probe :
  let second :=
    IssuesGet (VObj [ ("owner", VStr "octo"); ("repo", VStr "relay");
                      ("issue_number", VNum (Int 7)) ]) in
  Samples.github_pulls_down second
  = Ok (VObj [ ("data", VObj Samples.listed_pull_request) ])
  /\ In second (issued (GitHubClient.getTicket Samples.github "7")
                  Samples.github_pulls_down)
  /\ outcome (GitHubClient.getTicket Samples.github "7")
       Samples.github_pulls_down
     = Throw TypeError.
Proof.
  cbv zeta. split; [reflexivity |]. split; [right; left |]; reflexivity.
Qed.

(** ** [updateTicket] and [addComment] *)

(** The paths that probe: [addComment] on GitLab, [updateTicket] and
    [addComment] on ServiceNow. *)
Lemma addComment_updateTicket_probing (ticketId comment : string)
    (updates : PartialCreateTicketOptions) (t : transport) :
  (forall c,
      probes_first (GitLabClient.addComment c ticketId comment)
        (MergeRequestNotesCreate (GitLabClient.projectId c)
           (parseInt ticketId) comment)
        (IssueNotesCreate (GitLabClient.projectId c)
           (parseInt ticketId) comment)
        GitLabClient.normalizeComment GitLabClient.normalizeComment t)
  /\ (forall c,
      probes_first (ServiceNowClient.updateTicket c ticketId updates)
        (HttpPatch ("/table/change_request/" ++ ticketId)
           (ServiceNowClient.update_payload updates))
        (HttpPatch ("/table/incident/" ++ ticketId)
           (ServiceNowClient.update_payload updates))
        (fun response => let* r := ServiceNowClient.result_of response in
                         ServiceNowClient.normalizeTicket r)
        (fun response => let* r := ServiceNowClient.result_of response in
                         ServiceNowClient.normalizeTicket r)
        t)
  /\ (forall c,
      probes_first (ServiceNowClient.addComment c ticketId comment)
        (HttpPatch ("/table/change_request/" ++ ticketId)
           (VObj [ ("work_notes", VStr comment) ]))
        (HttpPatch ("/table/incident/" ++ ticketId)
           (VObj [ ("work_notes", VStr comment) ]))
        (fun response => let* r := ServiceNowClient.result_of response in
                         ServiceNowClient.normalizeComment r)
        (fun response => let* r := ServiceNowClient.result_of response in
                         ServiceNowClient.normalizeComment r)
        t).
Proof.
  split; [| split]; intros c.
  - apply try_catch_probes_first; apply run_attempt.
  - apply try_catch_probes_first; apply run_attempt_unwrapped.
  - apply try_catch_probes_first; apply run_attempt_unwrapped.
Qed.

(** C8, where the code departs from it. [updateTicket] on GitLab issues one
    request, to the issue endpoint, and never tries the merge request: in a
    project where number 7 is a merge request, [getTicket] and [addComment]
    reach it and [updateTicket] fails. *)
Theorem gitlab_updateTicket_issue_endpoint_only :
  (forall c ticketId updates t,
      exists options,
        issued (GitLabClient.updateTicket c ticketId updates) t
        = [ IssuesEdit (GitLabClient.projectId c) (parseInt ticketId) options ])
  /\ (exists base state,
        outcome (GitLabClient.getTicket Samples.gitlab "7")
          Samples.gitlab_merge_request_only
        = Ok (StandardPullRequest base (VStr "feat/x") (VStr "main") state))
  /\ is_ok (outcome (GitLabClient.addComment Samples.gitlab "7" "Looks good")
              Samples.gitlab_merge_request_only) = true
  /\ outcome (GitLabClient.updateTicket Samples.gitlab "7" Samples.retitle)
       Samples.gitlab_merge_request_only
     = Throw (RemoteFailure "404").
Proof.
  split; [| split; [| split]].
  - intros c ticketId updates t. eexists.
    unfold issued, GitLabClient.updateTicket. rewrite run_attempt. reflexivity.
  - eexists. eexists. reflexivity.
  - reflexivity.
  - reflexivity.
Qed.

(** ** The status filter of [getTickets] *)




(** Whatever the status, building the ServiceNow query does not throw. *)
Lemma query_of_total (options : option TicketFilter) :
  is_ok (ServiceNowClient.query_of options) = true.
Proof.
  unfold ServiceNowClient.query_of.
  assert (Hcode : forall s, exists code,
             to_string (ServiceNowClient.mapStatusToServiceNow s) = Ok code).
  { intros s. unfold ServiceNowClient.mapStatusToServiceNow, lookup, inherited,
      ServiceNowClient.reverseStateMap, object_prototype_methods, mem.
    simpl.
    repeat match goal with
           | |- context [String.eqb ?a ?b] =>
               destruct (String.eqb a b); simpl; eauto
           end. }
  destruct (status_opt options) as [s|]; simpl.
  - destruct (given (Some s)); simpl.
    + destruct (Hcode s) as [code ->]. simpl.
      now destruct (String.eqb _ _).
    + now destruct (String.eqb _ _).
  - now destruct (String.eqb _ _).
Qed.





(** ** The factory *)

(** C9, as the code has it. The factory checks the presence of fields for two
    platforms only: a GitLab configuration without [apiToken] or [projectId]
    and a Jira configuration without [apiToken], [email] or [projectKey] are
    refused with an error that names the platform, and a type tag that is none
    of the four is refused with an error that names the tag. A GitLab
    configuration that passes the check yields an adapter bound to it. A Jira
    configuration that passes the check goes to the constructor, which hands
    [baseUrl], which the factory does not check, and the credentials to
    [new Version3Client]: when that returns, the result is an adapter bound to
    the configuration, and when it throws, [createClient] fails with what it
    threw. For GitHub and ServiceNow no field is checked: the configuration
    goes to the constructor as it is. *)
Theorem createClient_checks (sdk : Sdk.constructors)
    (fields : list (string * value)) :
  let config := VObj fields in
  let type := lookup fields "type" in
  (type = VStr "gitlab" ->
   has_own "apiToken" fields && has_own "projectId" fields = false ->
   TicketClientFactory.createClient sdk config
   = Throw (Error "Invalid GitLab configuration"))
  /\ (type = VStr "jira" ->
      has_own "apiToken" fields && has_own "email" fields
      && has_own "projectKey" fields = false ->
      TicketClientFactory.createClient sdk config
      = Throw (Error "Invalid Jira configuration"))
  /\ (forall tag,
      type = VStr tag ->
      ~ In tag [ "github"; "gitlab"; "jira"; "servicenow" ] ->
      TicketClientFactory.createClient sdk config
      = Throw (Error ("Unknown platform type: " ++ tag)))
  /\ (type = VStr "gitlab" ->
      has_own "apiToken" fields && has_own "projectId" fields = true ->
      TicketClientFactory.createClient sdk config
      = Ok (TicketClientFactory.GitLab
              {| GitLabClient.config := config;
                 GitLabClient.projectId := lookup fields "projectId" |}))
  /\ (type = VStr "jira" ->
      has_own "apiToken" fields && has_own "email" fields
      && has_own "projectKey" fields = true ->
      let options :=
        JiraClient.client_options (lookup fields "baseUrl")
          (lookup fields "email") (lookup fields "apiToken") in
      (Sdk.Version3Client sdk options = Ok tt ->
       TicketClientFactory.createClient sdk config
       = Ok (TicketClientFactory.Jira
               {| JiraClient.config := config;
                  JiraClient.projectKey := lookup fields "projectKey" |}))
      /\ (forall e,
             Sdk.Version3Client sdk options = Throw e ->
             TicketClientFactory.createClient sdk config = Throw e))
  /\ (type = VStr "github" ->
      TicketClientFactory.createClient sdk config
      = let* c := GitHubClient.new sdk config in
        Ok (TicketClientFactory.GitHub c))
  /\ (type = VStr "servicenow" ->
      TicketClientFactory.createClient sdk config
      = let* c := ServiceNowClient.new config in
        Ok (TicketClientFactory.ServiceNow c)).
Proof.
  intros config type.
  unfold TicketClientFactory.createClient. cbn [get config Js.bind].
  fold type.
  split; [| split; [| split; [| split; [| split; [| split]]]]].
  - intros -> H. cbn.
    destruct (has_own "apiToken" fields); simpl in *.
    + rewrite H. reflexivity.
    + reflexivity.
  - intros -> H. cbn.
    destruct (has_own "apiToken" fields); simpl in *; [| reflexivity].
    destruct (has_own "email" fields); simpl in *; [| reflexivity].
    now rewrite H.
  - intros tag -> Hnot. simpl in Hnot.
    unfold strict_eq_string.
    destruct (String.eqb_spec tag "github") as [->|_]; [elim Hnot; auto |].
    destruct (String.eqb_spec tag "gitlab") as [->|_]; [elim Hnot; auto |].
    destruct (String.eqb_spec tag "jira") as [->|_]; [elim Hnot; auto |].
    destruct (String.eqb_spec tag "servicenow") as [->|_];
      [elim Hnot; auto 6 |].
    reflexivity.
  - intros -> H. apply andb_true_iff in H as [Ha Hp]. cbn.
    rewrite Ha, Hp. reflexivity.
  - intros -> H. apply andb_true_iff in H as [H Hk].
    apply andb_true_iff in H as [Ha He]. cbn.
    rewrite Ha, He, Hk. cbn.
    split.
    + intros Haccepts. rewrite Haccepts. reflexivity.
    + intros e Hthrows. rewrite Hthrows. reflexivity.
  - intros ->. reflexivity.
  - intros ->. reflexivity.
Qed.

Lemma createClient_checks_witness :
  TicketClientFactory.createClient Samples.sdk
    (VObj [ ("type", VStr "gitlab"); ("apiToken", VStr "secret") ])
  = Throw (Error "Invalid GitLab configuration")
  /\ TicketClientFactory.createClient Samples.sdk
       (VObj [ ("type", VStr "bitbucket") ])
     = Throw (Error "Unknown platform type: bitbucket")
  /\ TicketClientFactory.createClient Samples.sdk
       (VObj [ ("type", VStr "gitlab"); ("apiToken", VStr "secret");
               ("projectId", VNum (Int 42)) ])
     = Ok (TicketClientFactory.GitLab
             {| GitLabClient.config :=
                  VObj [ ("type", VStr "gitlab"); ("apiToken", VStr "secret");
                         ("projectId", VNum (Int 42)) ];
                GitLabClient.projectId := VNum (Int 42) |})
  /\ TicketClientFactory.createClient Samples.sdk
       (VObj [ ("type", VStr "jira"); ("apiToken", VStr "secret");
               ("email", VStr "mia@example.org");
               ("projectKey", VStr "REL") ])
     = Throw Samples.host_refused
  /\ TicketClientFactory.createClient Samples.sdk
       (VObj [ ("type", VStr "jira");
               ("baseUrl", VStr "https://relay.atlassian.net");
               ("apiToken", VStr "secret");
               ("email", VStr "mia@example.org");
               ("projectKey", VStr "REL") ])
     = Ok (TicketClientFactory.Jira
             {| JiraClient.config :=
                  VObj [ ("type", VStr "jira");
                         ("baseUrl", VStr "https://relay.atlassian.net");
                         ("apiToken", VStr "secret");
                         ("email", VStr "mia@example.org");
                         ("projectKey", VStr "REL") ];
                JiraClient.projectKey := VStr "REL" |}).
Proof.
  split; [| split; [| split; [| split]]].
  - destruct (createClient_checks Samples.sdk
                [ ("type", VStr "gitlab"); ("apiToken", VStr "secret") ])
      as (Hgitlab & _).
    exact (Hgitlab eq_refl eq_refl).
  - destruct (createClient_checks Samples.sdk [ ("type", VStr "bitbucket") ])
      as (_ & _ & Hunknown & _).
    apply (Hunknown "bitbucket" eq_refl).
    simpl. intros H.
    repeat (destruct H as [H | H]; [discriminate |]). exact H.
  - destruct (createClient_checks Samples.sdk
                [ ("type", VStr "gitlab"); ("apiToken", VStr "secret");
                  ("projectId", VNum (Int 42)) ])
      as (_ & _ & _ & Hgitlab & _).
    exact (Hgitlab eq_refl eq_refl).
  - destruct (createClient_checks Samples.sdk
                [ ("type", VStr "jira"); ("apiToken", VStr "secret");
                  ("email", VStr "mia@example.org");
                  ("projectKey", VStr "REL") ])
      as (_ & _ & _ & _ & Hjira & _).
    exact (proj2 (Hjira eq_refl eq_refl) Samples.host_refused eq_refl).
  - destruct (createClient_checks Samples.sdk
                [ ("type", VStr "jira");
                  ("baseUrl", VStr "https://relay.atlassian.net");
                  ("apiToken", VStr "secret");
                  ("email", VStr "mia@example.org");
                  ("projectKey", VStr "REL") ])
      as (_ & _ & _ & _ & Hjira & _).
    exact (proj1 (Hjira eq_refl eq_refl) eq_refl).
Defined.

(** C9 as stated does not hold: [GitHubConfig] declares [owner] and [repo],
    and a GitHub configuration without them is not refused. With a token that
    [new Octokit] accepts, the factory returns an adapter whose [owner] and
    [repo] are [undefined]. *)
Lemma createClient_github_without_repo :
  has_own "owner" Samples.github_fields_without_repo = false
  /\ has_own "repo" Samples.github_fields_without_repo = false
  /\ TicketClientFactory.createClient Samples.sdk
       Samples.github_config_without_repo
     = Ok (TicketClientFactory.GitHub
             {| GitHubClient.config := Samples.github_config_without_repo;
                GitHubClient.owner := VUndef;
                GitHubClient.repo := VUndef |}).
Proof. repeat split. Qed.

(** ** The status and state fields of a returned ticket *)

Lemma mapJiraStatusToPRState_review_state (status : string) :
  In (JiraClient.mapJiraStatusToPRState status) review_states.
Proof.
  unfold JiraClient.mapJiraStatusToPRState, review_states.
  destruct (_ || _); [simpl; auto |].
  destruct (_ || _); simpl; auto.
Qed.

Lemma mapServiceNowStateToPRState_review_state (state : value) :
  In (ServiceNowClient.mapServiceNowStateToPRState state) review_states.
Proof.
  unfold ServiceNowClient.mapServiceNowStateToPRState, review_states.
  repeat (destruct (strict_eq_string state _); [simpl; auto |]).
  simpl; auto.
Qed.

Lemma get_deterministic (r : value) (k : string) (a b : value) :
  get r k = Ok a -> get r k = Ok b -> a = b.
Proof. congruence. Qed.

(** C7, as the code has it. On ServiceNow and Jira the state of a returned
    review request is one of open, closed and merged. The status of a returned
    ticket is, on ServiceNow, the name the table gives to the record's code and
    the code itself when the table has none; on Jira, the lower-cased status
    name of the record; on GitLab, "open" for the platform state "opened" in
    any case and the platform state otherwise; on GitHub, the platform state,
    which is also the state of a pull request. *)
Theorem normalised_status_and_state (r : value) (ticket : StandardTicket) :
  (ServiceNowClient.normalizeTicket r = Ok ticket ->
   (forall st, state_of ticket = Some st ->
               exists s, st = VStr s /\ In s review_states)
   /\ (forall code name,
          get r "state" = Ok (VStr code) ->
          assoc code ServiceNowClient.stateMap = Some name ->
          status_of ticket = name)
   /\ (forall code,
          get r "state" = Ok (VStr code) ->
          has_own code ServiceNowClient.stateMap = false ->
          is_inherited code = false ->
          status_of ticket = VStr code))
  /\ (JiraClient.normalizeTicket r = Ok ticket ->
      (forall st, state_of ticket = Some st ->
                  exists s, st = VStr s /\ In s review_states)
      /\ exists fields status name,
           get r "fields" = Ok fields
           /\ get fields "status" = Ok status
           /\ get status "name" = Ok (VStr name)
           /\ status_of ticket = VStr (toLowerCase name))
  /\ (GitLabClient.normalizeTicket r = Ok ticket ->
      exists raw,
        get r "state" = Ok (VStr raw)
        /\ status_of ticket
           = if String.eqb (toLowerCase raw) "opened" then VStr "open"
             else VStr raw)
  /\ (GitHubClient.normalizeTicket r = Ok ticket ->
      exists raw,
        get r "state" = Ok raw
        /\ status_of ticket = raw
        /\ forall st, state_of ticket = Some st -> st = raw).
Proof.
  split; [| split; [| split]].
  - intros H. unfold ServiceNowClient.normalizeTicket in H. invert_chain H.
    match goal with
    | Estate : get r "state" = Ok ?raw,
      Estatus : ServiceNowClient.normalizeStatus ?raw = Ok ?mapped |- _ =>
        assert (Hstatus : status_of ticket = mapped)
          by (destruct (_ && _); invert_chain H; now injection H as <-);
        split; [| split];
        [ intros st Hst
        | intros code name Hcode Hname; rewrite Hstatus;
          rewrite Estate in Hcode; injection Hcode as ->
        | intros code Hcode Hown Hinh; rewrite Hstatus;
          rewrite Estate in Hcode; injection Hcode as -> ]
    end.
    + destruct (_ && _); invert_chain H; injection H as <-; [| discriminate].
      injection Hst as <-. eexists. split; [reflexivity |].
      apply mapServiceNowStateToPRState_review_state.
    + match goal with
      | Estatus : ServiceNowClient.normalizeStatus _ = Ok _ |- _ =>
          unfold ServiceNowClient.normalizeStatus in Estatus; cbn in Estatus;
          unfold lookup in Estatus; rewrite Hname in Estatus;
          unfold ServiceNowClient.stateMap in Hname; simpl in Hname;
          repeat match type of Hname with
                 | (if ?b then _ else _) = _ =>
                     destruct b;
                     [injection Hname as <-; now injection Estatus as <- |]
                 end
      end.
      discriminate.
    + match goal with
      | Estatus : ServiceNowClient.normalizeStatus _ = Ok _ |- _ =>
          rewrite (normalizeStatus_passthrough code Hown Hinh) in Estatus;
          now injection Estatus
      end.
  - intros H. unfold JiraClient.normalizeTicket in H. invert_chain H.
    match goal with
    | Efields : get r "fields" = Ok ?fields,
      Estatus : get ?fields "status" = Ok ?status,
      Ename : get ?status "name" = Ok ?name,
      Elower : toLowerCase_method ?name = Ok _ |- _ =>
        destruct name as [| | | |name| | | |]; try discriminate;
        injection Elower as <-;
        split; [| exists fields, status, name; repeat split; try assumption]
    end.
    + intros st Hst. destruct (strict_eq_string _ "Review");
        invert_chain H; injection H as <-; [| discriminate].
      injection Hst as <-. eexists. split; [reflexivity |].
      apply mapJiraStatusToPRState_review_state.
    + destruct (strict_eq_string _ "Review"); invert_chain H;
        now injection H as <-.
  - intros H. unfold GitLabClient.normalizeTicket in H. invert_chain H.
    match goal with
    | Estate : get r "state" = Ok ?raw,
      Estatus : GitLabClient.normalizeStatus ?raw = Ok ?mapped |- _ =>
        assert (Hstatus : status_of ticket = mapped)
          by (match type of H with
              | (if ?b then _ else _) = _ => destruct b
              end; invert_chain H; now injection H as <-);
        unfold GitLabClient.normalizeStatus in Estatus;
        destruct raw as [| | | |raw| | | |]; try discriminate;
        exists raw; split; [assumption |]; rewrite Hstatus;
        cbn in Estatus;
        destruct (String.eqb (toLowerCase raw) "opened"); now injection Estatus
    end.
  - intros H. unfold GitHubClient.normalizeTicket in H. invert_chain H.
    match goal with
    | Estate : get r "state" = Ok ?raw |- _ =>
        exists raw; split; [assumption |]
    end.
    match type of H with
    | (if ?b then _ else _) = _ => destruct b
    end; invert_chain H; injection H as <-.
    + split; [reflexivity |]. intros st Hst. injection Hst as <-.
      eapply get_deterministic; eassumption.
    + split; [reflexivity | discriminate].
Qed.

Lemma normalised_status_and_state_witness :
  exists ticket,
    ServiceNowClient.normalizeTicket
      (VObj (Samples.code_review_change (VStr "Hot fix") (VStr "6")))
    = Ok ticket
    /\ status_of ticket = VStr "resolved"
    /\ exists s, state_of ticket = Some (VStr s) /\ In s review_states.
Proof.
  eexists. split; [reflexivity |].
  match goal with
  | |- status_of ?t = _ /\ _ =>
      destruct (proj1 (normalised_status_and_state
                         (VObj (Samples.code_review_change (VStr "Hot fix")
                                  (VStr "6"))) t) eq_refl)
        as (Hstate & Htable & _)
  end.
  split.
  - exact (Htable "6" (VStr "resolved") eq_refl eq_refl).
  - destruct (Hstate _ eq_refl) as (s & Hs & Hin).
    exists s. split; [now rewrite <- Hs | exact Hin].
Defined.

(** C7 as stated does not hold. The status of a ServiceNow incident in the
    state Canceled is its raw code "8", and the state of a GitLab merge request
    that is open is the platform's own "opened". *)
Lemma raw_status_returned :
  (exists ticket,
      ServiceNowClient.normalizeTicket (VObj Samples.canceled_incident)
      = Ok ticket
      /\ status_of ticket = VStr "8"
      /\ ~ In "8" shared_vocabulary)
  /\ (exists ticket,
         GitLabClient.normalizeTicket (VObj Samples.gitlab_merge_request)
         = Ok ticket
         /\ state_of ticket = Some (VStr "opened")
         /\ ~ In "opened" review_states).
Proof.
  split; eexists; (split; [reflexivity |]); (split; [reflexivity |]);
    simpl; intros H;
    repeat (destruct H as [H | H]; [discriminate |]); exact H.
Qed.

(** ** Branch names in the description *)

(** What [createReviewRequest] sends as description ends with the two label
    lines and the reviewers line. *)
Lemma review_description_sample :
  review_description Samples.quoting_request
  = "Reopens the review that had" ++ nl
    ++ "Source Branch: feat/old" ++ nl
    ++ nl
    ++ "Source Branch: feat/x" ++ nl
    ++ "Target Branch: main" ++ nl
    ++ "Reviewers: None assigned".
Proof. reflexivity. Qed.

(** A description without label text yields "unknown" for both branches. *)
Lemma extract_branch_unknown (description label : string) :
  includes description label = false ->
  extract_branch (VStr description) label = Ok (VStr "unknown").
Proof.
  intros H. unfold extract_branch. cbn [match_method Js.bind].
  assert (Hnone : match_capture label description = None).
  { induction description as [|c rest IH].
    - cbn [includes] in H. apply orb_false_iff in H as [H _].
      cbn [match_capture]. unfold exec_here. now rewrite H.
    - cbn [includes] in H. apply orb_false_iff in H as [H Hrest].
      cbn [match_capture]. unfold exec_here at 1. rewrite H.
      now apply IH. }
  now rewrite Hnone.
Qed.

Lemma app_split (a b u v : string) :
  a ++ b = u ++ v ->
  (exists m, u = a ++ m /\ b = m ++ v) \/ (exists m, a = u ++ m /\ v = m ++ b).
Proof.
  revert u. induction a as [|x a IH]; intros u H.
  - left. exists u. now split.
  - destruct u as [|y u].
    + right. exists (String x a). now split.
    + simpl in H. injection H as -> H.
      destruct (IH u H) as [(m & -> & ->) | (m & -> & ->)].
      * left. now exists m.
      * right. now exists m.
Qed.

Lemma prefix_false (label s : string) :
  (forall post, s <> label ++ post) -> String.prefix label s = false.
Proof.
  intros H. destruct (String.prefix label s) eqn:E; [| reflexivity].
  apply prefix_app in E as [post E]. now elim (H post).
Qed.

Lemma no_hit_suffix (label skipped before after : string) :
  no_hit label (skipped ++ before) after -> no_hit label before after.
Proof.
  intros H skipped' rest Heq Hne. apply (H (skipped ++ skipped') rest); auto.
  now rewrite Heq, append_assoc.
Qed.

Lemma no_hit_app (label a b after : string) :
  no_hit label a (b ++ after) -> no_hit label b after ->
  no_hit label (a ++ b) after.
Proof.
  intros Ha Hb skipped rest Heq Hne.
  destruct (app_split _ _ _ _ Heq) as [(m & -> & ->) | (m & -> & ->)].
  - now apply (Hb m rest).
  - destruct m as [|x m].
    + simpl. now apply (Hb EmptyString b).
    + rewrite append_assoc. apply (Ha skipped (String x m)); auto. discriminate.
Qed.

(** No match starts in a text that does not hold the first character of the
    label. *)
Lemma no_hit_free_of (c : ascii) (label before after : string) :
  free_of c before = true -> no_hit (String c label) before after.
Proof.
  intros Hfree skipped rest -> Hne.
  induction skipped as [|x skipped IH].
  - destruct rest as [|y rest]; [now elim Hne |].
    simpl in Hfree. apply andb_true_iff in Hfree as [Hy _].
    simpl. destruct (Ascii.ascii_dec c y) as [->|]; [| reflexivity].
    now rewrite Ascii.eqb_refl in Hy.
  - simpl in Hfree. apply andb_true_iff in Hfree as [_ Hfree]. now apply IH.
Qed.

Lemma single_line_app (a b : string) :
  single_line (a ++ b) = single_line a && single_line b.
Proof.
  induction a as [|x a IH]; simpl; [reflexivity |].
  now rewrite IH, andb_assoc.
Qed.

(** No match starts in a line that does not contain the label: a label holds
    no line terminator, so a match cannot run over the end of the line. *)
Lemma no_hit_line (label line after : string) (lt : ascii) :
  single_line label = true -> is_line_terminator lt = true ->
  includes line label = false ->
  no_hit label line (String lt after).
Proof.
  intros Hlabel Hlt Hline skipped rest -> Hne.
  apply prefix_false. intros post Heq.
  destruct (app_split _ _ _ _ Heq) as [(m & -> & Hm) | (m & -> & Hm)].
  - destruct m as [|x m].
    + apply includes_not_contains in Hline. apply Hline.
      exists skipped, EmptyString. now rewrite !append_empty_r.
    + simpl in Hm. injection Hm as <- _.
      rewrite single_line_app in Hlabel. simpl in Hlabel.
      rewrite Hlt in Hlabel. simpl in Hlabel.
      now rewrite andb_false_r in Hlabel.
  - apply includes_not_contains in Hline. apply Hline.
    now exists skipped, m.
Qed.

Lemma match_capture_skip (label before after : string) :
  no_hit label before after ->
  match_capture label (before ++ after) = match_capture label after.
Proof.
  induction before as [|x before IH]; intros H; [reflexivity |].
  cbn [append match_capture]. unfold exec_here at 1.
  assert (Hhere : String.prefix label (String x before ++ after) = false)
    by (apply (H EmptyString); [reflexivity | discriminate]).
  cbn [append] in Hhere. rewrite Hhere.
  apply IH. apply (no_hit_suffix label (String x EmptyString)). exact H.
Qed.

Lemma skip_app (a b : string) : skip (String.length a) (a ++ b) = b.
Proof. induction a as [|x a IH]; [now destruct b | exact IH]. Qed.

Lemma line_run_line (line after : string) (lt : ascii) :
  single_line line = true -> is_line_terminator lt = true ->
  line_run (line ++ String lt after) = line.
Proof.
  intros Hline Hlt. induction line as [|x line IH]; simpl.
  - now rewrite Hlt.
  - simpl in Hline. apply andb_true_iff in Hline as [Hx Hline].
    apply negb_true_iff in Hx. rewrite Hx. now rewrite IH.
Qed.

Lemma match_capture_hit (label line after : string) (lt : ascii) :
  single_line line = true -> is_line_terminator lt = true ->
  line <> EmptyString ->
  match_capture label (label ++ line ++ String lt after) = Some line.
Proof.
  intros Hline Hlt Hne.
  assert (Hhere : exec_here label (label ++ line ++ String lt after)
                  = Some line).
  { unfold exec_here.
    rewrite (proj2 (prefix_app label _)) by now eexists.
    rewrite skip_app, line_run_line by assumption.
    destruct line; [now elim Hne | reflexivity]. }
  destruct (label ++ line ++ String lt after); cbn [match_capture];
    now rewrite Hhere.
Qed.

Lemma trimStart_app (before after : string) (c : ascii) :
  is_white_space c = false ->
  exists dropped kept,
    before = dropped ++ kept
    /\ trimStart (before ++ String c after) = kept ++ String c after.
Proof.
  intros Hc. induction before as [|x before IH].
  - exists EmptyString, EmptyString. split; [reflexivity |].
    simpl. now rewrite Hc.
  - simpl. destruct (is_white_space x).
    + destruct IH as (dropped & kept & -> & ->).
      now exists (String x dropped), kept.
    + now exists EmptyString, (String x before).
Qed.

Lemma trimEnd_head (c : ascii) (s : string) :
  is_white_space c = false -> trimEnd (String c s) = String c (trimEnd s).
Proof.
  intros Hc. simpl. rewrite Hc. now destruct (trimEnd s).
Qed.

Lemma trimEnd_app (before after : string) :
  trimEnd after <> EmptyString ->
  trimEnd (before ++ after) = before ++ trimEnd after.
Proof.
  intros Hne. induction before as [|x before IH]; [reflexivity |].
  simpl. rewrite IH. destruct (before ++ trimEnd after) eqn:E; [| reflexivity].
  destruct before; simpl in E; [now elim Hne | discriminate].
Qed.

(** The description [createReviewRequest] builds, after [trim]: what is left
    of the head, then the two label lines as written, then the reviewers. *)
Lemma review_description_shape (options : CreateReviewRequest) :
  exists dropped kept reviewers,
    nl ++ rr_description options ++ nl ++ nl = dropped ++ kept
    /\ review_description options
       = kept ++ "Source Branch: " ++ rr_sourceBranch options ++ nl
         ++ "Target Branch: " ++ rr_targetBranch options ++ nl
         ++ "Reviewers:" ++ reviewers.
Proof.
  unfold review_description, trim.
  set (tail := "ource Branch: " ++ rr_sourceBranch options ++ nl
               ++ "Target Branch: " ++ rr_targetBranch options ++ nl
               ++ "Reviewers: " ++ reviewers_line (rr_reviewers options)
               ++ nl ++ "    ").
  destruct (trimStart_app (nl ++ rr_description options ++ nl ++ nl) tail "S"
              eq_refl) as (dropped & kept & Hsplit & Htrim).
  exists dropped, kept.
  exists (trimEnd (" " ++ reviewers_line (rr_reviewers options) ++ nl ++ "    ")).
  split; [exact Hsplit |].
  replace (nl ++ rr_description options ++ nl ++ nl
           ++ "Source Branch: " ++ rr_sourceBranch options ++ nl
           ++ "Target Branch: " ++ rr_targetBranch options ++ nl
           ++ "Reviewers: " ++ reviewers_line (rr_reviewers options)
           ++ nl ++ "    ")
    with ((nl ++ rr_description options ++ nl ++ nl) ++ String "S" tail)
    by (unfold tail; now rewrite !append_assoc).
  rewrite Htrim.
  replace (kept ++ String "S" tail)
    with ((kept ++ "Source Branch: " ++ rr_sourceBranch options ++ nl
           ++ "Target Branch: " ++ rr_targetBranch options ++ nl)
          ++ "Reviewers:" ++ " " ++ reviewers_line (rr_reviewers options)
          ++ nl ++ "    ")
    by (unfold tail; now rewrite !append_assoc).
  rewrite trimEnd_app.
  - cbn [append]. rewrite !trimEnd_head by reflexivity.
    repeat (rewrite ?append_assoc; cbn [append]). reflexivity.
  - cbn [append]. rewrite trimEnd_head by reflexivity. discriminate.
Qed.

Lemma no_hit_line_nl (label line after : string) :
  single_line label = true -> includes line label = false ->
  no_hit label line (nl ++ after).
Proof. intros Hlabel Hline. now apply no_hit_line. Qed.

Lemma match_capture_hit_nl (label line after : string) :
  single_line line = true -> line <> EmptyString ->
  match_capture label (label ++ line ++ nl ++ after) = Some line.
Proof. intros Hline Hne. now apply match_capture_hit. Qed.

Lemma no_hit_nl (c : ascii) (label after : string) :
  is_line_terminator c = false -> no_hit (String c label) nl after.
Proof.
  intros Hc. apply no_hit_free_of. unfold nl. cbn [free_of].
  destruct (Ascii.eqb_spec "010"%char c) as [<-|]; [discriminate | reflexivity].
Qed.

(** No match of a label starts in the head of the built description when the
    description given by the caller does not contain the label. *)
Lemma no_hit_head (c : ascii) (label text after : string) :
  single_line (String c label) = true ->
  includes text (String c label) = false ->
  no_hit (String c label) (nl ++ text ++ nl ++ nl) after.
Proof.
  intros Hlabel Htext.
  assert (Hc : is_line_terminator c = false).
  { simpl in Hlabel. apply andb_true_iff in Hlabel as [Hc _].
    now apply negb_true_iff in Hc. }
  apply no_hit_app; [now apply no_hit_nl |].
  apply no_hit_app.
  - rewrite append_assoc. now apply no_hit_line_nl.
  - apply no_hit_app; now apply no_hit_nl.
Qed.

Lemma extract_branch_found (description label branch : string) :
  match_capture label description = Some branch ->
  branch <> EmptyString ->
  extract_branch (VStr description) label = Ok (VStr branch).
Proof.
  intros Hmatch Hne. unfold extract_branch. cbn [match_method Js.bind].
  rewrite Hmatch. unfold or_else. simpl.
  now destruct (String.eqb_spec branch EmptyString).
Qed.

(** The round trip of the branch names, where it holds: the description given
    by the caller contains neither label, the branch names are not empty and
    hold no line terminator, and the source branch does not contain the label
    of the target branch. *)
Lemma review_description_read_back (options : CreateReviewRequest) :
  includes (rr_description options) "Source Branch: " = false ->
  includes (rr_description options) "Target Branch: " = false ->
  includes (rr_sourceBranch options) "Target Branch: " = false ->
  single_line (rr_sourceBranch options) = true ->
  single_line (rr_targetBranch options) = true ->
  rr_sourceBranch options <> EmptyString ->
  rr_targetBranch options <> EmptyString ->
  extract_branch (VStr (review_description options)) "Source Branch: "
  = Ok (VStr (rr_sourceBranch options))
  /\ extract_branch (VStr (review_description options)) "Target Branch: "
     = Ok (VStr (rr_targetBranch options)).
Proof.
  intros Hds Hdt Hst Hs Ht Hsne Htne.
  destruct (review_description_shape options)
    as (dropped & kept & reviewers & Hsplit & ->).
  split.
  - apply extract_branch_found; [| exact Hsne].
    rewrite match_capture_skip; [now apply match_capture_hit_nl |].
    apply (no_hit_suffix _ dropped). rewrite <- Hsplit.
    now apply no_hit_head.
  - apply extract_branch_found; [| exact Htne].
    replace (kept ++ "Source Branch: " ++ rr_sourceBranch options ++ nl
             ++ "Target Branch: " ++ rr_targetBranch options ++ nl
             ++ "Reviewers:" ++ reviewers)
      with ((kept ++ "Source Branch: " ++ rr_sourceBranch options ++ nl)
            ++ "Target Branch: " ++ rr_targetBranch options ++ nl
            ++ "Reviewers:" ++ reviewers)
      by (now rewrite !append_assoc).
    rewrite match_capture_skip; [now apply match_capture_hit_nl |].
    apply no_hit_app.
    + apply (no_hit_suffix _ dropped). rewrite <- Hsplit.
      now apply no_hit_head.
    + apply no_hit_app; [now apply no_hit_free_of |].
      apply no_hit_app; [now apply no_hit_line_nl | now apply no_hit_nl].
Qed.

(** C2, where the code departs from it. The description of the request already
    holds a line "Source Branch: feat/old". [createReviewRequest] appends both
    label lines and returns the branches it was given, but the read of the
    stored record takes the first match: on Jira and on ServiceNow the source
    branch it recovers is "feat/old", not "feat/x". *)
Theorem createReviewRequest_then_read_quoted_label :
  (exists ticket,
      outcome (JiraClient.createReviewRequest Samples.jira
                 Samples.quoting_request) Samples.jira_site = Ok ticket
      /\ sourceBranch_of ticket = Some (VStr "feat/x")
      /\ targetBranch_of ticket = Some (VStr "main"))
  /\ (exists ticket,
         outcome (JiraClient.getTicket Samples.jira (VStr "REL-1"))
           Samples.jira_site = Ok ticket
         /\ description (base_of ticket)
            = VStr (review_description Samples.quoting_request)
         /\ sourceBranch_of ticket = Some (VStr "feat/old")
         /\ targetBranch_of ticket = Some (VStr "main"))
  /\ (exists ticket,
         outcome (ServiceNowClient.createReviewRequest Samples.servicenow
                    Samples.quoting_request) Samples.servicenow_instance
         = Ok ticket
         /\ id (base_of ticket) = VStr "46e9b4afa9fe198101026e122b85f442"
         /\ description (base_of ticket)
            = VStr (review_description Samples.quoting_request)
         /\ sourceBranch_of ticket = Some (VStr "feat/x"))
  /\ (exists ticket,
         outcome (ServiceNowClient.getTicket Samples.servicenow
                    "46e9b4afa9fe198101026e122b85f442")
           Samples.servicenow_instance = Ok ticket
         /\ sourceBranch_of ticket = Some (VStr "feat/old")
         /\ targetBranch_of ticket = Some (VStr "main")).
Proof.
  repeat split; eexists; repeat split; reflexivity.
Qed.

(** * Further properties *)

(** ** Branch names: what a read recovers *)

Lemma line_run_single_line (s : string) : single_line (line_run s) = true.
Proof.
  induction s as [|c s IH]; [reflexivity |].
  simpl. destruct (is_line_terminator c) eqn:E; [reflexivity |].
  simpl. now rewrite E, IH.
Qed.

Lemma match_capture_shape (label s captured : string) :
  match_capture label s = Some captured ->
  captured <> EmptyString /\ single_line captured = true.
Proof.
  induction s as [|c s IH]; cbn [match_capture]; unfold exec_here at 1.
  - destruct (String.prefix label EmptyString); [| discriminate].
    destruct (line_run _) eqn:E; [discriminate |].
    intros H. injection H as <-. split; [discriminate |].
    rewrite <- E. apply line_run_single_line.
  - destruct (String.prefix label (String c s)); [| exact IH].
    destruct (line_run _) eqn:E; [exact IH |].
    intros H. injection H as <-. split; [discriminate |].
    rewrite <- E. apply line_run_single_line.
Qed.

Lemma extract_branch_shape (description : value) (label : string) (v : value) :
  extract_branch description label = Ok v ->
  exists branch,
    v = VStr branch /\ branch <> EmptyString /\ single_line branch = true.
Proof.
  unfold extract_branch. intros H. apply bind_ok_inv in H as (m & Hm & H).
  injection H as <-.
  destruct description; try discriminate. cbn in Hm. injection Hm as <-.
  destruct (match_capture label s) as [captured|] eqn:E.
  - destruct (match_capture_shape _ _ _ E) as [Hne Hline].
    exists captured. repeat split; try assumption.
    unfold or_else. simpl. now destruct (String.eqb_spec captured EmptyString).
  - exists "unknown". repeat split. discriminate.
Qed.

(** X1. On Jira and ServiceNow the source and target branch of a returned
    review request are never empty and never span lines: each is a non-empty
    string without line terminator (the text "unknown" when the description
    has no match). *)
Theorem read_branches_single_line (r : value) (base : BaseTicket)
    (source target state : value) :
  JiraClient.normalizeTicket r = Ok (StandardPullRequest base source target state)
  \/ ServiceNowClient.normalizeTicket r
     = Ok (StandardPullRequest base source target state) ->
  (exists s, source = VStr s /\ s <> EmptyString /\ single_line s = true)
  /\ (exists s, target = VStr s /\ s <> EmptyString /\ single_line s = true).
Proof.
  intros [H | H].
  - unfold JiraClient.normalizeTicket in H. invert_chain H.
    destruct (strict_eq_string _ "Review"); [| discriminate].
    invert_chain H.
    match goal with
    | Es : extract_branch _ "Source Branch: " = Ok ?a,
      Et : extract_branch _ "Target Branch: " = Ok ?b |- _ =>
        destruct (extract_branch_shape _ _ _ Es) as (s1 & -> & Hs1);
        destruct (extract_branch_shape _ _ _ Et) as (s2 & -> & Hs2)
    end.
    match type of H with
    | match ?n with _ => _ end = _ => destruct n; try discriminate
    end.
    injection H as <- <- <- <-. split; eauto.
  - unfold ServiceNowClient.normalizeTicket in H. invert_chain H.
    destruct (_ && _); [| discriminate].
    invert_chain H.
    match goal with
    | Es : extract_branch _ "Source Branch: " = Ok ?a,
      Et : extract_branch _ "Target Branch: " = Ok ?b |- _ =>
        destruct (extract_branch_shape _ _ _ Es) as (s1 & -> & Hs1);
        destruct (extract_branch_shape _ _ _ Et) as (s2 & -> & Hs2)
    end.
    injection H as <- <- <- <-. split; eauto.
Qed.

Lemma read_branches_single_line_witness :
  (exists s, VStr "feat/old" = VStr s /\ s <> EmptyString
             /\ single_line s = true)
  /\ (exists s, VStr "main" = VStr s /\ s <> EmptyString
                /\ single_line s = true).
Proof.
  eapply (read_branches_single_line
            (Samples.jira_review
               (VStr (review_description Samples.quoting_request)))).
  left. reflexivity.
Defined.

Lemma first_request_head {A : Type} (q : request) (k : value -> M A)
    (t : transport) :
  exists rest, issued (Remote.bind (call q) k) t = q :: rest.
Proof.
  unfold issued, Remote.bind, call. destruct (t q) as [a|e]; simpl.
  - destruct (k a t) as [more r]. now exists more.
  - now exists [].
Qed.

(** Two reads of one property yield one value. *)
Ltac same_reads :=
  repeat match goal with
         | A : get ?x ?k = Ok ?a, B : get ?x ?k = Ok ?b |- _ =>
             let E := fresh "E" in
             assert (E : a = b) by congruence;
             clear B; try subst a; try subst b
         end.

(** X2. The round trip of the branch names through the description. Both
    [createReviewRequest] bodies send the description [review_description]
    builds. When the caller's description contains neither label, the branch
    names are non-empty and hold no line terminator, and the source branch does
    not contain the target label, a later read of a record that holds this
    description and is classified as a review request recovers exactly the two
    branch names given at creation. *)
Theorem branches_round_trip (options : CreateReviewRequest) :
  includes (rr_description options) "Source Branch: " = false ->
  includes (rr_description options) "Target Branch: " = false ->
  includes (rr_sourceBranch options) "Target Branch: " = false ->
  single_line (rr_sourceBranch options) = true ->
  single_line (rr_targetBranch options) = true ->
  rr_sourceBranch options <> EmptyString ->
  rr_targetBranch options <> EmptyString ->
  let sent := VStr (review_description options) in
  (forall c t, exists args fields rest,
      issued (JiraClient.createReviewRequest c options) t
      = CreateIssue args :: rest
      /\ get args "fields" = Ok fields
      /\ get fields "description" = Ok sent)
  /\ (forall c t, exists payload,
         issued (ServiceNowClient.createReviewRequest c options) t
         = [ HttpPost "/table/change_request" payload ]
         /\ get payload "description" = Ok sent
         /\ get payload "category" = Ok (VStr "Code Review"))
  /\ (forall r fields issuetype ticket,
         get r "fields" = Ok fields ->
         get fields "description" = Ok sent ->
         get fields "issuetype" = Ok issuetype ->
         get issuetype "name" = Ok (VStr "Review") ->
         JiraClient.normalizeTicket r = Ok ticket ->
         sourceBranch_of ticket = Some (VStr (rr_sourceBranch options))
         /\ targetBranch_of ticket = Some (VStr (rr_targetBranch options)))
  /\ (forall r ticket,
         get r "description" = Ok sent ->
         get r "sys_class_name" = Ok (VStr "change_request") ->
         get r "category" = Ok (VStr "Code Review") ->
         ServiceNowClient.normalizeTicket r = Ok ticket ->
         sourceBranch_of ticket = Some (VStr (rr_sourceBranch options))
         /\ targetBranch_of ticket = Some (VStr (rr_targetBranch options))).
Proof.
  intros Hds Hdt Hst Hs Ht Hsne Htne sent. subst sent.
  set (sent := VStr (review_description options)).
  destruct (review_description_read_back options Hds Hdt Hst Hs Ht Hsne Htne)
    as [Hsource Htarget].
  assert (Hsent : or_else sent (VStr EmptyString) = sent).
  { unfold sent, or_else. simpl.
    destruct (String.eqb_spec (review_description options) EmptyString) as [E|];
      [| reflexivity].
    destruct (review_description_shape options)
      as (dropped & kept & reviewers & _ & Hshape).
    rewrite Hshape in E. destruct kept; discriminate. }
  split; [| split; [| split]].
  - intros c t. unfold JiraClient.createReviewRequest. cbv zeta.
    match goal with
    | |- context [issued (Remote.bind (call ?q) ?k) t] =>
        destruct (first_request_head q k t) as [rest ->]
    end.
    do 3 eexists. repeat split.
  - intros c t. unfold issued, ServiceNowClient.createReviewRequest.
    rewrite run_attempt_unwrapped. eexists. repeat split.
  - intros r fields issuetype ticket Hf Hd Hi Hn H.
    unfold JiraClient.normalizeTicket in H. invert_chain H.
    same_reads.
    cbn [strict_eq_string] in H. rewrite String.eqb_refl in H.
    rewrite Hsent, Hsource, Htarget in H. cbn [Js.bind] in H.
    match type of H with
    | match ?n with _ => _ end = _ => destruct n; try discriminate
    end.
    injection H as <-. split; reflexivity.
  - intros r ticket Hd Hc Hcat H.
    unfold ServiceNowClient.normalizeTicket in H. invert_chain H.
    same_reads.
    match type of H with
    | (if ?b then _ else _) = _ => change b with true in H
    end.
    cbv iota in H. rewrite Hsent, Hsource, Htarget in H. cbn [Js.bind] in H.
    injection H as <-. split; reflexivity.
Qed.

Lemma branches_round_trip_witness :
  exists ticket,
    JiraClient.normalizeTicket
      (Samples.jira_review (VStr (review_description Fixtures.plain_request)))
    = Ok ticket
    /\ sourceBranch_of ticket = Some (VStr "feat/x")
    /\ targetBranch_of ticket = Some (VStr "main").
Proof.
  assert (Hs : rr_sourceBranch Fixtures.plain_request <> EmptyString)
    by discriminate.
  assert (Ht : rr_targetBranch Fixtures.plain_request <> EmptyString)
    by discriminate.
  pose proof (branches_round_trip Fixtures.plain_request eq_refl eq_refl
                eq_refl eq_refl eq_refl Hs Ht) as (_ & _ & Hjira & _).
  eexists. split; [reflexivity |].
  eapply (Hjira (Samples.jira_review
                   (VStr (review_description Fixtures.plain_request))));
    reflexivity.
Defined.

(** ** Which records are review requests *)

(** X3. Jira and ServiceNow classify by a reserved value. A Jira record is
    returned as a review request exactly when its issue type is named
    "Review"; a ServiceNow record exactly when its class is "change_request"
    and its category is "Code Review", so an incident of that category is an
    issue. *)
Theorem classification_by_sentinel (r : value) (ticket : StandardTicket) :
  (forall fields issuetype name,
      get r "fields" = Ok fields ->
      get fields "issuetype" = Ok issuetype ->
      get issuetype "name" = Ok name ->
      JiraClient.normalizeTicket r = Ok ticket ->
      is_pull_request ticket = strict_eq_string name "Review")
  /\ (forall class category,
         get r "sys_class_name" = Ok class ->
         get r "category" = Ok category ->
         ServiceNowClient.normalizeTicket r = Ok ticket ->
         is_pull_request ticket
         = strict_eq_string class "change_request"
           && strict_eq_string category "Code Review").
Proof.
  split.
  - intros fields issuetype name Hf Hi Hn H.
    unfold JiraClient.normalizeTicket in H. invert_chain H. same_reads.
    match goal with |- _ = ?b => destruct b end.
    + invert_chain H.
      match type of H with
      | match ?n with _ => _ end = _ => destruct n; try discriminate
      end.
      now injection H as <-.
    + now injection H as <-.
  - intros class category Hc Hcat H.
    unfold ServiceNowClient.normalizeTicket in H. invert_chain H. same_reads.
    change ServiceNowClient.TABLE_CHANGE_REQUEST with "change_request" in H.
    destruct (_ && _).
    + invert_chain H. now injection H as <-.
    + now injection H as <-.
Qed.

Lemma classification_by_sentinel_witness :
  exists ticket,
    ServiceNowClient.normalizeTicket (VObj Samples.canceled_incident)
    = Ok ticket
    /\ is_pull_request ticket = false.
Proof.
  eexists. split; [reflexivity |].
  match goal with
  | |- is_pull_request ?t = _ =>
      exact (proj2 (classification_by_sentinel
                      (VObj Samples.canceled_incident) t)
               (VStr "incident") (VStr "software") eq_refl eq_refl eq_refl)
  end.
Defined.

Lemma github_normalizeTicket_marker (r : value) (ticket : StandardTicket) :
  GitHubClient.normalizeTicket r = Ok ticket ->
  exists fields,
    r = VObj fields /\ is_pull_request ticket = has_own "pull_request" fields.
Proof.
  intros H. unfold GitHubClient.normalizeTicket in H. invert_chain H.
  destruct r as [| | | | |fields| | |]; try discriminate;
    try (cbn in *;
         repeat match goal with
                | E : Ok _ = Ok _ |- _ => injection E as <-
                end; discriminate).
  exists fields. split; [reflexivity |].
  match goal with
  | E : in_op _ _ = Ok ?b |- _ => cbn in E; injection E as <-
  end.
  rewrite orb_false_r in *.
  destruct (has_own "pull_request" fields).
  - invert_chain H. now injection H as <-.
  - now injection H as <-.
Qed.

Lemma gitlab_normalizeTicket_marker (r : value) (ticket : StandardTicket) :
  GitLabClient.normalizeTicket r = Ok ticket ->
  exists fields,
    r = VObj fields /\ is_pull_request ticket = has_own "source_branch" fields.
Proof.
  intros H. unfold GitLabClient.normalizeTicket in H. invert_chain H.
  destruct r as [| | | | |fields| | |]; try discriminate;
    try (cbn in *;
         repeat match goal with
                | E : Ok _ = Ok _ |- _ => injection E as <-
                end; discriminate).
  exists fields. split; [reflexivity |].
  match goal with
  | E : in_op _ _ = Ok ?b |- _ => cbn in E; injection E as <-
  end.
  rewrite orb_false_r in *.
  destruct (has_own "source_branch" fields).
  - invert_chain H. now injection H as <-.
  - now injection H as <-.
Qed.

(** X4. GitHub and GitLab classify by a key of the record, whatever endpoint
    it came from. A record that normalises is an object; it is returned as a
    pull request exactly when it has the key [pull_request] (GitHub) or
    [source_branch] (GitLab). *)
Theorem classification_by_key (r : value) (ticket : StandardTicket) :
  (GitHubClient.normalizeTicket r = Ok ticket ->
   exists fields,
     r = VObj fields
     /\ is_pull_request ticket = has_own "pull_request" fields)
  /\ (GitLabClient.normalizeTicket r = Ok ticket ->
      exists fields,
        r = VObj fields
        /\ is_pull_request ticket = has_own "source_branch" fields).
Proof.
  split.
  - apply github_normalizeTicket_marker.
  - apply gitlab_normalizeTicket_marker.
Qed.

Lemma classification_by_key_witness :
  exists ticket,
    GitLabClient.normalizeTicket (VObj Samples.gitlab_merge_request) = Ok ticket
    /\ is_pull_request ticket = true.
Proof.
  eexists. split; [reflexivity |].
  match goal with
  | |- is_pull_request ?t = _ =>
      destruct (proj2 (classification_by_key
                         (VObj Samples.gitlab_merge_request) t) eq_refl)
        as (fields & Hr & ->)
  end.
  injection Hr as <-. reflexivity.
Defined.

(** ** Status tables and filters *)

(** X5. The two ServiceNow state tables are inverse to each other. For every
    entry of [stateMap], the forward mapping sends the code to the name, the
    reverse mapping sends the name, in any letter case, back to the code, and
    [getTickets] with that status filters on the code. *)
Theorem servicenow_state_tables_inverse (code name : string) :
  In (code, VStr name) ServiceNowClient.stateMap ->
  ServiceNowClient.normalizeStatus (VStr code) = Ok (VStr name)
  /\ (forall status,
         toLowerCase status = name ->
         ServiceNowClient.mapStatusToServiceNow status = VStr code)
  /\ ServiceNowClient.query_of
       (Some {| filter_status := Some name; filter_assigneeId := None |})
     = Ok ("?sysparm_query=state=" ++ code).
Proof.
  intros Hin. unfold ServiceNowClient.stateMap in Hin. simpl in Hin.
  repeat (destruct Hin as [Hin | Hin];
          [injection Hin as <- <-;
           (split; [reflexivity |]);
           (split; [| reflexivity]);
           intros status Hstatus;
           unfold ServiceNowClient.mapStatusToServiceNow;
           rewrite Hstatus; reflexivity |]).
  contradiction.
Qed.

Lemma servicenow_state_tables_inverse_witness :
  ServiceNowClient.mapStatusToServiceNow "On_Hold" = VStr "3"
  /\ ServiceNowClient.normalizeStatus (VStr "3") = Ok (VStr "on_hold").
Proof.
  assert (Hin : In ("3", VStr "on_hold") ServiceNowClient.stateMap)
    by (simpl; auto).
  destruct (servicenow_state_tables_inverse "3" "on_hold" Hin)
    as (Hforward & Hreverse & _).
  split; [exact (Hreverse "On_Hold" eq_refl) | exact Hforward].
Defined.

(** X6. An empty status is no status: on all four adapters [getTickets] with
    the status [""] runs exactly as without a status, and without an options
    object exactly as with an empty one. An empty assignee is no assignee on
    GitLab, Jira and ServiceNow, whereas GitHub sends it on as the assignee
    [""]. *)
Theorem empty_filter_is_no_filter (status assignee : option string)
    (t : transport) :
  let blank_status :=
    Some {| filter_status := Some EmptyString; filter_assigneeId := assignee |} in
  let no_status :=
    Some {| filter_status := None; filter_assigneeId := assignee |} in
  let blank_assignee :=
    Some {| filter_status := status; filter_assigneeId := Some EmptyString |} in
  let no_assignee :=
    Some {| filter_status := status; filter_assigneeId := None |} in
  let nothing :=
    Some {| filter_status := None; filter_assigneeId := None |} in
  (forall c,
      GitHubClient.getTickets c blank_status t
      = GitHubClient.getTickets c no_status t
      /\ GitHubClient.getTickets c None t = GitHubClient.getTickets c nothing t
      /\ exists state,
           issued (GitHubClient.getTickets c blank_assignee) t
           = [ IssuesListForRepo
                 (VObj [ ("owner", GitHubClient.owner c);
                         ("repo", GitHubClient.repo c);
                         ("state", state);
                         ("assignee", VStr EmptyString) ]) ])
  /\ (forall c,
         GitLabClient.getTickets c blank_status t
         = GitLabClient.getTickets c no_status t
         /\ GitLabClient.getTickets c blank_assignee t
            = GitLabClient.getTickets c no_assignee t
         /\ GitLabClient.getTickets c None t
            = GitLabClient.getTickets c nothing t)
  /\ (forall c,
         JiraClient.getTickets c blank_status t
         = JiraClient.getTickets c no_status t
         /\ JiraClient.getTickets c blank_assignee t
            = JiraClient.getTickets c no_assignee t
         /\ JiraClient.getTickets c None t
            = JiraClient.getTickets c nothing t)
  /\ (forall c,
         ServiceNowClient.getTickets c blank_status t
         = ServiceNowClient.getTickets c no_status t
         /\ ServiceNowClient.getTickets c blank_assignee t
            = ServiceNowClient.getTickets c no_assignee t
         /\ ServiceNowClient.getTickets c None t
            = ServiceNowClient.getTickets c nothing t).
Proof.
  cbv zeta. split; [| split; [| split]]; intros c.
  - split; [reflexivity |]. split; [reflexivity |].
    eexists. unfold issued, GitHubClient.getTickets.
    rewrite run_attempt_unwrapped. reflexivity.
  - repeat split; reflexivity.
  - repeat split; reflexivity.
  - repeat split; reflexivity.
Qed.

(** ** Lists of tickets *)

Lemma mapM_Forall2 {A B : Type} (f : A -> result B) (l : list A)
    (l' : list B) :
  mapM f l = Ok l' <-> Forall2 (fun a b => f a = Ok b) l l'.
Proof.
  revert l'. induction l as [|x l IH]; intros l'; simpl.
  - split.
    + intros H. injection H as <-. constructor.
    + intros H. now inversion H.
  - split.
    + intros H. apply bind_ok_inv in H as (y & Hy & H).
      apply bind_ok_inv in H as (ys & Hys & H). injection H as <-.
      constructor; [assumption | now apply IH].
    + intros H. inversion H as [|? y ? ys Hy Hys]; subst.
      rewrite Hy. simpl. apply IH in Hys. now rewrite Hys.
Qed.

Lemma map_array_Forall2 {A : Type} (f : value -> result A) (v : value)
    (l' : list A) :
  map_array f v = Ok l' ->
  exists items, v = VArr items /\ Forall2 (fun r a => f r = Ok a) items l'.
Proof.
  destruct v; try discriminate. intros H. eexists. split; [reflexivity |].
  now apply mapM_Forall2.
Qed.

Lemma jira_getTickets_run (c : JiraClient.client)
    (options : option TicketFilter) (t : transport) :
  JiraClient.getTickets c options t
  = match JiraClient.jql_of c options with
    | Ok jql =>
        let q := SearchForIssuesUsingJql
                   (VObj [ ("jql", VStr jql);
                           ("fields", JiraClient.requested_fields) ]) in
        ([q], attempt q (fun response =>
                           let* issues := get response "issues" in
                           map_array JiraClient.normalizeTicket issues) t)
    | Throw e => ([], Throw e)
    end.
Proof.
  unfold JiraClient.getTickets. unfold Remote.bind at 1, lift at 1.
  destruct (JiraClient.jql_of c options) as [jql|e]; [| reflexivity].
  now rewrite run_attempt_unwrapped.
Qed.

(** X7. On GitHub, GitLab and Jira [getTickets] issues one request and
    returns the tickets of the records the platform listed, one for one and
    in the platform's order: nothing is dropped, added or reordered. *)
Theorem getTickets_in_platform_order (options : option TicketFilter)
    (t : transport) (tickets : list StandardTicket) :
  (forall c,
      outcome (GitHubClient.getTickets c options) t = Ok tickets ->
      exists q response items,
        issued (GitHubClient.getTickets c options) t = [q]
        /\ t q = Ok response
        /\ get response "data" = Ok (VArr items)
        /\ Forall2 (fun r ticket => GitHubClient.normalizeTicket r = Ok ticket)
             items tickets
        /\ length tickets = length items)
  /\ (forall c,
         outcome (GitLabClient.getTickets c options) t = Ok tickets ->
         exists q items,
           issued (GitLabClient.getTickets c options) t = [q]
           /\ t q = Ok (VArr items)
           /\ Forall2 (fun r ticket =>
                         GitLabClient.normalizeTicket r = Ok ticket)
                items tickets
           /\ length tickets = length items)
  /\ (forall c,
         outcome (JiraClient.getTickets c options) t = Ok tickets ->
         exists q response items,
           issued (JiraClient.getTickets c options) t = [q]
           /\ t q = Ok response
           /\ get response "issues" = Ok (VArr items)
           /\ Forall2 (fun r ticket =>
                         JiraClient.normalizeTicket r = Ok ticket)
                items tickets
           /\ length tickets = length items).
Proof.
  split; [| split]; intros c; unfold outcome, issued.
  - unfold GitHubClient.getTickets. rewrite run_attempt_unwrapped.
    cbn [fst snd]. unfold attempt. intros H.
    apply bind_ok_inv in H as (response & Hq & H).
    apply bind_ok_inv in H as (data & Hdata & H).
    apply map_array_Forall2 in H as (items & -> & Hall).
    eexists. exists response, items. repeat split; try eassumption.
    symmetry. eapply Forall2_length; eassumption.
  - unfold GitLabClient.getTickets. rewrite run_attempt.
    cbn [fst snd]. unfold attempt. intros H.
    apply bind_ok_inv in H as (response & Hq & H).
    apply map_array_Forall2 in H as (items & -> & Hall).
    eexists. exists items. repeat split; try eassumption.
    symmetry. eapply Forall2_length; eassumption.
  - rewrite jira_getTickets_run.
    destruct (JiraClient.jql_of c options) as [jql|e]; [| discriminate].
    cbn [fst snd]. unfold attempt. intros H.
    apply bind_ok_inv in H as (response & Hq & H).
    apply bind_ok_inv in H as (data & Hdata & H).
    apply map_array_Forall2 in H as (items & -> & Hall).
    eexists. exists response, items. repeat split; try eassumption.
    symmetry. eapply Forall2_length; eassumption.
Qed.

Lemma getTickets_in_platform_order_witness :
  exists (q : request) (items : list value),
    issued (GitLabClient.getTickets Samples.gitlab None)
      (fun _ => Ok (VArr [ VObj Samples.gitlab_issue;
                           VObj Samples.gitlab_merge_request ])) = [q]
    /\ length items = 2.
Proof.
  eassert (Hrun : outcome (GitLabClient.getTickets Samples.gitlab None)
                    (fun _ => Ok (VArr [ VObj Samples.gitlab_issue;
                                         VObj Samples.gitlab_merge_request ]))
                  = Ok _) by reflexivity.
  destruct (proj1 (proj2 (getTickets_in_platform_order None _ _))
              Samples.gitlab Hrun) as (q & items & Hq & Hanswer & _ & Hlen).
  exists q, items. split; [exact Hq |]. now rewrite <- Hlen.
Defined.

(** X8. On ServiceNow [getTickets] always issues two requests, first to the
    incident table and then to the change request table, both with the same
    query, whether or not the first is answered. When it returns, the tickets
    of the incidents come first, then those of the change requests, each group
    one for one in the platform's order. *)
Theorem servicenow_getTickets_incidents_first (c : ServiceNowClient.client)
    (options : option TicketFilter) (t : transport) :
  exists query,
    ServiceNowClient.query_of options = Ok query
    /\ issued (ServiceNowClient.getTickets c options) t
       = [ HttpGet ("/table/incident" ++ query);
           HttpGet ("/table/change_request" ++ query) ]
    /\ forall tickets,
         outcome (ServiceNowClient.getTickets c options) t = Ok tickets ->
         exists incidentResponse changeResponse incidents changes
                incident_tickets change_tickets,
           t (HttpGet ("/table/incident" ++ query)) = Ok incidentResponse
           /\ t (HttpGet ("/table/change_request" ++ query)) = Ok changeResponse
           /\ ServiceNowClient.result_of incidentResponse = Ok (VArr incidents)
           /\ ServiceNowClient.result_of changeResponse = Ok (VArr changes)
           /\ Forall2 (fun r ticket =>
                         ServiceNowClient.normalizeTicket r = Ok ticket)
                incidents incident_tickets
           /\ Forall2 (fun r ticket =>
                         ServiceNowClient.normalizeTicket r = Ok ticket)
                changes change_tickets
           /\ tickets = (incident_tickets ++ change_tickets)%list.
Proof.
  pose proof (query_of_total options) as Htotal.
  destruct (ServiceNowClient.query_of options) as [query|e] eqn:Hquery;
    [| discriminate].
  exists query. split; [reflexivity |].
  unfold issued, outcome, ServiceNowClient.getTickets.
  unfold Remote.bind, lift. rewrite Hquery. cbn [fst snd app].
  split; [reflexivity |].
  intros tickets H.
  apply bind_ok_inv in H as (incidentResponse & Hi & H).
  apply bind_ok_inv in H as (changeResponse & Hc & H).
  apply bind_ok_inv in H as (incidents & Hir & H).
  apply bind_ok_inv in H as (incident_tickets & Hit & H).
  apply bind_ok_inv in H as (changes & Hcr & H).
  apply bind_ok_inv in H as (change_tickets & Hct & H).
  injection H as <-.
  apply map_array_Forall2 in Hit as (is_ & -> & Hall_i).
  apply map_array_Forall2 in Hct as (cs & -> & Hall_c).
  exists incidentResponse, changeResponse, is_, cs, incident_tickets,
    change_tickets.
  repeat split; assumption.
Qed.

Lemma servicenow_getTickets_incidents_first_witness :
  exists query,
    issued (ServiceNowClient.getTickets Samples.servicenow Samples.bogus_status)
      Samples.unreachable
    = [ HttpGet ("/table/incident" ++ query);
        HttpGet ("/table/change_request" ++ query) ].
Proof.
  destruct (servicenow_getTickets_incidents_first Samples.servicenow
              Samples.bogus_status Samples.unreachable) as (query & _ & H & _).
  now exists query.
Defined.

(** ** What an update sends *)

Lemma run_invoke {A : Type} (q : vendor_call) (k : value -> W A) (v : vendor) :
  and_then (invoke q) k v
  = match v q with
    | Ok a => let '(more, r) := k a v in (q :: more, r)
    | Throw e => ([q], Throw e)
    end.
Proof. unfold and_then, invoke. now destruct (v q). Qed.

(** X9. [updateTicket] on ServiceNow sends only what was given: the payload
    holds [short_description], [description] and [assigned_to] exactly for
    the title, description and assignee that are given and not empty, and
    [category] only for a non-empty list of labels, of which it takes the
    first. No other field is sent, and the same payload goes to the
    change request table first. *)
Theorem servicenow_update_payload_fields
    (updates : PartialCreateTicketOptions) :
  exists fields,
    ServiceNowClient.update_payload updates = VObj fields
    /\ assoc "short_description" fields
       = (if given (upd_title updates)
          then Some (of_option_string (upd_title updates)) else None)
    /\ assoc "description" fields
       = (if given (upd_description updates)
          then Some (of_option_string (upd_description updates)) else None)
    /\ assoc "assigned_to" fields
       = (if given (upd_assigneeId updates)
          then Some (of_option_string (upd_assigneeId updates)) else None)
    /\ assoc "category" fields
       = match upd_labels updates with
         | Some (first :: _) => Some (VStr first)
         | _ => None
         end
    /\ (forall k, has_own k fields = true ->
                  In k [ "short_description"; "description"; "assigned_to";
                         "category" ])
    /\ (forall c ticketId t, exists rest,
           issued (ServiceNowClient.updateTicket c ticketId updates) t
           = HttpPatch ("/table/change_request/" ++ ticketId) (VObj fields)
               :: rest).
Proof.
  eexists. split; [reflexivity |].
  destruct updates as [title description assignee labels].
  cbn [upd_title upd_description upd_assigneeId upd_labels].
  assert (Hkeys : forall k (x : value) (rest : list (string * value)) name,
             has_own k ((name, x) :: rest) = true ->
             k = name \/ has_own k rest = true).
  { intros k x rest name. unfold has_own. simpl.
    destruct (String.eqb_spec k name); auto. }
  repeat split.
  - destruct (given title), (given description), (given assignee),
      labels as [[|first others]|]; reflexivity.
  - destruct (given title), (given description), (given assignee),
      labels as [[|first others]|]; reflexivity.
  - destruct (given title), (given description), (given assignee),
      labels as [[|first others]|]; reflexivity.
  - destruct (given title), (given description), (given assignee),
      labels as [[|first others]|]; reflexivity.
  - intros k.
    destruct (given title), (given description), (given assignee),
      labels as [[|first others]|]; cbn [app]; intros H;
      repeat (apply Hkeys in H as [-> | H]; [simpl; auto 6 |]);
      discriminate.
  - intros c ticketId t.
    destruct (addComment_updateTicket_probing ticketId EmptyString
                {| upd_title := title; upd_description := description;
                   upd_assigneeId := assignee; upd_labels := labels |} t)
      as (_ & Hprobe & _).
    destruct (Hprobe c) as ((rest & Hrest) & _). now exists rest.
Qed.

(** X10. [updateTicket] on Jira edits and then reads again. The edit sets
    [summary], [description] and [assignee] exactly for the values that are
    given and not empty, and [labels] whenever a list is given, the empty list
    included. When the edit is rejected the error reaches the caller and the
    issue is not read; when it is answered, the answer is ignored and the
    result is the one of [getTicket] on the same key. *)
Theorem jira_updateTicket_edits_then_reads (c : JiraClient.client)
    (ticketId : string) (updates : PartialCreateTicketOptions) (v : vendor) :
  let fields := JiraClient.updateFields updates in
  let edit := EditIssue (VObj [ ("issueIdOrKey", VStr ticketId);
                                ("fields", VObj fields) ]) in
  assoc "summary" fields
  = (if given (upd_title updates)
     then Some (of_option_string (upd_title updates)) else None)
  /\ assoc "description" fields
     = (if given (upd_description updates)
        then Some (of_option_string (upd_description updates)) else None)
  /\ assoc "assignee" fields
     = (if given (upd_assigneeId updates)
        then Some (VObj [ ("id", of_option_string (upd_assigneeId updates)) ])
        else None)
  /\ assoc "labels" fields
     = match upd_labels updates with
       | Some l => Some (strings l)
       | None => None
       end
  /\ (forall e, v edit = Throw e ->
                sent (JiraClient.updateTicket c ticketId updates) v = [edit]
                /\ final (JiraClient.updateTicket c ticketId updates) v
                   = Throw e)
  /\ (forall answer, v edit = Ok answer ->
        sent (JiraClient.updateTicket c ticketId updates) v
        = edit :: map Request
                    (issued (JiraClient.getTicket c (VStr ticketId))
                       (requests_of v))
        /\ final (JiraClient.updateTicket c ticketId updates) v
           = outcome (JiraClient.getTicket c (VStr ticketId)) (requests_of v)).
Proof.
  cbv zeta.
  split; [| split; [| split; [| split; [| split]]]].
  - destruct updates as [title description assignee labels].
    unfold JiraClient.updateFields.
    cbn [upd_title upd_description upd_assigneeId upd_labels].
    destruct (given title), (given description), (given assignee),
      labels; reflexivity.
  - destruct updates as [title description assignee labels].
    unfold JiraClient.updateFields.
    cbn [upd_title upd_description upd_assigneeId upd_labels].
    destruct (given title), (given description), (given assignee),
      labels; reflexivity.
  - destruct updates as [title description assignee labels].
    unfold JiraClient.updateFields.
    cbn [upd_title upd_description upd_assigneeId upd_labels].
    destruct (given title), (given description), (given assignee),
      labels; reflexivity.
  - destruct updates as [title description assignee labels].
    unfold JiraClient.updateFields.
    cbn [upd_title upd_description upd_assigneeId upd_labels].
    destruct (given title), (given description), (given assignee),
      labels; reflexivity.
  - intros e He. unfold sent, final, JiraClient.updateTicket.
    rewrite run_invoke, He. split; reflexivity.
  - intros answer Ha. unfold sent, final, JiraClient.updateTicket.
    rewrite run_invoke, Ha. unfold widen, issued, outcome.
    destruct (JiraClient.getTicket c (VStr ticketId) (requests_of v)).
    split; reflexivity.
Qed.

Lemma jira_updateTicket_edits_then_reads_witness :
  sent (JiraClient.updateTicket Samples.jira "REL-1" Samples.retitle)
    (fun _ => Samples.not_found)
  = [ EditIssue (VObj [ ("issueIdOrKey", VStr "REL-1");
                        ("fields",
                         VObj [ ("summary", VStr "Add relay (v2)") ]) ]) ]
  /\ final (JiraClient.updateTicket Samples.jira "REL-1" Samples.retitle)
       (fun _ => Samples.not_found)
     = Throw (RemoteFailure "404").
Proof.
  exact (proj1 (proj2 (proj2 (proj2 (proj2
           (jira_updateTicket_edits_then_reads Samples.jira "REL-1"
              Samples.retitle (fun _ => Samples.not_found))))))
           (RemoteFailure "404") eq_refl).
Defined.

(** ** Creating records on Jira *)

Lemma run_call_get {A : Type} (q : request) (k : value -> M A)
    (t : transport) :
  Remote.bind (call q) k t
  = match t q with
    | Ok a => let '(more, r) := k a t in (q :: more, r)
    | Throw e => ([q], Throw e)
    end.
Proof. unfold Remote.bind, call. now destruct (t q). Qed.

Lemma run_lift {A B : Type} (r : result A) (k : A -> M B) (t : transport) :
  Remote.bind (lift r) k t
  = match r with
    | Ok a => k a t
    | Throw e => ([], Throw e)
    end.
Proof.
  unfold Remote.bind, lift. destruct r as [a|e]; [| reflexivity].
  now destruct (k a t).
Qed.

Lemma jira_getTicket_run (c : JiraClient.client) (key : value)
    (t : transport) :
  JiraClient.getTicket c key t
  = ([ GetIssue (VObj [ ("issueIdOrKey", key);
                        ("fields", JiraClient.requested_fields) ]) ],
     attempt (GetIssue (VObj [ ("issueIdOrKey", key);
                               ("fields", JiraClient.requested_fields) ]))
       JiraClient.normalizeTicket t).
Proof. unfold JiraClient.getTicket. apply run_attempt. Qed.

(** X11. [createTicket] on Jira creates an issue of type "Task" and then
    reads it by the key of the answer. When the creation is rejected the error
    reaches the caller and nothing is read; when it is answered, the result is
    the one of [getTicket] on the answer's key, and an answer without a key
    leads to a read of the key [undefined]. *)
Theorem jira_createTicket_creates_then_reads (c : JiraClient.client)
    (options : CreateTicketOptions) (t : transport) :
  let create := CreateIssue (JiraClient.create_args c options) in
  (exists fields issuetype,
      get (JiraClient.create_args c options) "fields" = Ok fields
      /\ get fields "summary" = Ok (VStr (opt_title options))
      /\ get fields "issuetype" = Ok issuetype
      /\ get issuetype "name" = Ok (VStr "Task"))
  /\ (forall e, t create = Throw e ->
        issued (JiraClient.createTicket c options) t = [ create ]
        /\ outcome (JiraClient.createTicket c options) t = Throw e)
  /\ (forall issue key,
        t create = Ok issue ->
        get issue "key" = Ok key ->
        issued (JiraClient.createTicket c options) t
        = [ create;
            GetIssue (VObj [ ("issueIdOrKey", key);
                             ("fields", JiraClient.requested_fields) ]) ]
        /\ outcome (JiraClient.createTicket c options) t
           = outcome (JiraClient.getTicket c key) t)
  /\ (forall other, t create = Ok (VObj other) ->
        has_own "key" other = false ->
        issued (JiraClient.createTicket c options) t
        = [ create;
            GetIssue (VObj [ ("issueIdOrKey", VUndef);
                             ("fields", JiraClient.requested_fields) ]) ]).
Proof.
  cbv zeta. split.
  - do 2 eexists. repeat split.
  - unfold issued, outcome, JiraClient.createTicket.
    rewrite run_call_get.
    split; [| split].
    + intros e He. rewrite He. split; reflexivity.
    + intros issue key Hi Hk. rewrite Hi, run_lift, Hk, jira_getTicket_run.
      split; reflexivity.
    + intros other Hi Hk. rewrite Hi, run_lift. cbn [get].
      rewrite (lookup_absent other "key" Hk eq_refl), jira_getTicket_run.
      reflexivity.
Qed.

Lemma jira_createTicket_creates_then_reads_witness :
  issued (JiraClient.createTicket Samples.jira Fixtures.task)
    Fixtures.jira_no_watchers
  = [ CreateIssue (JiraClient.create_args Samples.jira Fixtures.task);
      GetIssue (VObj [ ("issueIdOrKey", VStr "REL-1");
                       ("fields", JiraClient.requested_fields) ]) ].
Proof.
  exact (proj1 (proj1 (proj2 (proj2
           (jira_createTicket_creates_then_reads Samples.jira Fixtures.task
              Fixtures.jira_no_watchers)))
           (VObj [ ("id", VStr "10001"); ("key", VStr "REL-1") ])
           (VStr "REL-1") eq_refl eq_refl)).
Defined.

(** X12. [createReviewRequest] on Jira, on a site that answers the creation
    with a keyed issue: without reviewers it creates and reads; with reviewers
    it adds the first one, and only that one, as watcher in between. When the
    watcher call is rejected the error reaches the caller after the issue was
    created, and the issue is neither read nor removed. When it returns, the
    ticket carries the base fields of the issue read again, the two branches
    as given and the state "open", whatever the status of the issue is. *)
Theorem jira_createReviewRequest_steps (c : JiraClient.client)
    (options : CreateReviewRequest) (t : transport) (issue key : value) :
  (forall args, t (CreateIssue args) = Ok issue) ->
  get issue "key" = Ok key ->
  let read := GetIssue (VObj [ ("issueIdOrKey", key);
                               ("fields", JiraClient.requested_fields) ]) in
  exists args,
    (rr_reviewers options = None \/ rr_reviewers options = Some [] ->
     issued (JiraClient.createReviewRequest c options) t
     = [ CreateIssue args; read ])
    /\ (forall first others,
          rr_reviewers options = Some (first :: others) ->
          let watch := AddWatcher (VObj [ ("issueIdOrKey", key);
                                          ("username", VStr first) ]) in
          (forall e, t watch = Throw e ->
             issued (JiraClient.createReviewRequest c options) t
             = [ CreateIssue args; watch ]
             /\ outcome (JiraClient.createReviewRequest c options) t = Throw e)
          /\ (forall answer, t watch = Ok answer ->
                issued (JiraClient.createReviewRequest c options) t
                = [ CreateIssue args; watch; read ]))
    /\ (forall ticket,
          outcome (JiraClient.createReviewRequest c options) t = Ok ticket ->
          exists created,
            outcome (JiraClient.getTicket c key) t = Ok created
            /\ ticket = StandardPullRequest (base_of created)
                          (VStr (rr_sourceBranch options))
                          (VStr (rr_targetBranch options))
                          (VStr "open")).
Proof.
  intros Hcreate Hkey read. subst read.
  unfold issued, outcome, JiraClient.createReviewRequest,
    JiraClient.getTicket, Remote.bind, lift, call, ret. cbv zeta.
  rewrite Hcreate.
  match goal with
  | |- context [CreateIssue ?a :: _] => exists a
  end.
  split; [| split].
  - intros [-> | ->]; rewrite Hkey; cbn [fst snd app];
      destruct (t (GetIssue _)) as [answer|e]; cbn [fst snd app];
      try destruct (JiraClient.normalizeTicket answer); reflexivity.
  - intros first others ->. cbv zeta. rewrite Hkey. split.
    + intros e He. rewrite He. split; reflexivity.
    + intros answer Ha. rewrite Ha. cbn [fst snd app].
      destruct (t (GetIssue _)) as [read|e]; cbn [fst snd app];
        try destruct (JiraClient.normalizeTicket read); reflexivity.
  - intros ticket H. rewrite Hkey in *.
    destruct (rr_reviewers options) as [[|first others]|];
      cbn [fst snd app] in H;
      try (destruct (t (AddWatcher _)); [| discriminate];
           cbn [fst snd app] in H);
      destruct (t (GetIssue _)) as [answer|e]; try discriminate;
      cbn [fst snd app] in *;
      destruct (JiraClient.normalizeTicket answer) as [created|e];
      try discriminate; cbn [fst snd app] in *;
      injection H as <-; exists created; split; reflexivity.
Qed.

Lemma jira_createReviewRequest_steps_witness :
  exists args,
    issued (JiraClient.createReviewRequest Samples.jira Fixtures.plain_request)
      Fixtures.jira_no_watchers
    = [ CreateIssue args;
        AddWatcher (VObj [ ("issueIdOrKey", VStr "REL-1");
                           ("username", VStr "mia") ]) ]
    /\ outcome (JiraClient.createReviewRequest Samples.jira
                  Fixtures.plain_request) Fixtures.jira_no_watchers
       = Throw (RemoteFailure "404").
Proof.
  destruct (jira_createReviewRequest_steps Samples.jira Fixtures.plain_request
              Fixtures.jira_no_watchers
              (VObj [ ("id", VStr "10001"); ("key", VStr "REL-1") ])
              (VStr "REL-1") (fun _ => eq_refl) eq_refl)
    as (args & _ & Hwatch & _).
  exists args.
  exact (proj1 (Hwatch "mia" [ "li" ] eq_refl) (RemoteFailure "404") eq_refl).
Defined.

(** ** Creating a review request on ServiceNow *)

(** X13. What [createReviewRequest] on ServiceNow returns agrees with a read
    of the created record: whenever [normalizeTicket] accepts the record the
    platform answered with, [createReviewRequest] returns a review request
    with the same id, title, dates, status, author and assignee and, when the
    read classifies the record as a review request, the same state. The
    branches are the ones given, not the ones a read would extract, and the
    description is the record's own, which the read replaces by the empty
    string when it is missing. *)
Theorem servicenow_createReviewRequest_agrees_with_read
    (c : ServiceNowClient.client) (options : CreateReviewRequest)
    (t : transport) (response created : value) (read : StandardTicket) :
  t (HttpPost "/table/change_request" (ServiceNowClient.review_payload options))
  = Ok response ->
  ServiceNowClient.result_of response = Ok created ->
  ServiceNowClient.normalizeTicket created = Ok read ->
  exists ticket,
    outcome (ServiceNowClient.createReviewRequest c options) t = Ok ticket
    /\ is_pull_request ticket = true
    /\ sourceBranch_of ticket = Some (VStr (rr_sourceBranch options))
    /\ targetBranch_of ticket = Some (VStr (rr_targetBranch options))
    /\ id (base_of ticket) = id (base_of read)
    /\ title (base_of ticket) = title (base_of read)
    /\ createdAt (base_of ticket) = createdAt (base_of read)
    /\ updatedAt (base_of ticket) = updatedAt (base_of read)
    /\ status (base_of ticket) = status (base_of read)
    /\ author (base_of ticket) = author (base_of read)
    /\ assignee (base_of ticket) = assignee (base_of read)
    /\ description (base_of read)
       = or_else (description (base_of ticket)) (VStr EmptyString)
    /\ (forall state, state_of read = Some state ->
                      state_of ticket = Some state).
Proof.
  intros Hpost Hresult Hread.
  unfold outcome, ServiceNowClient.createReviewRequest.
  rewrite run_attempt_unwrapped. cbn [snd]. unfold attempt.
  change ("/table/" ++ ServiceNowClient.TABLE_CHANGE_REQUEST)
    with "/table/change_request".
  rewrite Hpost. cbn [Js.bind]. rewrite Hresult. cbn [Js.bind].
  unfold ServiceNowClient.normalizeTicket in Hread. invert_chain Hread.
  repeat match goal with
         | E : _ = Ok _ |- _ => rewrite E; clear E; cbn [Js.bind]
         end.
  eexists. split; [reflexivity |].
  destruct (_ && _); invert_chain Hread; injection Hread as <-;
    cbn; repeat split; try discriminate.
  intros state H. now injection H as <-.
Qed.

Lemma servicenow_createReviewRequest_agrees_with_read_witness :
  exists ticket,
    outcome (ServiceNowClient.createReviewRequest Samples.servicenow
               Samples.quoting_request) Samples.servicenow_instance = Ok ticket
    /\ sourceBranch_of ticket = Some (VStr "feat/x")
    /\ status (base_of ticket) = VStr "new".
Proof.
  destruct (servicenow_createReviewRequest_agrees_with_read Samples.servicenow
              Samples.quoting_request Samples.servicenow_instance
              _ _ _ eq_refl eq_refl eq_refl)
    as (ticket & Hrun & _ & Hsource & _ & _ & _ & _ & _ & Hstatus & _).
  exists ticket. repeat split; assumption.
Defined.

(** ** Construction of the adapters *)

(** X14. The factory does not look at [auth], the constructors read through
    it. A GitHub or ServiceNow configuration whose [auth] is absent or [null]
    makes [createClient] throw a [TypeError], not a configuration error,
    before any constructor of an SDK runs; this is the case of the
    configuration in the README's usage example. With any other [auth] a
    GitHub configuration hands [auth.apiToken] to [new Octokit]: when that
    returns, the result is an adapter whose [owner] and [repo] are whatever
    the configuration holds, and when it throws, [createClient] fails with
    what it threw. *)
Theorem createClient_reads_through_auth (sdk : Sdk.constructors)
    (fields : list (string * value)) :
  (has_own "auth" fields = false \/ lookup fields "auth" = VNull ->
   (lookup fields "type" = VStr "github" ->
    TicketClientFactory.createClient sdk (VObj fields) = Throw TypeError)
   /\ (lookup fields "type" = VStr "servicenow" ->
       TicketClientFactory.createClient sdk (VObj fields) = Throw TypeError))
  /\ (lookup fields "type" = VStr "github" ->
      lookup fields "auth" <> VUndef -> lookup fields "auth" <> VNull ->
      exists apiToken,
        get (lookup fields "auth") "apiToken" = Ok apiToken
        /\ (Sdk.Octokit sdk (VObj [ ("auth", apiToken) ]) = Ok tt ->
            TicketClientFactory.createClient sdk (VObj fields)
            = Ok (TicketClientFactory.GitHub
                    {| GitHubClient.config := VObj fields;
                       GitHubClient.owner := lookup fields "owner";
                       GitHubClient.repo := lookup fields "repo" |}))
        /\ (forall e,
               Sdk.Octokit sdk (VObj [ ("auth", apiToken) ]) = Throw e ->
               TicketClientFactory.createClient sdk (VObj fields) = Throw e)).
Proof.
  split.
  - intros Hauth.
    assert (Hget : forall k, get (lookup fields "auth") k = Throw TypeError).
    { intros k. destruct Hauth as [H | H].
      - now rewrite (lookup_absent fields "auth" H eq_refl).
      - now rewrite H. }
    split; intros Htype; unfold TicketClientFactory.createClient;
      cbn [get Js.bind]; rewrite Htype; cbn [strict_eq_string String.eqb
                                             Ascii.eqb Bool.eqb].
    + unfold GitHubClient.new. cbn [get Js.bind]. now rewrite Hget.
    + cbn. unfold ServiceNowClient.new. cbn [get Js.bind].
      rewrite Htype.
      destruct (to_string (lookup fields "instance")) as [s|e] eqn:E.
      * cbn [Js.bind]. now rewrite Hget.
      * cbn [Js.bind]. now rewrite (to_string_only_TypeError _ e E).
  - intros Htype Hu Hn.
    destruct (get (lookup fields "auth") "apiToken") as [apiToken|e] eqn:Htoken;
      [| destruct (lookup fields "auth"); try discriminate; contradiction].
    exists apiToken. split; [reflexivity |].
    unfold TicketClientFactory.createClient.
    cbn [get Js.bind]. rewrite Htype.
    cbn [strict_eq_string String.eqb Ascii.eqb Bool.eqb].
    unfold GitHubClient.new. cbn [get Js.bind]. rewrite Htoken.
    cbn [Js.bind]. split.
    + intros Haccepts. now rewrite Haccepts.
    + intros e Hthrows. now rewrite Hthrows.
Qed.

Lemma createClient_reads_through_auth_witness :
  TicketClientFactory.createClient Samples.sdk (VObj Fixtures.readme_fields)
  = Throw TypeError
  /\ TicketClientFactory.createClient Samples.sdk
       (VObj [ ("type", VStr "github");
               ("auth", VObj [ ("type", VStr "token");
                               ("apiToken", VNum (Int 12345)) ]);
               ("owner", VStr "your-org");
               ("repo", VStr "your-repo") ])
     = Throw Samples.token_refused.
Proof.
  split.
  - exact (proj1 (proj1 (createClient_reads_through_auth Samples.sdk
                           Fixtures.readme_fields)
                    (or_introl eq_refl)) eq_refl).
  - assert (Hu : VObj [ ("type", VStr "token");
                        ("apiToken", VNum (Int 12345)) ] <> VUndef)
      by discriminate.
    assert (Hn : VObj [ ("type", VStr "token");
                        ("apiToken", VNum (Int 12345)) ] <> VNull)
      by discriminate.
    destruct (proj2 (createClient_reads_through_auth Samples.sdk
                       [ ("type", VStr "github");
                         ("auth", VObj [ ("type", VStr "token");
                                         ("apiToken", VNum (Int 12345)) ]);
                         ("owner", VStr "your-org");
                         ("repo", VStr "your-repo") ])
                eq_refl Hu Hn)
      as (apiToken & Htoken & _ & Hthrows).
    injection Htoken as <-.
    exact (Hthrows Samples.token_refused eq_refl).
Defined.

Lemma strict_eq_string_iff (v : value) (s : string) :
  strict_eq_string v s = true <-> v = VStr s.
Proof.
  destruct v as [| | | |s'| | | |]; simpl;
    try (split; discriminate).
  destruct (String.eqb_spec s' s) as [->|ne]; split; try reflexivity;
    try discriminate.
  intros H. injection H as ->. now elim ne.
Qed.

(** X15. The ServiceNow constructor derives the connection from the
    configuration. The base address is built from [instance], so a missing
    instance gives the host "undefined". An [oauth] configuration yields the
    header [Authorization: Bearer <token>] and no basic credentials; a [basic]
    one yields the user name and password and no such header; any other kind
    of [auth] yields an adapter with neither. *)
Theorem servicenow_connection (fields : list (string * value))
    (c : ServiceNowClient.client) :
  ServiceNowClient.new (VObj fields) = Ok c ->
  exists instance headers,
    to_string (lookup fields "instance") = Ok instance
    /\ get (ServiceNowClient.axios_config c) "baseURL"
       = Ok (VStr ("https://" ++ instance ++ ".service-now.com/api/now/v2"))
    /\ get (ServiceNowClient.config c) "baseUrl"
       = Ok (VStr ("https://" ++ instance ++ ".service-now.com"))
    /\ (has_own "instance" fields = false -> instance = "undefined")
    /\ get (ServiceNowClient.axios_config c) "headers" = Ok headers
    /\ let auth := lookup fields "auth" in
       let kind := match get auth "type" with Ok k => k | Throw _ => VUndef end in
       (kind = VStr "oauth" ->
        exists token,
          Js.bind (get auth "accessToken") to_string = Ok token
          /\ get headers "Authorization" = Ok (VStr ("Bearer " ++ token))
          /\ get (ServiceNowClient.axios_config c) "auth" = Ok VUndef)
       /\ (kind = VStr "basic" ->
           exists username password,
             get auth "username" = Ok username
             /\ get auth "password" = Ok password
             /\ get (ServiceNowClient.axios_config c) "auth"
                = Ok (VObj [ ("username", username); ("password", password) ])
             /\ get headers "Authorization" = Ok VUndef)
       /\ (kind <> VStr "oauth" -> kind <> VStr "basic" ->
           get (ServiceNowClient.axios_config c) "auth" = Ok VUndef
           /\ get headers "Authorization" = Ok VUndef).
Proof.
  intros H. unfold ServiceNowClient.new in H. cbn [get] in H.
  cbn [Js.bind] in H.
  apply bind_ok_inv in H as (instance & Hinstance & H).
  cbn [Js.bind] in H.
  apply bind_ok_inv in H as (kind & Hkind & H).
  exists instance.
  assert (Hundef : has_own "instance" fields = false -> instance = "undefined").
  { intros Habsent. rewrite (lookup_absent fields "instance" Habsent eq_refl)
      in Hinstance. now injection Hinstance. }
  cbv zeta. rewrite Hkind.
  pose proof (strict_eq_string_iff kind "oauth") as Hoauth.
  pose proof (strict_eq_string_iff kind "basic") as Hbasic.
  destruct (strict_eq_string kind "oauth");
    destruct (strict_eq_string kind "basic").
  - pose proof (proj1 Hoauth eq_refl) as Eo.
    pose proof (proj1 Hbasic eq_refl) as Eb.
    rewrite Eo in Eb. discriminate.
  - apply bind_ok_inv in H as (headers' & Hh & H).
    apply bind_ok_inv in Hh as (token & Htoken & Hh).
    apply bind_ok_inv in Hh as (token_s & Hts & Hh).
    injection Hh as <-. cbn in H. injection H as <-.
    eexists. split; [exact Hinstance |]. split; [reflexivity |].
    split; [reflexivity |]. split; [exact Hundef |].
    split; [reflexivity |]. split; [| split].
    + intros _. exists token_s. rewrite Htoken. cbn [Js.bind].
      split; [assumption |]. split; reflexivity.
    + intros E. apply Hbasic in E. discriminate.
    + intros Hneq. elim Hneq. now apply Hoauth.
  - cbn [Js.bind] in H.
    apply bind_ok_inv in H as (basic & Hb & H).
    apply bind_ok_inv in Hb as (username & Hu & Hb).
    apply bind_ok_inv in Hb as (password & Hp & Hb).
    injection Hb as <-. injection H as <-.
    eexists. split; [exact Hinstance |]. split; [reflexivity |].
    split; [reflexivity |]. split; [exact Hundef |].
    split; [reflexivity |]. split; [| split].
    + intros E. apply Hoauth in E. discriminate.
    + intros _. exists username, password.
      split; [assumption |]. split; [assumption |]. split; reflexivity.
    + intros _ Hneq. elim Hneq. now apply Hbasic.
  - cbn [Js.bind] in H. injection H as <-.
    eexists. split; [exact Hinstance |]. split; [reflexivity |].
    split; [reflexivity |]. split; [exact Hundef |].
    split; [reflexivity |]. split; [| split].
    + intros E. apply Hoauth in E. discriminate.
    + intros E. apply Hbasic in E. discriminate.
    + intros _ _. split; reflexivity.
Qed.

Lemma servicenow_connection_witness :
  exists c headers,
    ServiceNowClient.new (VObj Fixtures.servicenow_oauth_fields) = Ok c
    /\ get (ServiceNowClient.axios_config c) "headers" = Ok headers
    /\ get headers "Authorization" = Ok (VStr "Bearer secret").
Proof.
  eassert (Hnew : ServiceNowClient.new (VObj Fixtures.servicenow_oauth_fields)
                  = Ok _) by reflexivity.
  destruct (servicenow_connection _ _ Hnew)
    as (instance & headers & _ & _ & _ & _ & Hheaders & Hoauth & _).
  destruct (Hoauth eq_refl) as (token & Htoken & Hauth & _).
  injection Htoken as <-.
  eexists. exists headers. split; [exact Hnew |]. split; assumption.
Defined.

(** ** Creating a pull request on GitHub *)

(** X16. [createReviewRequest] on GitHub, once the pull request is created:
    without reviewers nothing else is sent; with reviewers one review request
    is sent for the returned number with the whole list, and when it is
    rejected the error reaches the caller although the pull request exists.
    The result is [normalizeTicket] of the creation's answer, so it is a pull
    request with branches only if that answer carries the [pull_request] key:
    for an answer without it the caller receives an issue. *)
Theorem github_createReviewRequest_steps (c : GitHubClient.client)
    (options : CreateReviewRequest) (v : vendor) (response data : value) :
  let create := PullsCreate (GitHubClient.pull_args c options) in
  v create = Ok response ->
  get response "data" = Ok data ->
  (rr_reviewers options = None \/ rr_reviewers options = Some [] ->
   sent (GitHubClient.createReviewRequest c options) v = [ create ]
   /\ final (GitHubClient.createReviewRequest c options) v
      = GitHubClient.normalizeTicket data)
  /\ (forall first others number,
        rr_reviewers options = Some (first :: others) ->
        get data "number" = Ok number ->
        let ask := PullsRequestReviewers
                     (GitHubClient.reviewers_args c number (first :: others)) in
        sent (GitHubClient.createReviewRequest c options) v = [ create; ask ]
        /\ (forall e, v ask = Throw e ->
              final (GitHubClient.createReviewRequest c options) v = Throw e)
        /\ (forall answer, v ask = Ok answer ->
              final (GitHubClient.createReviewRequest c options) v
              = GitHubClient.normalizeTicket data))
  /\ (forall fields ticket,
        data = VObj fields ->
        has_own "pull_request" fields = false ->
        final (GitHubClient.createReviewRequest c options) v = Ok ticket ->
        is_pull_request ticket = false /\ sourceBranch_of ticket = None).
Proof.
  intros create Hcreate Hdata. subst create.
  assert (Hfinal : forall ticket,
             final (GitHubClient.createReviewRequest c options) v = Ok ticket ->
             GitHubClient.normalizeTicket data = Ok ticket).
  { intros ticket. unfold final, GitHubClient.createReviewRequest, and_then,
      invoke, compute, finish.
    rewrite Hcreate, Hdata.
    destruct (rr_reviewers options) as [[|first others]|]; cbn [fst snd app];
      try (intros H; exact H).
    destruct (get data "number") as [number|e]; [| discriminate].
    destruct (v (PullsRequestReviewers _)); [| discriminate].
    cbn [fst snd app]. now destruct (GitHubClient.normalizeTicket data). }
  split; [| split].
  - unfold sent, final, GitHubClient.createReviewRequest, and_then,
      invoke, compute, finish.
    rewrite Hcreate, Hdata.
    intros [-> | ->]; cbn [fst snd app];
      destruct (GitHubClient.normalizeTicket data); split; reflexivity.
  - intros first others number Hreviewers Hnumber. cbv zeta.
    unfold sent, final, GitHubClient.createReviewRequest, and_then,
      invoke, compute, finish.
    rewrite Hcreate, Hdata, Hreviewers, Hnumber. cbn [fst snd app].
    destruct (v (PullsRequestReviewers _)) as [answer|e]; cbn [fst snd app].
    + destruct (GitHubClient.normalizeTicket data);
        (split; [reflexivity |]); split; intros; try discriminate; reflexivity.
    + (split; [reflexivity |]); split; intros ? E; try discriminate.
      now injection E as <-.
  - intros fields ticket -> Hmarker H. apply Hfinal in H.
    destruct (github_normalizeTicket_marker _ _ H) as (fields' & E & Hpr).
    injection E as <-. rewrite Hmarker in Hpr.
    split; [exact Hpr |]. now destruct ticket.
Qed.

Lemma github_createReviewRequest_steps_witness :
  final (GitHubClient.createReviewRequest Samples.github Fixtures.plain_request)
    Fixtures.github_no_reviewers
  = Throw (RemoteFailure "404")
  /\ sent (GitHubClient.createReviewRequest Samples.github
             Fixtures.plain_request) Fixtures.github_no_reviewers
     = [ PullsCreate (GitHubClient.pull_args Samples.github
                        Fixtures.plain_request);
         PullsRequestReviewers
           (GitHubClient.reviewers_args Samples.github (VNum (Int 8))
              [ "mia"; "li" ]) ].
Proof.
  destruct (github_createReviewRequest_steps Samples.github
              Fixtures.plain_request Fixtures.github_no_reviewers
              _ _ eq_refl eq_refl) as (_ & Hreviewers & _).
  destruct (Hreviewers "mia" [ "li" ] (VNum (Int 8)) eq_refl eq_refl)
    as (Hsent & Hrejected & _).
  split; [exact (Hrejected _ eq_refl) | exact Hsent].
Defined.

(** ** Failures of the platform *)

(** X17. The operations that make one call never make a second one and never
    change the error: against a platform that rejects every call with [e],
    each of them issues exactly one call and fails with [e]. *)
Theorem single_call_failure_surfaces (e : error) :
  let down : transport := fun _ => Throw e in
  let vendor_down : vendor := fun _ => Throw e in
  (forall c options,
      outcome (GitHubClient.getTickets c options) down = Throw e
      /\ length (issued (GitHubClient.getTickets c options) down) = 1)
  /\ (forall c ticketId updates,
         outcome (GitHubClient.updateTicket c ticketId updates) down = Throw e
         /\ length (issued (GitHubClient.updateTicket c ticketId updates) down)
            = 1)
  /\ (forall c ticketId comment,
         outcome (GitHubClient.addComment c ticketId comment) down = Throw e
         /\ length (issued (GitHubClient.addComment c ticketId comment) down)
            = 1)
  /\ (forall c options,
         final (GitHubClient.createTicket c options) vendor_down = Throw e
         /\ length (sent (GitHubClient.createTicket c options) vendor_down) = 1)
  /\ (forall c options,
         final (GitHubClient.createReviewRequest c options) vendor_down
         = Throw e
         /\ length (sent (GitHubClient.createReviewRequest c options)
                      vendor_down) = 1)
  /\ (forall c options,
         outcome (GitLabClient.getTickets c options) down = Throw e
         /\ length (issued (GitLabClient.getTickets c options) down) = 1)
  /\ (forall c ticketId updates,
         outcome (GitLabClient.updateTicket c ticketId updates) down = Throw e
         /\ length (issued (GitLabClient.updateTicket c ticketId updates) down)
            = 1)
  /\ (forall c options,
         final (GitLabClient.createTicket c options) vendor_down = Throw e
         /\ length (sent (GitLabClient.createTicket c options) vendor_down) = 1)
  /\ (forall c options,
         final (GitLabClient.createReviewRequest c options) vendor_down
         = Throw e
         /\ length (sent (GitLabClient.createReviewRequest c options)
                      vendor_down) = 1)
  /\ (forall c key,
         outcome (JiraClient.getTicket c key) down = Throw e
         /\ length (issued (JiraClient.getTicket c key) down) = 1)
  /\ (forall c options,
         outcome (JiraClient.createTicket c options) down = Throw e
         /\ length (issued (JiraClient.createTicket c options) down) = 1)
  /\ (forall c options,
         outcome (JiraClient.createReviewRequest c options) down = Throw e
         /\ length (issued (JiraClient.createReviewRequest c options) down) = 1)
  /\ (forall c ticketId updates,
         final (JiraClient.updateTicket c ticketId updates) vendor_down
         = Throw e
         /\ length (sent (JiraClient.updateTicket c ticketId updates)
                      vendor_down) = 1)
  /\ (forall c ticketId comment,
         final (JiraClient.addComment c ticketId comment) vendor_down = Throw e
         /\ length (sent (JiraClient.addComment c ticketId comment)
                      vendor_down) = 1)
  /\ (forall c options,
         outcome (ServiceNowClient.createTicket c options) down = Throw e
         /\ length (issued (ServiceNowClient.createTicket c options) down) = 1)
  /\ (forall c options,
         outcome (ServiceNowClient.createReviewRequest c options) down
         = Throw e
         /\ length (issued (ServiceNowClient.createReviewRequest c options)
                      down) = 1).
Proof.
  cbv zeta. repeat split.
Qed.

(** X18. The operations that probe make exactly two calls on an identifier
    that exists nowhere, in a fixed order, and the caller receives the error
    of the second one: against a platform that rejects every call, each of
    them issues the call for the review-like resource (pull request, merge
    request, change request), then the call for the issue-like resource
    (issue, incident), and fails with what the second call was rejected
    with. *)
Theorem probing_failure_costs_two_calls (t : transport)
    (ticketId comment : string) (updates : PartialCreateTicketOptions) :
  (forall q, exists e, t q = Throw e) ->
  let fails_after {A : Type} (m : M A) (review issue : request) :=
    issued m t = [ review; issue ]
    /\ exists e, t issue = Throw e /\ outcome m t = Throw e in
  (forall c,
      fails_after (GitHubClient.getTicket c ticketId)
        (PullsGet (VObj [ ("owner", GitHubClient.owner c);
                          ("repo", GitHubClient.repo c);
                          ("pull_number", VNum (parseInt ticketId)) ]))
        (IssuesGet (VObj [ ("owner", GitHubClient.owner c);
                           ("repo", GitHubClient.repo c);
                           ("issue_number", VNum (parseInt ticketId)) ])))
  /\ (forall c,
         fails_after (GitLabClient.getTicket c ticketId)
           (MergeRequestsShow (GitLabClient.projectId c) (parseInt ticketId))
           (IssuesShow (GitLabClient.projectId c) (parseInt ticketId)))
  /\ (forall c,
         fails_after (GitLabClient.addComment c ticketId comment)
           (MergeRequestNotesCreate (GitLabClient.projectId c)
              (parseInt ticketId) comment)
           (IssueNotesCreate (GitLabClient.projectId c)
              (parseInt ticketId) comment))
  /\ (forall c,
         fails_after (ServiceNowClient.getTicket c ticketId)
           (HttpGet ("/table/change_request/" ++ ticketId))
           (HttpGet ("/table/incident/" ++ ticketId)))
  /\ (forall c,
         fails_after (ServiceNowClient.updateTicket c ticketId updates)
           (HttpPatch ("/table/change_request/" ++ ticketId)
              (ServiceNowClient.update_payload updates))
           (HttpPatch ("/table/incident/" ++ ticketId)
              (ServiceNowClient.update_payload updates)))
  /\ (forall c,
         fails_after (ServiceNowClient.addComment c ticketId comment)
           (HttpPatch ("/table/change_request/" ++ ticketId)
              (VObj [ ("work_notes", VStr comment) ]))
           (HttpPatch ("/table/incident/" ++ ticketId)
              (VObj [ ("work_notes", VStr comment) ]))).
Proof.
  intros Hdown fails_after.
  assert (Hprobe : forall (A : Type) (m : M A) q1 q2 post1 post2,
             probes_first m q1 q2 post1 post2 t -> fails_after A m q1 q2).
  { intros A m q1 q2 post1 post2 (_ & Hfallback & _ & _).
    destruct (Hdown q1) as [e1 H1]. destruct (Hdown q2) as [e2 H2].
    destruct (Hfallback e1 H1) as [Hissued Hout].
    split; [exact Hissued |]. exists e2. split; [exact H2 |].
    rewrite Hout. unfold attempt. now rewrite H2. }
  destruct (addComment_updateTicket_probing ticketId comment updates t)
    as (Hglc & Hsnu & Hsnc).
  split; [| split; [| split; [| split; [| split]]]]; intros c.
  - eapply Hprobe. apply try_catch_probes_first; apply run_attempt_unwrapped.
  - eapply Hprobe. apply try_catch_probes_first; apply run_attempt.
  - eapply Hprobe. apply Hglc.
  - eapply Hprobe.
    apply (try_catch_probes_first _ _
             (HttpGet ("/table/change_request/" ++ ticketId))
             (HttpGet ("/table/incident/" ++ ticketId)));
      apply run_attempt_unwrapped.
  - eapply Hprobe. apply Hsnu.
  - eapply Hprobe. apply Hsnc.
Qed.

Lemma probing_failure_costs_two_calls_witness :
  issued (GitLabClient.getTicket Samples.gitlab "999999") Samples.unreachable
  = [ MergeRequestsShow (GitLabClient.projectId Samples.gitlab) (Int 999999);
      IssuesShow (GitLabClient.projectId Samples.gitlab) (Int 999999) ]
  /\ outcome (GitLabClient.getTicket Samples.gitlab "999999")
       Samples.unreachable
     = Throw (RemoteFailure "404").
Proof.
  assert (Hdown : forall q, exists e, Samples.unreachable q = Throw e)
    by (intros q; now exists (RemoteFailure "404")).
  destruct (probing_failure_costs_two_calls Samples.unreachable "999999"
              EmptyString Samples.retitle Hdown) as (_ & Hgitlab & _).
  destruct (Hgitlab Samples.gitlab) as (Hissued & e & He & Hout).
  split; [exact Hissued |].
  rewrite Hout. cbv in He. inversion He. reflexivity.
Defined.

(** ** Identifiers *)

Lemma digits_of_uint_acc (d : Decimal.uint) (acc : positive) :
  digits 10 (Some (Z.pos acc)) (NilEmpty.string_of_uint d)
  = Some (Z.pos (Pos.of_uint_acc d acc)).
Proof.
  revert acc.
  induction d; intros acc;
    cbn [NilEmpty.string_of_uint digits Pos.of_uint_acc];
    [reflexivity | ..];
    match goal with
    | |- context [digit_value 10 ?c] =>
        let v := eval vm_compute in (digit_value 10 c) in
        change (digit_value 10 c) with v
    end;
    cbv beta iota zeta;
    match goal with
    | |- digits 10 (Some ?a) _ = Some (Z.pos (Pos.of_uint_acc _ ?p)) =>
        replace a with (Z.pos p) by lia
    end;
    apply IHd.
Qed.

Lemma digits_of_uint (d : Decimal.uint) :
  digits 10 (Some 0%Z) (NilEmpty.string_of_uint d)
  = Some (Z.of_N (Pos.of_uint d)).
Proof.
  induction d; cbn [NilEmpty.string_of_uint digits Pos.of_uint];
    [reflexivity | exact IHd | ..];
    match goal with
    | |- context [digit_value 10 ?c] =>
        let v := eval vm_compute in (digit_value 10 c) in
        change (digit_value 10 c) with v
    end;
    cbv beta iota zeta;
    match goal with
    | |- digits 10 (Some ?a) _ = Some (Z.of_N (N.pos (Pos.of_uint_acc _ ?p))) =>
        change a with (Z.pos p)
    end;
    apply digits_of_uint_acc.
Qed.

Lemma digits_from_nothing (c : ascii) (rest : string) :
  digit_value 10 c <> None ->
  digits 10 None (String c rest) = digits 10 (Some 0%Z) (String c rest).
Proof.
  intros H. cbn [digits]. now destruct (digit_value 10 c).
Qed.

Lemma parseInt_of_uint (d : Decimal.uint) :
  d <> Decimal.Nil ->
  parseInt (NilEmpty.string_of_uint d) = Int (Z.of_N (Pos.of_uint d))
  /\ parseInt (String "-" (NilEmpty.string_of_uint d))
     = Int (- Z.of_N (Pos.of_uint d)).
Proof.
  intros Hd. pose proof (digits_of_uint d) as H.
  destruct d as [|l|l|l|l|l|l|l|l|l|l]; [contradiction | ..];
    try (destruct l);
    cbn [NilEmpty.string_of_uint] in H |- *;
    unfold parseInt, strip_hex_prefix; cbn [trimStart];
    repeat match goal with
           | |- context [is_white_space ?c] =>
               let v := eval vm_compute in (is_white_space c) in
               change (is_white_space c) with v
           end;
    cbv beta iota zeta;
    (rewrite digits_from_nothing by (vm_compute; discriminate));
    rewrite H; split; reflexivity.
Qed.

Lemma parseInt_number_to_string (z : Z) :
  parseInt (number_to_string (Int z)) = Int z.
Proof.
  unfold number_to_string, NilZero.string_of_int, Z.to_int.
  destruct z as [|p|p]; [reflexivity | |].
  - pose proof (DecimalPos.Unsigned.to_uint_nonnil p) as Hp.
    destruct (parseInt_of_uint _ Hp) as [H _].
    unfold NilZero.string_of_uint.
    destruct (Pos.to_uint p) eqn:E; [contradiction | ..];
      rewrite H, <- E, DecimalPos.Unsigned.of_to; reflexivity.
  - pose proof (DecimalPos.Unsigned.to_uint_nonnil p) as Hp.
    destruct (parseInt_of_uint _ Hp) as [_ H].
    unfold NilZero.string_of_uint.
    destruct (Pos.to_uint p) eqn:E; [contradiction | ..];
      rewrite H, <- E, DecimalPos.Unsigned.of_to; reflexivity.
Qed.

Lemma github_getTicket_probing (c : GitHubClient.client) (ticketId : string)
    (t : transport) :
  probes_first (GitHubClient.getTicket c ticketId)
    (PullsGet (VObj [ ("owner", GitHubClient.owner c);
                      ("repo", GitHubClient.repo c);
                      ("pull_number", VNum (parseInt ticketId)) ]))
    (IssuesGet (VObj [ ("owner", GitHubClient.owner c);
                       ("repo", GitHubClient.repo c);
                       ("issue_number", VNum (parseInt ticketId)) ]))
    (fun response => let* pr := get response "data" in
                     GitHubClient.normalizeTicket pr)
    (fun response => let* issue := get response "data" in
                     GitHubClient.normalizeTicket issue) t.
Proof. apply try_catch_probes_first; apply run_attempt_unwrapped. Qed.

Lemma gitlab_getTicket_probing (c : GitLabClient.client) (ticketId : string)
    (t : transport) :
  probes_first (GitLabClient.getTicket c ticketId)
    (MergeRequestsShow (GitLabClient.projectId c) (parseInt ticketId))
    (IssuesShow (GitLabClient.projectId c) (parseInt ticketId))
    GitLabClient.normalizeTicket GitLabClient.normalizeTicket t.
Proof. apply try_catch_probes_first; apply run_attempt. Qed.

(** X19. The id of a ticket leads back to its record. On GitHub and GitLab
    the id is the decimal text of the record's number, and [parseInt] reads
    that number back: for a record numbered [z], [getTicket] on the returned
    id asks for pull request (merge request) [z] and, when that is rejected,
    for issue [z]; [addComment] on the returned id addresses number [z]. *)
Theorem ticket_id_leads_back (z : Z) (r : value) (ticket : StandardTicket) :
  (Z.abs z < 2 ^ 53)%Z ->
  (GitHubClient.normalizeTicket r = Ok ticket ->
   get r "number" = Ok (VNum (Int z)) ->
   exists ticketId,
     id (base_of ticket) = VStr ticketId
     /\ parseInt ticketId = Int z
     /\ forall c t comment,
          let numbered key :=
            VObj [ ("owner", GitHubClient.owner c);
                   ("repo", GitHubClient.repo c);
                   (key, VNum (Int z)) ] in
          (exists rest,
              issued (GitHubClient.getTicket c ticketId) t
              = PullsGet (numbered "pull_number") :: rest)
          /\ (forall e,
                 t (PullsGet (numbered "pull_number")) = Throw e ->
                 issued (GitHubClient.getTicket c ticketId) t
                 = [ PullsGet (numbered "pull_number");
                     IssuesGet (numbered "issue_number") ])
          /\ issued (GitHubClient.addComment c ticketId comment) t
             = [ IssuesCreateComment
                   (VObj [ ("owner", GitHubClient.owner c);
                           ("repo", GitHubClient.repo c);
                           ("issue_number", VNum (Int z));
                           ("body", VStr comment) ]) ])
  /\ (GitLabClient.normalizeTicket r = Ok ticket ->
      get r "iid" = Ok (VNum (Int z)) ->
      exists ticketId,
        id (base_of ticket) = VStr ticketId
        /\ parseInt ticketId = Int z
        /\ forall c t comment,
             (exists rest,
                 issued (GitLabClient.getTicket c ticketId) t
                 = MergeRequestsShow (GitLabClient.projectId c) (Int z) :: rest)
             /\ (forall e,
                    t (MergeRequestsShow (GitLabClient.projectId c) (Int z))
                    = Throw e ->
                    issued (GitLabClient.getTicket c ticketId) t
                    = [ MergeRequestsShow (GitLabClient.projectId c) (Int z);
                        IssuesShow (GitLabClient.projectId c) (Int z) ])
             /\ (exists rest,
                    issued (GitLabClient.addComment c ticketId comment) t
                    = MergeRequestNotesCreate (GitLabClient.projectId c)
                        (Int z) comment :: rest)).
Proof.
  intros _. split; intros H Hnumber.
  - unfold GitHubClient.normalizeTicket in H. invert_chain H. same_reads.
    match goal with
    | E : toString_method (VNum (Int z)) = Ok ?s |- _ =>
        cbn in E; injection E as <-
    end.
    exists (number_to_string (Int z)).
    split; [match type of H with
            | (if ?b then _ else _) = _ => destruct b
            end; invert_chain H; injection H as <-; reflexivity |].
    split; [apply parseInt_number_to_string |].
    intros c t comment. cbv zeta.
    pose proof (github_getTicket_probing c (number_to_string (Int z)) t)
      as Hprobe.
    rewrite parseInt_number_to_string in Hprobe.
    destruct Hprobe as (Hfirst & Hfallback & _).
    split; [exact Hfirst |]. split.
    + intros e He. exact (proj1 (Hfallback e He)).
    + unfold issued, GitHubClient.addComment. rewrite run_attempt_unwrapped.
      now rewrite parseInt_number_to_string.
  - unfold GitLabClient.normalizeTicket in H. invert_chain H. same_reads.
    match goal with
    | E : toString_method (VNum (Int z)) = Ok ?s |- _ =>
        cbn in E; injection E as <-
    end.
    exists (number_to_string (Int z)).
    split; [match type of H with
            | (if ?b then _ else _) = _ => destruct b
            end; invert_chain H; injection H as <-; reflexivity |].
    split; [apply parseInt_number_to_string |].
    intros c t comment.
    pose proof (gitlab_getTicket_probing c (number_to_string (Int z)) t)
      as Hprobe.
    rewrite parseInt_number_to_string in Hprobe.
    destruct Hprobe as (Hfirst & Hfallback & _).
    split; [exact Hfirst |]. split.
    + intros e He. exact (proj1 (Hfallback e He)).
    + destruct (addComment_updateTicket_probing (number_to_string (Int z))
                  comment Samples.retitle t) as (Hnote & _).
      destruct (Hnote c) as (Hnote1 & _).
      now rewrite parseInt_number_to_string in Hnote1.
Qed.

Lemma ticket_id_leads_back_witness :
  exists ticket ticketId,
    GitLabClient.normalizeTicket (VObj Samples.gitlab_issue) = Ok ticket
    /\ id (base_of ticket) = VStr ticketId
    /\ issued (GitLabClient.getTicket Samples.gitlab ticketId)
         Samples.gitlab_issue_only
       = [ MergeRequestsShow (GitLabClient.projectId Samples.gitlab) (Int 7);
           IssuesShow (GitLabClient.projectId Samples.gitlab) (Int 7) ].
Proof.
  eassert (Hread : GitLabClient.normalizeTicket (VObj Samples.gitlab_issue)
                   = Ok _) by reflexivity.
  assert (Hsafe : (Z.abs 7 < 2 ^ 53)%Z) by reflexivity.
  destruct (proj2 (ticket_id_leads_back 7 _ _ Hsafe) Hread eq_refl)
    as (ticketId & Hid & _ & Hback).
  destruct (Hback Samples.gitlab Samples.gitlab_issue_only EmptyString)
    as (_ & Hfallback & _).
  do 2 eexists. split; [exact Hread |]. split; [exact Hid |].
  exact (Hfallback (RemoteFailure "404") eq_refl).
Defined.

(** ** Records that cannot be read *)

Lemma match_method_only_TypeError (v : value) (label : string) :
  only_TypeError (match_method v label).
Proof. destruct v; simpl; auto with throws. Qed.

#[export] Hint Resolve match_method_only_TypeError : throws.

Lemma extract_branch_only_TypeError (description : value) (label : string) :
  only_TypeError (extract_branch description label).
Proof. unfold extract_branch. chain. Qed.

Lemma gitlab_user_person_only_TypeError (u : value) :
  only_TypeError (GitLabClient.user_person u).
Proof. unfold GitLabClient.user_person. chain. Qed.

Lemma gitlab_normalizeStatus_only_TypeError (status : value) :
  only_TypeError (GitLabClient.normalizeStatus status).
Proof.
  unfold GitLabClient.normalizeStatus. chain.
  match goal with |- only_TypeError (if ?b then _ else _) => destruct b end;
    chain.
Qed.

Lemma jira_account_person_only_TypeError (u : value) :
  only_TypeError (JiraClient.account_person u).
Proof. unfold JiraClient.account_person. chain. Qed.

Lemma servicenow_assigned_person_only_TypeError (a : value) :
  only_TypeError (ServiceNowClient.assigned_person a).
Proof. unfold ServiceNowClient.assigned_person. chain. Qed.

Lemma servicenow_normalizeStatus_only_TypeError (status : value) :
  only_TypeError (ServiceNowClient.normalizeStatus status).
Proof. unfold ServiceNowClient.normalizeStatus. chain. Qed.

#[export] Hint Resolve extract_branch_only_TypeError
  gitlab_user_person_only_TypeError gitlab_normalizeStatus_only_TypeError
  jira_account_person_only_TypeError servicenow_assigned_person_only_TypeError
  servicenow_normalizeStatus_only_TypeError : throws.

Lemma gitlab_normalizeTicket_only_TypeError (r : value) :
  only_TypeError (GitLabClient.normalizeTicket r).
Proof.
  unfold GitLabClient.normalizeTicket. chain.
  match goal with |- only_TypeError (if ?b then _ else _) => destruct b end;
    chain.
Qed.

Lemma jira_normalizeTicket_only_TypeError (r : value) :
  only_TypeError (JiraClient.normalizeTicket r).
Proof.
  unfold JiraClient.normalizeTicket. chain.
  match goal with |- only_TypeError (if ?b then _ else _) => destruct b end;
    chain.
  match goal with |- only_TypeError (match ?v with _ => _ end) => destruct v end;
    chain.
Qed.

Lemma servicenow_normalizeTicket_only_TypeError (r : value) :
  only_TypeError (ServiceNowClient.normalizeTicket r).
Proof.
  unfold ServiceNowClient.normalizeTicket. chain.
  match goal with |- only_TypeError (if ?b then _ else _) => destruct b end;
    chain.
Qed.



(** X21. A review request is only read when its description is text. On
    Jira and ServiceNow a record that is classified as a review request and
    whose description is neither empty nor a string cannot be normalised: the
    branch names are searched with [match], which only strings have, and the
    result is a [TypeError]. The same description on a record that is not a
    review request is returned as it is. *)
Theorem review_description_must_be_text (r description : value) :
  truthy description = true ->
  (forall s, description <> VStr s) ->
  (forall fields issuetype,
      get r "fields" = Ok fields ->
      get fields "description" = Ok description ->
      get fields "issuetype" = Ok issuetype ->
      get issuetype "name" = Ok (VStr "Review") ->
      JiraClient.normalizeTicket r = Throw TypeError)
  /\ (get r "description" = Ok description ->
      get r "sys_class_name" = Ok (VStr "change_request") ->
      get r "category" = Ok (VStr "Code Review") ->
      ServiceNowClient.normalizeTicket r = Throw TypeError)
  /\ (forall ticket,
         get r "description" = Ok description ->
         ServiceNowClient.normalizeTicket r = Ok ticket ->
         is_pull_request ticket = false
         /\ Tickets.description (base_of ticket) = description).
Proof.
  intros Htruthy Hkind.
  assert (Hkept : or_else description (VStr EmptyString) = description)
    by (unfold or_else; now rewrite Htruthy).
  assert (Hmatch : forall label a, extract_branch description label <> Ok a).
  { intros label a. unfold extract_branch.
    destruct description; try discriminate. now elim (Hkind s). }
  split; [| split].
  - intros fields issuetype Hf Hd Hi Hn.
    destruct (JiraClient.normalizeTicket r) as [ticket|e] eqn:H.
    + exfalso. unfold JiraClient.normalizeTicket in H. invert_chain H.
      same_reads. cbn [strict_eq_string] in H. rewrite String.eqb_refl in H.
      rewrite Hkept in H. apply bind_ok_inv in H as (source & Hs & _).
      exact (Hmatch _ _ Hs).
    + now rewrite (jira_normalizeTicket_only_TypeError r e H).
  - intros Hd Hc Hcat.
    destruct (ServiceNowClient.normalizeTicket r) as [ticket|e] eqn:H.
    + exfalso. unfold ServiceNowClient.normalizeTicket in H. invert_chain H.
      same_reads.
      match type of H with
      | (if ?b then _ else _) = _ => change b with true in H
      end.
      cbv iota in H. rewrite Hkept in H.
      apply bind_ok_inv in H as (source & Hs & _).
      exact (Hmatch _ _ Hs).
    + now rewrite (servicenow_normalizeTicket_only_TypeError r e H).
  - intros ticket Hd H.
    unfold ServiceNowClient.normalizeTicket in H. invert_chain H. same_reads.
    destruct (_ && _).
    + rewrite Hkept in H. apply bind_ok_inv in H as (source & Hs & _).
      now elim (Hmatch _ _ Hs).
    + injection H as <-. split; [reflexivity | exact Hkept].
Qed.

Lemma review_description_must_be_text_witness :
  JiraClient.normalizeTicket (Samples.jira_review Fixtures.document)
  = Throw TypeError.
Proof.
  assert (Hkind : forall s, Fixtures.document <> VStr s) by discriminate.
  exact (proj1 (review_description_must_be_text
                  (Samples.jira_review Fixtures.document) Fixtures.document
                  eq_refl Hkind)
           _ _ eq_refl eq_refl eq_refl eq_refl).
Defined.

(** ** Where errors come from *)

Lemma lift_passes_errors_on {A : Type} (r : result A) :
  only_TypeError r -> passes_errors_on (lift r).
Proof. intros Hr t e H. left. now apply Hr. Qed.

Lemma ret_passes_errors_on {A : Type} (a : A) : passes_errors_on (ret a).
Proof. intros t e H. discriminate. Qed.

Lemma call_passes_errors_on (q : request) : passes_errors_on (call q).
Proof. intros t e H. right. exists q. split; [now left | exact H]. Qed.

Lemma bind_passes_errors_on {A B : Type} (m : M A) (k : A -> M B) :
  passes_errors_on m -> (forall a, passes_errors_on (k a)) ->
  passes_errors_on (Remote.bind m k).
Proof.
  intros Hm Hk t e. specialize (Hm t). unfold outcome, issued, Remote.bind in *.
  destruct (m t) as [first [a|e']]; cbn [fst snd] in *.
  - specialize (Hk a t). unfold outcome, issued in Hk.
    destruct (k a t) as [more r]; cbn [fst snd] in *.
    intros H. destruct (Hk e H) as [-> | (q & Hq & Ht)]; [now left | right].
    exists q. split; [apply in_or_app; now right | exact Ht].
  - intros H. injection H as <-.
    destruct (Hm e' eq_refl) as [-> | (q & Hq & Ht)]; [now left | right].
    now exists q.
Qed.

Lemma try_catch_passes_errors_on {A : Type} (body handler : M A) :
  passes_errors_on handler -> passes_errors_on (try_catch body handler).
Proof.
  intros Hh t e. specialize (Hh t e).
  unfold outcome, issued, try_catch in *.
  destruct (body t) as [first [a|e']]; cbn [fst snd]; [discriminate |].
  destruct (handler t) as [more r]; cbn [fst snd] in *.
  intros H. destruct (Hh H) as [-> | (q & Hq & Ht)]; [now left | right].
  exists q. split; [apply in_or_app; now right | exact Ht].
Qed.

Lemma map_array_only_TypeError {A : Type} (f : value -> result A) (v : value) :
  (forall r, only_TypeError (f r)) -> only_TypeError (map_array f v).
Proof.
  intros Hf. destruct v; try apply Throw_only_TypeError.
  cbn [map_array]. induction items as [|x rest IH]; cbn [mapM].
  - apply Ok_only_TypeError.
  - apply bind_only_TypeError; [apply Hf | intros b].
    apply bind_only_TypeError; [exact IH | intros; apply Ok_only_TypeError].
Qed.

Lemma result_of_only_TypeError (response : value) :
  only_TypeError (ServiceNowClient.result_of response).
Proof. unfold ServiceNowClient.result_of. chain. Qed.

Lemma github_normalizeComment_only_TypeError (r : value) :
  only_TypeError (GitHubClient.normalizeComment r).
Proof. unfold GitHubClient.normalizeComment. chain. Qed.

Lemma gitlab_normalizeComment_only_TypeError (r : value) :
  only_TypeError (GitLabClient.normalizeComment r).
Proof. unfold GitLabClient.normalizeComment. chain. Qed.

Lemma servicenow_normalizeComment_only_TypeError (r : value) :
  only_TypeError (ServiceNowClient.normalizeComment r).
Proof. unfold ServiceNowClient.normalizeComment. chain. Qed.

Lemma query_of_only_TypeError (options : option TicketFilter) :
  only_TypeError (ServiceNowClient.query_of options).
Proof.
  intros e H. pose proof (query_of_total options) as Htotal.
  rewrite H in Htotal. discriminate.
Qed.

Lemma jql_of_only_TypeError (c : JiraClient.client)
    (options : option TicketFilter) :
  only_TypeError (JiraClient.jql_of c options).
Proof. unfold JiraClient.jql_of. chain. Qed.

#[export] Hint Resolve github_normalizeTicket_only_TypeError
  gitlab_normalizeTicket_only_TypeError jira_normalizeTicket_only_TypeError
  servicenow_normalizeTicket_only_TypeError map_array_only_TypeError
  result_of_only_TypeError github_normalizeComment_only_TypeError
  gitlab_normalizeComment_only_TypeError
  servicenow_normalizeComment_only_TypeError jql_of_only_TypeError
  query_of_only_TypeError : throws.

(** Splits an operation into its calls and its computations. *)
Ltac passes :=
  repeat first
    [ apply try_catch_passes_errors_on
    | apply bind_passes_errors_on; [| intros ?]
    | apply call_passes_errors_on
    | apply ret_passes_errors_on
    | apply lift_passes_errors_on; solve [auto with throws | chain] ].

(** X22. The adapters raise no error of their own. Whenever an operation
    fails, the error is the one the platform rejected one of the issued
    requests with, unchanged, or it is a [TypeError] raised while reading a
    malformed answer. *)
Theorem errors_come_from_the_platform :
  (forall c ticketId, passes_errors_on (GitHubClient.getTicket c ticketId))
  /\ (forall c options, passes_errors_on (GitHubClient.getTickets c options))
  /\ (forall c ticketId updates,
         passes_errors_on (GitHubClient.updateTicket c ticketId updates))
  /\ (forall c ticketId comment,
         passes_errors_on (GitHubClient.addComment c ticketId comment))
  /\ (forall c ticketId, passes_errors_on (GitLabClient.getTicket c ticketId))
  /\ (forall c options, passes_errors_on (GitLabClient.getTickets c options))
  /\ (forall c ticketId updates,
         passes_errors_on (GitLabClient.updateTicket c ticketId updates))
  /\ (forall c ticketId comment,
         passes_errors_on (GitLabClient.addComment c ticketId comment))
  /\ (forall c key, passes_errors_on (JiraClient.getTicket c key))
  /\ (forall c options, passes_errors_on (JiraClient.getTickets c options))
  /\ (forall c options, passes_errors_on (JiraClient.createTicket c options))
  /\ (forall c options,
         passes_errors_on (JiraClient.createReviewRequest c options))
  /\ (forall c ticketId,
         passes_errors_on (ServiceNowClient.getTicket c ticketId))
  /\ (forall c options,
         passes_errors_on (ServiceNowClient.getTickets c options))
  /\ (forall c options,
         passes_errors_on (ServiceNowClient.createTicket c options))
  /\ (forall c ticketId updates,
         passes_errors_on (ServiceNowClient.updateTicket c ticketId updates))
  /\ (forall c ticketId comment,
         passes_errors_on (ServiceNowClient.addComment c ticketId comment))
  /\ (forall c options,
         passes_errors_on (ServiceNowClient.createReviewRequest c options)).
Proof.
  repeat match goal with |- _ /\ _ => split end; intros.
  - unfold GitHubClient.getTicket. passes.
  - unfold GitHubClient.getTickets. passes.
  - unfold GitHubClient.updateTicket. passes.
  - unfold GitHubClient.addComment. passes.
  - unfold GitLabClient.getTicket. passes.
  - unfold GitLabClient.getTickets. passes.
  - unfold GitLabClient.updateTicket. passes.
  - unfold GitLabClient.addComment. passes.
  - unfold JiraClient.getTicket. passes.
  - unfold JiraClient.getTickets. passes.
  - unfold JiraClient.createTicket, JiraClient.getTicket. passes.
  - unfold JiraClient.createReviewRequest, JiraClient.getTicket. cbv zeta.
    passes. destruct (rr_reviewers options) as [[|first others]|]; passes.
  - unfold ServiceNowClient.getTicket. passes.
  - unfold ServiceNowClient.getTickets. passes.
    intros t e. unfold outcome, issued. cbn [fst snd].
    match goal with
    | |- Js.bind (t ?q1) _ = _ -> _ =>
        destruct (t q1) as [incidentResponse|e1] eqn:E1; cbn [Js.bind]
    end.
    + match goal with
      | |- Js.bind (t ?q2) _ = _ -> _ =>
          destruct (t q2) as [changeResponse|e2] eqn:E2; cbn [Js.bind]
      end.
      * intros H. left. revert H.
        match goal with
        | |- ?r = Throw e -> _ =>
            assert (Hr : only_TypeError r) by chain; apply Hr
        end.
      * intros H. injection H as <-. right. eexists.
        split; [right; left; reflexivity | exact E2].
    + intros H. injection H as <-. right. eexists.
      split; [left; reflexivity | exact E1].
  - unfold ServiceNowClient.createTicket. cbv zeta. passes.
  - unfold ServiceNowClient.updateTicket. cbv zeta. passes.
  - unfold ServiceNowClient.addComment. cbv zeta. passes.
  - unfold ServiceNowClient.createReviewRequest. passes.
Qed.

(** ** Comments on ServiceNow *)

(** X23. On ServiceNow a comment is a view of the record it was added to.
    [addComment] patches [work_notes] of the change request, or of the
    incident when that fails, and builds the comment from the record the
    platform answers with. When it returns, the comment's id is the id a read
    of that record gives the ticket, its date is the ticket's date of update
    and its author is named after the record's last updater, so that all
    comments on one record carry the id of the record. *)
Theorem servicenow_comment_is_the_record (c : ServiceNowClient.client)
    (ticketId text : string) (t : transport) (comment : TicketComment) :
  outcome (ServiceNowClient.addComment c ticketId text) t = Ok comment ->
  exists table response record,
    In table [ "change_request"; "incident" ]
    /\ In (HttpPatch ("/table/" ++ table ++ "/" ++ ticketId)
             (VObj [ ("work_notes", VStr text) ]))
         (issued (ServiceNowClient.addComment c ticketId text) t)
    /\ t (HttpPatch ("/table/" ++ table ++ "/" ++ ticketId)
            (VObj [ ("work_notes", VStr text) ]))
       = Ok response
    /\ ServiceNowClient.result_of response = Ok record
    /\ ServiceNowClient.normalizeComment record = Ok comment
    /\ get record "sys_id" = Ok (comment_id comment)
    /\ get record "sys_updated_by" = Ok (person_id (comment_author comment))
    /\ (forall ticket,
           ServiceNowClient.normalizeTicket record = Ok ticket ->
           comment_id comment = id (base_of ticket)
           /\ comment_createdAt comment = updatedAt (base_of ticket)).
Proof.
  intros H.
  assert (Hview : forall response record,
             ServiceNowClient.result_of response = Ok record ->
             ServiceNowClient.normalizeComment record = Ok comment ->
             get record "sys_id" = Ok (comment_id comment)
             /\ get record "sys_updated_by"
                = Ok (person_id (comment_author comment))
             /\ (forall ticket,
                    ServiceNowClient.normalizeTicket record = Ok ticket ->
                    comment_id comment = id (base_of ticket)
                    /\ comment_createdAt comment
                       = updatedAt (base_of ticket))).
  { intros response record _ Hc.
    unfold ServiceNowClient.normalizeComment in Hc. invert_chain Hc.
    injection Hc as <-. cbn [comment_id comment_author person_id
                              comment_createdAt].
    split; [assumption |]. split; [assumption |].
    intros ticket Ht. unfold ServiceNowClient.normalizeTicket in Ht.
    invert_chain Ht. same_reads.
    destruct (_ && _); invert_chain Ht; injection Ht as <-;
      split; reflexivity. }
  revert H.
  unfold outcome, issued, ServiceNowClient.addComment, try_catch. cbv zeta.
  rewrite !run_attempt_unwrapped. unfold attempt, ServiceNowClient.record_url.
  change ServiceNowClient.TABLE_CHANGE_REQUEST with "change_request".
  change ServiceNowClient.TABLE_INCIDENT with "incident".
  destruct (t (HttpPatch ("/table/" ++ "change_request" ++ "/" ++ ticketId) _))
    as [response1|e1] eqn:E1; cbn [Js.bind fst snd app].
  - destruct (ServiceNowClient.result_of response1) as [record1|e] eqn:R1;
      cbn [Js.bind].
    + destruct (ServiceNowClient.normalizeComment record1) as [k|e] eqn:N1.
      * intros H. injection H as <-.
        exists "change_request", response1, record1.
        split; [now left |]. split; [now left |]. split; [exact E1 |].
        split; [exact R1 |]. split; [exact N1 |]. eapply Hview; eassumption.
      * cbn [fst snd app].
        destruct (t (HttpPatch ("/table/" ++ "incident" ++ "/" ++ ticketId) _))
          as [response2|e2] eqn:E2; cbn [Js.bind]; [| discriminate].
        intros H. apply bind_ok_inv in H as (record2 & R2 & N2).
        exists "incident", response2, record2.
        split; [right; now left |]. split; [right; now left |].
        split; [exact E2 |]. split; [exact R2 |]. split; [exact N2 |].
        eapply Hview; eassumption.
    + cbn [fst snd app].
      destruct (t (HttpPatch ("/table/" ++ "incident" ++ "/" ++ ticketId) _))
        as [response2|e2] eqn:E2; cbn [Js.bind]; [| discriminate].
      intros H. apply bind_ok_inv in H as (record2 & R2 & N2).
      exists "incident", response2, record2.
      split; [right; now left |]. split; [right; now left |].
      split; [exact E2 |]. split; [exact R2 |]. split; [exact N2 |].
      eapply Hview; eassumption.
  - destruct (t (HttpPatch ("/table/" ++ "incident" ++ "/" ++ ticketId) _))
      as [response2|e2] eqn:E2; cbn [Js.bind]; [| discriminate].
    intros H. apply bind_ok_inv in H as (record2 & R2 & N2).
    exists "incident", response2, record2.
    split; [right; now left |]. split; [right; now left |].
    split; [exact E2 |]. split; [exact R2 |]. split; [exact N2 |].
    eapply Hview; eassumption.
Qed.

Lemma servicenow_comment_is_the_record_witness :
  exists comment ticket,
    outcome (ServiceNowClient.addComment Samples.servicenow
               "9d385017c611228701d22104cc95c371" "Restarted the relay")
      Fixtures.servicenow_incident_desk = Ok comment
    /\ ServiceNowClient.normalizeTicket (VObj Samples.canceled_incident)
       = Ok ticket
    /\ comment_id comment = id (base_of ticket).
Proof.
  eassert (Hrun : outcome (ServiceNowClient.addComment Samples.servicenow
                             "9d385017c611228701d22104cc95c371"
                             "Restarted the relay")
                    Fixtures.servicenow_incident_desk = Ok _)
    by reflexivity.
  eassert (Hread : ServiceNowClient.normalizeTicket
                     (VObj Samples.canceled_incident) = Ok _)
    by reflexivity.
  destruct (servicenow_comment_is_the_record _ _ _ _ _ Hrun)
    as (table & response & record & Htable & _ & Hanswer & Hrecord & _ & _
        & _ & Hview).
  do 2 eexists. split; [exact Hrun |]. split; [exact Hread |].
  destruct Htable as [<- | [<- | []]]; [discriminate |].
  injection Hanswer as <-. injection Hrecord as <-.
  exact (proj1 (Hview _ Hread)).
Defined.
